(** * claude-meter: usage aggregation and notification gating

    A shallow embedding of the three services of the application
    ([ClaudeOAuthService], [CCUsageService], [NotificationService]) and the
    properties of their caches and of the notification state machine.

    Conventions of the embedding.
    - A JavaScript [number] carrying a percentage or a cost is a rational
      ([Q]); token counts and millisecond clock readings are integers ([Z]),
      which is what the code computes as long as they stay below 2^53.
    - An ISO-8601 instant (["2025-01-01T10:00:00Z"]) is represented by the
      epoch millisecond it denotes, so [new Date(s).getTime()] is the
      identity; the empty string and [null] are both [None].
    - An ISO calendar day (["2025-01-01"]) is represented by its day number
      since the epoch: string equality of two such days is equality of the
      numbers and [new Date(day)] is UTC midnight of that day.
    - Every reading of the clock ([Date.now()], [new Date()]) is an explicit
      argument; every outcome of an awaited external operation (keychain,
      HTTP, ledger) is an explicit argument of the step that resumes after
      the [await].  The readings taken within one synchronous run of the
      code are one argument.  Where the code uses the local calendar, the
      offset of the host's time zone is an explicit argument as well.
    - An [async] method is split where it first suspends: its synchronous
      prefix ([_start]) and the code that runs once the awaited promises
      have settled ([_resume]).  Consecutive awaits between which the
      service state is neither read nor written resume in one step.  The
      method run without interleaving is the prefix followed by the rest.
    - A JavaScript exception is the [Throw] completion of the [Completion]
      type; [try]/[catch] is [try_catch].
    - Calls of the outside world (console, keychain, HTTP, ledger, timers,
      notifications) are recorded as a trace of [Event]s. *)

From Stdlib Require Import ZArith QArith Qround Qabs Lia.
From stdpp Require Import base strings pretty list gmap.

Open Scope Z_scope.

(** ** Shared types ([src/types/usage.ts]) *)

Definition Timestamp := Z.
Definition CalendarDay := Z.

Definition MS_PER_DAY : Z := 86400000.

(** [new Date(day)] for a calendar day: UTC midnight. *)
Definition dayStart (d : CalendarDay) : Timestamp := d * MS_PER_DAY.

(** [new Date(ms).toISOString().split('T')[0]]: the UTC calendar day. *)
Definition isoDay (ms : Timestamp) : CalendarDay := ms `div` MS_PER_DAY.

Inductive Status := safe | warning | critical.

Global Instance Status_eq_dec : EqDecision Status.
Proof. solve_decision. Defined.

Module CostSource.
Inductive t := today | sessionWindow.
Global Instance eq_dec : EqDecision t.
Proof. solve_decision. Defined.
End CostSource.

Module DisplayMode.
Inductive t := both | percentage | cost.
End DisplayMode.

Module ModelUsage.
Record t := mk { tokens : Z; cost : Q }.
End ModelUsage.

(** [models] holds the own properties of the [models] object, which is
    what [Object.keys], [Object.entries] and the copy sent to the window
    see. *)
Module DailyUsage.
Record t := mk {
  date : CalendarDay;
  totalTokens : Z;
  totalCost : Q;
  models : gmap string ModelUsage.t
}.
End DailyUsage.

Module Window.
Record t := mk {
  utilization : Q;
  resetsAt : option Timestamp;
  formattedTimeRemaining : string
}.
End Window.

Module ExtraUsage.
Record t := mk {
  isEnabled : bool;
  monthlyLimit : option Q;
  usedCredits : option Q;
  utilization : option Q
}.
End ExtraUsage.

Module OAuthUtilization.
Record t := mk {
  fiveHour : Window.t;
  sevenDay : Window.t;
  sevenDaySonnet : option Q;
  sevenDayOpus : option Window.t;
  extraUsage : option ExtraUsage.t;
  isAvailable : bool
}.
End OAuthUtilization.

Module UsageStats.
Record t := mk {
  today : DailyUsage.t;
  thisWeek : list DailyUsage.t;
  oauthUtilization : option OAuthUtilization.t
}.
End UsageStats.

Module Thresholds.
Record t := mk { warning : Z; critical : Z }.
End Thresholds.

(** [Partial<UserConfiguration>]: every key may be missing. *)
Module PartialConfiguration.
Record t := mk {
  menuBarCostSource : option CostSource.t;
  menuBarDisplayMode : option DisplayMode.t;
  notificationThresholds : option Thresholds.t
}.
End PartialConfiguration.

Module MenuBarData.
Record t := mk {
  percentageUsed : Q;
  cost : Q;
  status : Status;
  oauthUtilization : option OAuthUtilization.t
}.
End MenuBarData.

(** ** JavaScript primitives used by the services *)

(** [Math.round]: the nearest integer, halves towards plus infinity. *)
Definition Math_round (x : Q) : Z := Qfloor (x + (1 # 2))%Q.

(** The template-literal rendering of a status. *)
Definition statusText (s : Status) : string :=
  match s with
  | safe => "safe"
  | warning => "warning"
  | critical => "critical"
  end.

(** Completions of a call that may raise. *)
Inductive Completion (A : Type) :=
| Return (a : A)
| Throw (reason : string).
Arguments Return {A} a.
Arguments Throw {A} reason.

(** The settled state of an awaited promise. *)
Inductive Settled (A : Type) :=
| Fulfilled (a : A)
| Rejected (reason : string).
Arguments Fulfilled {A} a.
Arguments Rejected {A} reason.

(** [await p]: a rejection resurfaces as an exception. *)
Definition await {A} (p : Settled A) : Completion A :=
  match p with
  | Fulfilled a => Return a
  | Rejected r => Throw r
  end.

(** Observable interactions with the outside world, most recent last. *)
Inductive Event :=
| ConsoleError (message : string)
| KeychainExec
| HttpGet (bearer : string)
| GetUsageDataCall
| LoadSessionBlockData
| LoadDailyUsageData
| SendNotification (title body : string)
| SetTimeout (delay : Z).

Global Instance Event_eq_dec : EqDecision Event.
Proof. solve_decision. Defined.

Abbreviation Trace := (list Event).

(** Number of occurrences of an event in a trace. *)
Definition occurrences (e : Event) (tr : Trace) : nat :=
  length (filter (λ x, x = e) tr).

(** [s.padStart(width, "0")]. *)
Definition padStart (width : nat) (s : string) : string :=
  String.concat "" (replicate (width - String.length s) "0") +:+ s.

(** [x.toFixed(digits)] for a magnitude below 10^21: the nearest multiple of
    10^-digits, ties to the larger magnitude, written with exactly [digits]
    decimals; the sign is kept even when the digits are all zero. *)
Definition toFixed (digits : nat) (x : Q) : string :=
  let scale := 10 ^ Z.of_nat digits in
  let n := Qfloor (Qabs x * inject_Z scale + (1 # 2))%Q in
  let sign := if Qlt_le_dec x 0 then "-" else "" in
  match digits with
  | O => sign +:+ pretty n
  | S _ =>
      sign +:+ pretty (n `div` scale) +:+ "." +:+
      padStart digits (pretty (n `mod` scale))
  end.

(** ** A monad for stateful code that logs and may raise

    A computation over a state [S] returns the state it leaves behind, the
    events it produced, and how it completed.  State changes made before an
    exception are kept, as in JavaScript. *)

Definition M (S A : Type) : Type := S → S * Trace * Completion A.

Global Instance M_ret {S} : MRet (M S) := λ A a s, (s, [], Return a).

Global Instance M_bind {S} : MBind (M S) := λ A B f m s,
  match m s with
  | (s1, tr1, Return a) =>
      let '(s2, tr2, c) := f a s1 in (s2, tr1 ++ tr2, c)
  | (s1, tr1, Throw r) => (s1, tr1, Throw r)
  end.

Definition emit {S} (e : Event) : M S unit := λ s, (s, [e], Return tt).

Definition throw {S A} (reason : string) : M S A := λ s, (s, [], Throw reason).

Definition getState {S} : M S S := λ s, (s, [], Return s).

Definition putState {S} (s' : S) : M S unit := λ _, (s', [], Return tt).

(** A completion computed earlier re-enters the computation. *)
Definition complete {S A} (c : Completion A) : M S A := λ s, (s, [], c).

(** [try { body } catch (error) { handler(error) }]. *)
Definition try_catch {S A} (body : M S A) (handler : string → M S A) : M S A := λ s,
  match body s with
  | (s1, tr1, Return a) => (s1, tr1, Return a)
  | (s1, tr1, Throw r) =>
      let '(s2, tr2, c) := handler r s1 in (s2, tr1 ++ tr2, c)
  end.

(** Run a computation of a component on the part of the state it owns. *)
Definition zoom {S T A} (proj : S → T) (inj : T → S → S) (m : M T A) : M S A := λ s,
  let '(t', tr, c) := m (proj s) in (inj t' s, tr, c).

(** ** [NotificationService] ([src/services/notificationService.ts]) *)

Module NotificationService.

Record t := mk {
  lastNotificationTime : Z;
  lastWarningLevel : Status;
  lastNotificationData : string;
  notificationInProgress : bool
}.

Definition NOTIFICATION_COOLDOWN : Z := 300000.

Definition LOCK_DELAY : Z := 1000.

(** The field initialisers of the class. *)
Definition initial : t :=
  mk 0 safe "" false.

Inductive Source := auto | manual.

Definition dataIdentifier (data : MenuBarData.t) : string :=
  statusText (MenuBarData.status data) +:+ "-" +:+
  pretty (Math_round (MenuBarData.percentageUsed data)).

Definition criticalTitle : string := "Claude Meter: Usage Critical".
Definition warningTitle : string := "Claude Meter: Usage Warning".

Definition criticalBody (data : MenuBarData.t) : string :=
  "You've used " +:+ pretty (Math_round (MenuBarData.percentageUsed data)) +:+
  "% of your tokens. Consider upgrading your plan.".

Definition warningBody (data : MenuBarData.t) : string :=
  "You've used " +:+ pretty (Math_round (MenuBarData.percentageUsed data)) +:+
  "% of your tokens. Monitor your usage carefully.".

(** The title and body chosen by the two edge tests, [None] when
    [shouldNotify] stays false. *)
Definition edge (data : MenuBarData.t) (this : t) : option (string * string) :=
  if bool_decide (MenuBarData.status data = critical)
     && negb (bool_decide (lastWarningLevel this = critical))
  then Some (criticalTitle, criticalBody data)
  else if bool_decide (MenuBarData.status data = warning)
          && bool_decide (lastWarningLevel this = safe)
  then Some (warningTitle, warningBody data)
  else None.

(** [checkAndNotify(data, source)] called when the clock reads [now].
    The result is the service after the call and the effects it
    requested: the notification handed to [sendNotification] and the
    one-second timer that releases the lock. *)
Definition checkAndNotify (now : Z) (data : MenuBarData.t) (source : Source)
    (this : t) : t * Trace :=
  let timeSinceLastNotification := now - lastNotificationTime this in
  let id := dataIdentifier data in
  if bool_decide (lastNotificationData this = id) || notificationInProgress this
  then (this, [])
  else if bool_decide (timeSinceLastNotification < NOTIFICATION_COOLDOWN)
  then (this, [])
  else
    match edge data this with
    | Some (title, body) =>
        (mk now (MenuBarData.status data) id true,
         [SendNotification title body; SetTimeout LOCK_DELAY])
    | None => (this, [])
    end.

(** The callback installed by [setTimeout]. *)
Definition releaseLock (this : t) : t :=
  mk (lastNotificationTime this) (lastWarningLevel this)
     (lastNotificationData this) false.

(** Whether a trace of effects contains a call of [sendNotification]. *)
Definition fired (effects : Trace) : bool :=
  existsb (λ e, match e with SendNotification _ _ => true | _ => false end) effects.

(** The service together with the due times of its pending timers. *)
Record Gate := mkGate {
  service : t;
  timers : list Z
}.

Definition start : Gate := mkGate initial [].

(** The event loop runs the callbacks that are due before a later task. *)
Definition runTimers (now : Z) (g : Gate) : Gate :=
  let due := List.filter (λ at_, at_ <=? now) (timers g) in
  let pending := List.filter (λ at_, negb (at_ <=? now)) (timers g) in
  match due with
  | [] => g
  | _ :: _ => mkGate (releaseLock (service g)) pending
  end.

Definition newTimers (now : Z) (effects : Trace) : list Z :=
  omap (λ e, match e with SetTimeout d => Some (now + d) | _ => None end) effects.

(** One polling task: due timers first, then [checkAndNotify]. *)
Definition poll (now : Z) (data : MenuBarData.t) (g : Gate) : Gate * bool :=
  let g1 := runTimers now g in
  let '(s, effects) := checkAndNotify now data auto (service g1) in
  (mkGate s (timers g1 ++ newTimers now effects), fired effects).

(** A sequence of polls; the result lists which of them fired. *)
Fixpoint run (calls : list (Z * MenuBarData.t)) (g : Gate) : Gate * list bool :=
  match calls with
  | [] => (g, [])
  | (now, data) :: rest =>
      let '(g1, f) := poll now data g in
      let '(g2, fs) := run rest g1 in
      (g2, f :: fs)
  end.

(** States the process can be in: the initial one and those reached from
    it by polls. *)
Inductive reachable : Gate → Prop :=
| reachable_start : reachable start
| reachable_poll now data g :
    reachable g → reachable (poll now data g).1.

(** The host as [sendNotification] meets it: what
    [Notification.isSupported()] answers, whether constructing and showing
    a notification succeeds, and the locale's rendering of an integer. *)
Record Platform := mkPlatform {
  isSupported : Completion bool;
  show : Completion unit;
  toLocaleString : Z → string
}.

(** The notifications on the screen, oldest first. *)
Abbreviation Screen := (list (string * string)).

Definition display (title body : string) : M Screen unit := λ screen,
  (screen ++ [(title, body)], [], Return tt).

(** [sendNotification(title, body)]. *)
Definition sendNotification (host : Platform) (title body : string) : M Screen unit :=
  try_catch
    (supported ← complete (isSupported host);
     if supported : bool
     then complete (show host);; display title body
     else mret tt)
    (λ error, emit (ConsoleError "Error sending notification:")).

Definition summaryTitle : string := "Claude Meter: Daily Summary".

Definition summaryBody (host : Platform) (tokensUsed : Z) (cost : Q) : string :=
  "Today: " +:+ toLocaleString host tokensUsed +:+ " tokens used, $" +:+
  toFixed 3 cost +:+ " spent".

(** [sendDailySummary(tokensUsed, cost)]. *)
Definition sendDailySummary (host : Platform) (tokensUsed : Z) (cost : Q)
    : M Screen unit :=
  supported ← complete (isSupported host);
  if negb supported then mret tt
  else sendNotification host summaryTitle (summaryBody host tokensUsed cost).

End NotificationService.

(** ** [ClaudeOAuthService] ([src/services/claudeOAuthService.ts]) *)

Module ClaudeUsageLimit.
Record t := mk {
  utilization : Q;
  resets_at : option Timestamp
}.
End ClaudeUsageLimit.

Module ClaudeExtraUsage.
Record t := mk {
  is_enabled : bool;
  monthly_limit : option Q;
  used_credits : option Q;
  utilization : option Q
}.
End ClaudeExtraUsage.

Module ClaudeUsageData.
Record t := mk {
  five_hour : ClaudeUsageLimit.t;
  seven_day : ClaudeUsageLimit.t;
  seven_day_sonnet : option ClaudeUsageLimit.t;
  seven_day_opus : option ClaudeUsageLimit.t;
  seven_day_oauth_apps : option ClaudeUsageLimit.t;
  extra_usage : option ClaudeExtraUsage.t
}.
End ClaudeUsageData.

(** The object a response body parses to, before it has been validated:
    either mandatory window may be missing. *)
Module UsageBody.
Record t := mk {
  five_hour : option ClaudeUsageLimit.t;
  seven_day : option ClaudeUsageLimit.t;
  seven_day_sonnet : option ClaudeUsageLimit.t;
  seven_day_opus : option ClaudeUsageLimit.t;
  seven_day_oauth_apps : option ClaudeUsageLimit.t;
  extra_usage : option ClaudeExtraUsage.t
}.
End UsageBody.

(** What [JSON.parse] makes of a body: the literal [null] or an object. *)
Inductive Json (A : Type) :=
| JsonNull
| JsonObject (o : A).
Arguments JsonNull {A}.
Arguments JsonObject {A} o.

Module OAuthEntry.
Record t := mk {
  accessToken : string;
  refreshToken : option string;
  expiresAt : option string
}.
End OAuthEntry.

Module ClaudeCredentials.
Record t := mk { claudeAiOauth : option OAuthEntry.t }.
End ClaudeCredentials.

Module Response.
Record t := mk {
  ok : bool;
  status : Z;
  statusText : string;
  json : Settled (Json UsageBody.t)
}.
End Response.

Module ClaudeOAuthService.

Record t := mk {
  cachedUsage : option ClaudeUsageData.t;
  lastFetch : Z
}.

Definition CACHE_DURATION : Z := 30000.

Definition initial : t := mk None 0.

(** The outside world as one call meets it: how the keychain command
    settles and what [JSON.parse] makes of its output, and how the HTTP
    request settles. *)
Record Env := mkEnv {
  keychain : Settled (Completion (Json ClaudeCredentials.t));
  http : Settled Response.t
}.

(** The part of [getAccessToken] that runs once the keychain command has
    settled.  The command itself is issued by [getUsageData_start]. *)
Definition getAccessToken_resume (kc : Settled (Completion (Json ClaudeCredentials.t)))
    : M t (option string) :=
  try_catch
    (stdout ← complete (await kc);
     credentials ← complete stdout;
     match credentials with
     | JsonNull => throw "TypeError"
     | JsonObject c =>
         match ClaudeCredentials.claudeAiOauth c with
         | Some o =>
             if bool_decide (OAuthEntry.accessToken o = "")
             then emit (ConsoleError "No OAuth access token found in credentials");;
                  mret None
             else mret (Some (OAuthEntry.accessToken o))
         | None =>
             emit (ConsoleError "No OAuth access token found in credentials");;
             mret None
         end
     end)
    (λ error,
       emit (ConsoleError "Failed to retrieve Claude Code credentials from Keychain:");;
       mret None).

(** Where a call stands when it first suspends. *)
Inductive Started :=
| FromCache (data : ClaudeUsageData.t)
| AwaitingToken.

Definition fresh (now : Z) (this : t) : bool :=
  match cachedUsage this with
  | Some _ => bool_decide (now - lastFetch this < CACHE_DURATION)
  | None => false
  end.

(** The synchronous prefix of [getUsageData]: the cache test and, on a
    miss, the launch of the keychain command. *)
Definition getUsageData_start (now : Z) : M t Started :=
  this ← getState;
  match cachedUsage this with
  | Some data =>
      if bool_decide (now - lastFetch this < CACHE_DURATION)
      then mret (FromCache data)
      else emit KeychainExec;; mret AwaitingToken
  | None => emit KeychainExec;; mret AwaitingToken
  end.

Definition validate (o : UsageBody.t) : option ClaudeUsageData.t :=
  match UsageBody.five_hour o, UsageBody.seven_day o with
  | Some f, Some s =>
      Some (ClaudeUsageData.mk f s (UsageBody.seven_day_sonnet o)
              (UsageBody.seven_day_opus o) (UsageBody.seven_day_oauth_apps o)
              (UsageBody.extra_usage o))
  | _, _ => None
  end.

(** The rest of [getUsageData] after a cache miss; [now] is the reading
    taken when the call started. *)
Definition getUsageData_resume (now : Z) (env : Env) : M t (option ClaudeUsageData.t) :=
  accessToken ← getAccessToken_resume (keychain env);
  match accessToken with
  | None => mret None
  | Some token =>
      try_catch
        (emit (HttpGet token);;
         response ← complete (await (http env));
         if negb (Response.ok response)
         then emit (ConsoleError ("OAuth usage API returned " +:+
                      pretty (Response.status response) +:+ ": " +:+
                      Response.statusText response));;
              mret None
         else
           body ← complete (await (Response.json response));
           match body with
           | JsonNull => throw "TypeError"
           | JsonObject o =>
               match validate o with
               | None =>
                   emit (ConsoleError "Invalid usage data structure:");;
                   mret None
               | Some data =>
                   putState (mk (Some data) now);;
                   mret (Some data)
               end
           end)
        (λ error,
           emit (ConsoleError "Failed to fetch OAuth usage data:");;
           mret None)
  end.

(** [getUsageData()] run to completion without interleaving. *)
Definition getUsageData (now : Z) (env : Env) : M t (option ClaudeUsageData.t) :=
  started ← getUsageData_start now;
  match started with
  | FromCache data => mret (Some data)
  | AwaitingToken => getUsageData_resume now env
  end.

(** [formatTimeUntilReset(resetsAt)] when the clock reads [now]. *)
Definition formatTimeUntilReset (now : Z) (resetsAt : Timestamp) : string :=
  let diff := resetsAt - now in
  if bool_decide (diff ≤ 0) then "Resetting..."
  else
    let hours := diff `div` (1000 * 60 * 60) in
    let minutes := (diff `mod` (1000 * 60 * 60)) `div` (1000 * 60) in
    if bool_decide (hours > 24) then
      let days := hours `div` 24 in
      let remainingHours := hours `mod` 24 in
      pretty days +:+ "d " +:+ pretty remainingHours +:+ "h"
    else if bool_decide (hours > 0) then
      pretty hours +:+ "h " +:+ pretty minutes +:+ "m"
    else pretty minutes +:+ "m".

Definition clearCache (this : t) : t := mk None 0.

(** [getAccessToken()] run to completion. *)
Definition getAccessToken (kc : Settled (Completion (Json ClaudeCredentials.t)))
    : M t (option string) :=
  emit KeychainExec;;
  getAccessToken_resume kc.

(** [hasCredentials()]. *)
Definition hasCredentials (kc : Settled (Completion (Json ClaudeCredentials.t)))
    : M t bool :=
  token ← getAccessToken kc;
  mret (bool_decide (token ≠ None)).

(** The object [{ utilization, resetsAt }] of the two window getters. *)
Record WindowReading := mkReading {
  readingUtilization : Q;
  readingResetsAt : Timestamp
}.

Definition readWindow (l : ClaudeUsageLimit.t) : option WindowReading :=
  match ClaudeUsageLimit.resets_at l with
  | Some r => Some (mkReading (ClaudeUsageLimit.utilization l) r)
  | None => None
  end.

(** [getFiveHourUtilization()]. *)
Definition getFiveHourUtilization (now : Z) (env : Env) : M t (option WindowReading) :=
  data ← getUsageData now env;
  match data with
  | Some d => mret (readWindow (ClaudeUsageData.five_hour d))
  | None => mret None
  end.

(** [getSevenDayUtilization()]. *)
Definition getSevenDayUtilization (now : Z) (env : Env) : M t (option WindowReading) :=
  data ← getUsageData now env;
  match data with
  | Some d => mret (readWindow (ClaudeUsageData.seven_day d))
  | None => mret None
  end.

End ClaudeOAuthService.

(** ** [CCUsageService] ([src/services/ccusageService.ts]) *)

Module ModelBreakdown.
Record t := mk {
  modelName : string;
  inputTokens : Z;
  outputTokens : Z;
  cacheCreationTokens : Z;
  cacheReadTokens : Z;
  cost : Q
}.
End ModelBreakdown.

Module DailyDataEntry.
Record t := mk {
  date : CalendarDay;
  inputTokens : Z;
  outputTokens : Z;
  cacheCreationTokens : Z;
  cacheReadTokens : Z;
  totalCost : Q;
  modelBreakdowns : list ModelBreakdown.t
}.
End DailyDataEntry.

Module SessionBlock.
Record t := mk {
  id : string;
  startTime : Timestamp;
  endTime : Timestamp;
  isActive : bool;
  isGap : option bool;
  costUSD : Q
}.
End SessionBlock.

(** A [UsageStats] object on the heap: its address tells two objects with
    equal contents apart.  The objects are never mutated, so the contents
    travel with the address. *)
Module Ref.
Record t := mk {
  addr : nat;
  value : UsageStats.t
}.
End Ref.

(** What one cache miss of [getUsageStats] meets: how the two ledger reads
    settle, what the rate-limit call meets, the clock when the three have
    settled, and the time zone of the host: the offset of local time from
    UTC at that instant ([zoneOffset]) and the offset in force at the same
    local time of day seven calendar days earlier ([zoneOffsetWeekAgo]);
    the two differ only when a zone change fell into the week. *)
Module Fetch.
Record t := mk {
  blocks : Settled (option (list SessionBlock.t));
  dailyData : Settled (option (list DailyDataEntry.t));
  oauth : ClaudeOAuthService.Env;
  settledAt : Z;
  zoneOffset : Z;
  zoneOffsetWeekAgo : Z
}.
End Fetch.

(** [d.setDate(d.getDate() - days)] on a [Date] holding the instant [t]:
    the local time [t + offset] is moved back by whole calendar days, which
    keeps the local time of day, and read back as an instant with the
    offset in force there. *)
Definition setDateBack (days : Z) (t offset offsetThen : Z) : Timestamp :=
  (t + offset) - days * MS_PER_DAY - offsetThen.

Module CCUsageService.

Record t := mk {
  cachedStats : option Ref.t;
  lastUpdate : Z;
  oauthService : ClaudeOAuthService.t;
  menuBarCostSource : CostSource.t;
  sessionBlocks : list SessionBlock.t
}.

Definition CACHE_DURATION : Z := 3000.

Definition initial : t :=
  mk None 0 ClaudeOAuthService.initial CostSource.today [].

(** The service and the number of [UsageStats] objects allocated so far. *)
Record Process := mkProcess {
  service : t;
  allocated : nat
}.

Definition boot : Process := mkProcess initial 0.

Definition withService (f : t → t) (p : Process) : Process :=
  mkProcess (f (service p)) (allocated p).

Definition setOAuth (o : ClaudeOAuthService.t) (p : Process) : Process :=
  withService (λ this, mk (cachedStats this) (lastUpdate this) o
                          (menuBarCostSource this) (sessionBlocks this)) p.

Definition setSessionBlocks (b : list SessionBlock.t) : M Process unit := λ p,
  (withService (λ this, mk (cachedStats this) (lastUpdate this) (oauthService this)
                           (menuBarCostSource this) b) p, [], Return tt).

Definition setCache (r : Ref.t) (now : Z) : M Process unit := λ p,
  (withService (λ this, mk (Some r) now (oauthService this)
                           (menuBarCostSource this) (sessionBlocks this)) p, [], Return tt).

(** An object literal of type [UsageStats]: a new heap object. *)
Definition alloc (v : UsageStats.t) : M Process Ref.t := λ p,
  (mkProcess (service p) (S (allocated p)), [], Return (Ref.mk (allocated p) v)).

Definition updateConfiguration (config : PartialConfiguration.t) (this : t) : t :=
  let source :=
    match PartialConfiguration.menuBarCostSource config with
    | Some c => c
    | None => menuBarCostSource this
    end in
  mk None (lastUpdate this) (oauthService this) source (sessionBlocks this).

Definition modelTokens (mb : ModelBreakdown.t) : Z :=
  ModelBreakdown.inputTokens mb + ModelBreakdown.outputTokens mb +
  ModelBreakdown.cacheCreationTokens mb + ModelBreakdown.cacheReadTokens mb.

(** [acc[name] = usage] on the object that [reduce] starts from [{}].  The
    name ["__proto__"] is the accessor inherited from [Object.prototype]:
    assigning an object to it replaces the prototype of [acc] and adds no
    own property.  Every other name becomes or overwrites an own property
    ([Object.prototype] and a prototype put in place by an earlier
    ["__proto__"] row carry writable data properties only). *)
Definition assign (name : string) (usage : ModelUsage.t)
    (acc : gmap string ModelUsage.t) : gmap string ModelUsage.t :=
  if bool_decide (name = "__proto__") then acc else <[name := usage]> acc.

Definition processDay (day : DailyDataEntry.t) : DailyUsage.t :=
  DailyUsage.mk
    (DailyDataEntry.date day)
    (DailyDataEntry.inputTokens day + DailyDataEntry.outputTokens day +
     DailyDataEntry.cacheCreationTokens day + DailyDataEntry.cacheReadTokens day)
    (DailyDataEntry.totalCost day)
    (foldl (λ acc mb,
              assign (ModelBreakdown.modelName mb)
                     (ModelUsage.mk (modelTokens mb) (ModelBreakdown.cost mb)) acc)
           ∅
           (List.filter (λ mb, negb (bool_decide (ModelBreakdown.modelName mb = "<synthetic>")))
                        (DailyDataEntry.modelBreakdowns day))).

Definition processDailyData (data : list DailyDataEntry.t) : list DailyUsage.t :=
  map processDay data.

Definition formatWindow (now : Z) (l : ClaudeUsageLimit.t) : Window.t :=
  let resetDate := default now (ClaudeUsageLimit.resets_at l) in
  Window.mk (ClaudeUsageLimit.utilization l) (ClaudeUsageLimit.resets_at l)
            (ClaudeOAuthService.formatTimeUntilReset now resetDate).

Definition unavailableWindow : Window.t := Window.mk 0 None "Unknown".

(** [formatOAuthData(data)] when the clock reads [now]. *)
Definition formatOAuthData (now : Z) (data : option ClaudeUsageData.t) : OAuthUtilization.t :=
  match data with
  | None =>
      OAuthUtilization.mk unavailableWindow unavailableWindow None None None false
  | Some d =>
      OAuthUtilization.mk
        (formatWindow now (ClaudeUsageData.five_hour d))
        (formatWindow now (ClaudeUsageData.seven_day d))
        (ClaudeUsageLimit.utilization <$> ClaudeUsageData.seven_day_sonnet d)
        (match ClaudeUsageData.seven_day_opus d with
         | Some o =>
             if Qlt_le_dec 0 (ClaudeUsageLimit.utilization o)
             then Some (Window.mk (ClaudeUsageLimit.utilization o)
                          (ClaudeUsageLimit.resets_at o)
                          (match ClaudeUsageLimit.resets_at o with
                           | Some r => ClaudeOAuthService.formatTimeUntilReset now r
                           | None => "N/A"
                           end))
             else None
         | None => None
         end)
        ((λ e, ExtraUsage.mk (ClaudeExtraUsage.is_enabled e)
                 (ClaudeExtraUsage.monthly_limit e)
                 (ClaudeExtraUsage.used_credits e)
                 (ClaudeExtraUsage.utilization e)) <$> ClaudeUsageData.extra_usage d)
        true
  end.

(** [x || 0] on a number. *)
Definition orZero (x : Q) : Q := if Qeq_bool x 0 then 0%Q else x.

Definition WINDOW_MS : Z := 5 * 60 * 60 * 1000.

(** [getSessionWindowCost()] when the clock reads [now]: the loop over the
    stored blocks with its running total. *)
Definition getSessionWindowCost (now : Z) (this : t) : Q :=
  match sessionBlocks this with
  | [] => 0%Q
  | _ :: _ =>
      let windowStart := now - WINDOW_MS in
      foldl (λ total block,
               if bool_decide (SessionBlock.isGap block = Some true) then total
               else if bool_decide (SessionBlock.startTime block >= windowStart)
               then (total + orZero (SessionBlock.costUSD block))%Q
               else total)
            0%Q (sessionBlocks this)
  end.

Definition getStatus (percentageUsed : Q) : Status :=
  if Qle_bool 90 percentageUsed then critical
  else if Qle_bool 70 percentageUsed then warning
  else safe.

Definition getEmptyDay (now : Z) : DailyUsage.t :=
  DailyUsage.mk (isoDay now) 0 0 ∅.

Definition getEmptyStats (now : Z) : UsageStats.t :=
  UsageStats.mk (getEmptyDay now) [] None.

(** Where a call of [getUsageStats] stands when it first suspends: it has
    returned the cached object, or it has issued the three fetches. *)
Inductive Begun :=
| Hit (r : Ref.t)
| Miss (oauthCall : ClaudeOAuthService.Started).

Definition issueFetches (now : Z) : M Process Begun :=
  emit LoadSessionBlockData;;
  emit LoadDailyUsageData;;
  emit GetUsageDataCall;;
  oauthCall ← zoom (λ p, oauthService (service p)) setOAuth
                   (ClaudeOAuthService.getUsageData_start now);
  mret (Miss oauthCall).

(** The synchronous prefix of [getUsageStats]: the cache test and, on a
    miss, the three calls whose promises go to [Promise.all]. *)
Definition getUsageStats_start (now : Z) : M Process Begun :=
  p ← getState;
  match cachedStats (service p) with
  | Some r =>
      if bool_decide (now - lastUpdate (service p) < CACHE_DURATION)
      then mret (Hit r)
      else issueFetches now
  | None => issueFetches now
  end.

(** The instant [weekAgo] of the filter: [new Date()] moved by
    [setDate(getDate() - 7)]. *)
Definition weekAgo (f : Fetch.t) : Timestamp :=
  setDateBack 7 (Fetch.settledAt f) (Fetch.zoneOffset f) (Fetch.zoneOffsetWeekAgo f).

Definition merge (f : Fetch.t) (processedDaily : list DailyUsage.t)
    (oauthData : option ClaudeUsageData.t) : UsageStats.t :=
  let todayStr := isoDay (Fetch.settledAt f) in
  let today :=
    default (getEmptyDay (Fetch.settledAt f))
            (List.find (λ d, bool_decide (DailyUsage.date d = todayStr)) processedDaily) in
  let thisWeek :=
    List.filter (λ d, bool_decide (dayStart (DailyUsage.date d) >= weekAgo f))
                processedDaily in
  UsageStats.mk today thisWeek
    (match oauthData with
     | Some d => Some (formatOAuthData (Fetch.settledAt f) (Some d))
     | None => None
     end).

(** The rest of [getUsageStats] once the three promises have settled, the
    rate-limit call first.  [now] is the reading taken when the call
    started.  When a ledger read is rejected, [Promise.all] rejects without
    waiting for what is still pending: the schedule in which the rate-limit
    call is still in flight at that moment is [getUsageStats_rejected]
    below. *)
Definition getUsageStats_resume (now : Z) (f : Fetch.t)
    (oauthCall : ClaudeOAuthService.Started) : M Process Ref.t :=
  try_catch
    (oauthData ←
       match oauthCall with
       | ClaudeOAuthService.FromCache d => mret (Some d)
       | ClaudeOAuthService.AwaitingToken =>
           zoom (λ p, oauthService (service p)) setOAuth
                (ClaudeOAuthService.getUsageData_resume now (Fetch.oauth f))
       end;
     blocks ← complete (await (Fetch.blocks f));
     dailyData ← complete (await (Fetch.dailyData f));
     setSessionBlocks (default [] blocks);;
     let processedDaily := processDailyData (default [] dailyData) in
     stats ← alloc (merge f processedDaily oauthData);
     setCache stats now;;
     mret stats)
    (λ error,
       emit (ConsoleError "Error fetching usage stats:");;
       alloc (getEmptyStats (Fetch.settledAt f))).

(** [getUsageStats()] run to completion without interleaving. *)
Definition getUsageStats (now : Z) (f : Fetch.t) : M Process Ref.t :=
  begun ← getUsageStats_start now;
  match begun with
  | Hit r => mret r
  | Miss oauthCall => getUsageStats_resume now f oauthCall
  end.

(** The other schedule of a failed refresh: a ledger read is rejected
    while the rate-limit call is still in flight.  [Promise.all] rejects at
    once, the [catch] block runs and [getUsageStats] returns; the
    rate-limit call goes on by itself and settles after the return
    ([oauthCall_settles]), its result unused. *)
Definition getUsageStats_rejected (f : Fetch.t) : M Process Ref.t :=
  emit (ConsoleError "Error fetching usage stats:");;
  alloc (getEmptyStats (Fetch.settledAt f)).

Definition oauthCall_settles (now : Z) (f : Fetch.t)
    (oauthCall : ClaudeOAuthService.Started) : M Process unit :=
  match oauthCall with
  | ClaudeOAuthService.FromCache d => mret tt
  | ClaudeOAuthService.AwaitingToken =>
      zoom (λ p, oauthService (service p)) setOAuth
           (ClaudeOAuthService.getUsageData_resume now (Fetch.oauth f));;
      mret tt
  end.

(** [getMenuBarData()]; [menuNow] is the clock when the cost is computed. *)
Definition getMenuBarData (now : Z) (f : Fetch.t) (menuNow : Z) : M Process MenuBarData.t :=
  r ← getUsageStats now f;
  p ← getState;
  let stats := Ref.value r in
  let percentageUsed :=
    match UsageStats.oauthUtilization stats with
    | Some o =>
        if OAuthUtilization.isAvailable o
        then Window.utilization (OAuthUtilization.fiveHour o)
        else 0%Q
    | None => 0%Q
    end in
  let cost :=
    if bool_decide (menuBarCostSource (service p) = CostSource.sessionWindow)
    then getSessionWindowCost menuNow (service p)
    else DailyUsage.totalCost (UsageStats.today stats) in
  mret (MenuBarData.mk percentageUsed cost (getStatus percentageUsed)
          (UsageStats.oauthUtilization stats)).

End CCUsageService.

(** ** [SettingsService] ([src/services/settingsService.ts])

    The settings file is represented by what [JSON.parse] makes of its
    text; [JSON.stringify] of a settings object is the object with its
    three keys present.  Of a parsed file the service reads the three keys
    [menuBarDisplayMode], [menuBarCostSource] and [notificationThresholds]
    and nothing else. *)

Module AppSettings.
Record t := mk {
  menuBarDisplayMode : string;
  menuBarCostSource : string;
  notificationThresholds : Thresholds.t
}.
End AppSettings.

(** [Partial<AppSettings>], also the shape of a parsed settings file: a key
    is present or not, and the two string keys are not validated. *)
Module PartialAppSettings.
Record t := mk {
  menuBarDisplayMode : option string;
  menuBarCostSource : option string;
  notificationThresholds : option Thresholds.t
}.
End PartialAppSettings.

Module SettingsService.

(** The text of the settings file, by what [JSON.parse] makes of it: it
    raises ([Garbled]); it yields [null] or an object ([Encodes]); or it
    yields a number, a string, a boolean or an array ([EncodesOther]). *)
Inductive FileText :=
| Garbled
| Encodes (j : Json PartialAppSettings.t)
| EncodesOther.

(** The three keys as read from a value that has none of them. *)
Definition noKeys : PartialAppSettings.t := PartialAppSettings.mk None None None.

(** The file system as the service meets it: the settings file if it
    exists, and whether reading and writing it raise. *)
Record Disk := mkDisk {
  settingsFile : option FileText;
  readFails : bool;
  writeFails : bool
}.

Definition defaultSettings : AppSettings.t :=
  AppSettings.mk "both" "today" (Thresholds.mk 70 90).

(** A string is truthy when it is present and not empty. *)
Definition truthy (s : option string) : option string :=
  match s with
  | Some v => if bool_decide (v = "") then None else Some v
  | None => None
  end.

(** The migration of a parsed file and its merge over the defaults. *)
Definition migrate (rawSettings : PartialAppSettings.t) : AppSettings.t :=
  let mode :=
    match truthy (PartialAppSettings.menuBarDisplayMode rawSettings) with
    | Some m => if bool_decide (m = "alternate") then "both" else m
    | None => "both"
    end in
  AppSettings.mk mode
    (default (AppSettings.menuBarCostSource defaultSettings)
             (truthy (PartialAppSettings.menuBarCostSource rawSettings)))
    (default (AppSettings.notificationThresholds defaultSettings)
             (PartialAppSettings.notificationThresholds rawSettings)).

(** [loadSettings()].  [rawSettings] stands for the three keys read from
    the parsed value: reading a key of [null] raises a [TypeError]; on a
    number, a string, a boolean or an array the three keys read as
    [undefined], so such a file is migrated like the empty object. *)
Definition loadSettings : M Disk AppSettings.t :=
  loaded ←
    try_catch
      (disk ← getState;
       match settingsFile disk with
       | Some text =>
           (if readFails disk then throw "EACCES" else mret tt);;
           rawSettings ←
             match text with
             | Garbled => throw "SyntaxError"
             | Encodes JsonNull => throw "TypeError"
             | Encodes (JsonObject raw) => mret raw
             | EncodesOther => mret noKeys
             end;
           mret (Some (migrate rawSettings))
       | None => mret None
       end)
      (λ error, emit (ConsoleError "Error loading settings:");; mret None);
  mret (default defaultSettings loaded).

(** [{ ...currentSettings, ...settings }]. *)
Definition spread (current : AppSettings.t) (settings : PartialAppSettings.t)
    : AppSettings.t :=
  AppSettings.mk
    (default (AppSettings.menuBarDisplayMode current)
             (PartialAppSettings.menuBarDisplayMode settings))
    (default (AppSettings.menuBarCostSource current)
             (PartialAppSettings.menuBarCostSource settings))
    (default (AppSettings.notificationThresholds current)
             (PartialAppSettings.notificationThresholds settings)).

(** [JSON.stringify(updatedSettings, null, 2)]. *)
Definition stringify (settings : AppSettings.t) : FileText :=
  Encodes (JsonObject
    (PartialAppSettings.mk
       (Some (AppSettings.menuBarDisplayMode settings))
       (Some (AppSettings.menuBarCostSource settings))
       (Some (AppSettings.notificationThresholds settings)))).

Definition writeFile (text : FileText) : M Disk unit :=
  disk ← getState;
  if writeFails disk then throw "EACCES"
  else putState (mkDisk (Some text) (readFails disk) (writeFails disk)).

(** [saveSettings(settings)]. *)
Definition saveSettings (settings : PartialAppSettings.t) : M Disk unit :=
  try_catch
    (currentSettings ← loadSettings;
     let updatedSettings := spread currentSettings settings in
     writeFile (stringify updatedSettings))
    (λ error, emit (ConsoleError "Error saving settings:");; throw error).

Definition getDefaultSettings : AppSettings.t := defaultSettings.

End SettingsService.

(** ** [ClaudeMeterApp] ([main.ts]): the tray title and the settings handler

    The tray exists, so [this.tray?.setTitle(title)] sets the title; the
    title last set is kept in [trayTitle]. *)

Module ClaudeMeterApp.

Record t := mk {
  menuBarDisplayMode : string;
  trayTitle : string;
  usageService : CCUsageService.Process;
  notificationService : NotificationService.Gate;
  disk : SettingsService.Disk
}.

Definition setUsage (u : CCUsageService.Process) (app : t) : t :=
  mk (menuBarDisplayMode app) (trayTitle app) u (notificationService app) (disk app).

Definition setDisk (d : SettingsService.Disk) (app : t) : t :=
  mk (menuBarDisplayMode app) (trayTitle app) (usageService app)
     (notificationService app) d.

Definition setTitle (title : string) : M t unit := λ app,
  (mk (menuBarDisplayMode app) title (usageService app) (notificationService app)
      (disk app), [], Return tt).

Definition setDisplayMode (mode : string) : M t unit := λ app,
  (mk mode (trayTitle app) (usageService app) (notificationService app) (disk app),
   [], Return tt).

(** The clock readings and the outside world of one [updateTrayTitle]:
    the start of [getMenuBarData], what a cache miss meets, the reading
    when the cost is computed and the reading inside [checkAndNotify]. *)
Record Tick := mkTick {
  startedAt : Z;
  fetch : Fetch.t;
  menuAt : Z;
  notifyAt : Z
}.

(** [notificationService.checkAndNotify(menuBarData, 'auto')] as a task of
    the event loop: due timers first; the requested effects are recorded. *)
Definition notify (now : Z) (data : MenuBarData.t) : M t unit := λ app,
  let g1 := NotificationService.runTimers now (notificationService app) in
  let '(s, effects) :=
    NotificationService.checkAndNotify now data NotificationService.auto
      (NotificationService.service g1) in
  (mk (menuBarDisplayMode app) (trayTitle app) (usageService app)
      (NotificationService.mkGate s
         (NotificationService.timers g1 ++ NotificationService.newTimers now effects))
      (disk app),
   effects, Return tt).

Definition formatTitle (mode : string) (data : MenuBarData.t) : string :=
  let percentage := Math_round (MenuBarData.percentageUsed data) in
  let cost := toFixed 2 (MenuBarData.cost data) in
  if bool_decide (mode = "percentage") then pretty percentage +:+ "%"
  else if bool_decide (mode = "cost") then "$" +:+ cost
  else pretty percentage +:+ "% · $" +:+ cost.

(** [updateTrayTitle()]. *)
Definition updateTrayTitle (k : Tick) : M t unit :=
  try_catch
    (menuBarData ← zoom usageService setUsage
                     (CCUsageService.getMenuBarData (startedAt k) (fetch k) (menuAt k));
     app ← getState;
     setTitle (formatTitle (menuBarDisplayMode app) menuBarData);;
     notify (notifyAt k) menuBarData)
    (λ error,
       emit (ConsoleError "Error updating tray title:");;
       setTitle "--").

(** The service compares its cost source with ['sessionWindow'] only: any
    other string behaves as ['today']. *)
Definition costSourceOf (s : string) : CostSource.t :=
  if bool_decide (s = "sessionWindow") then CostSource.sessionWindow
  else CostSource.today.

Definition configure (source : option string) : M t unit := λ app,
  (setUsage
     (CCUsageService.withService
        (CCUsageService.updateConfiguration
           (PartialConfiguration.mk (costSourceOf <$> source) None None))
        (usageService app))
     app,
   [], Return tt).

(** The handler of ['save-settings']. *)
Definition saveSettingsHandler (settings : PartialAppSettings.t) (k : Tick) : M t bool :=
  zoom disk setDisk (SettingsService.saveSettings settings);;
  configure (PartialAppSettings.menuBarCostSource settings);;
  match SettingsService.truthy (PartialAppSettings.menuBarDisplayMode settings) with
  | Some mode => setDisplayMode mode;; updateTrayTitle k;; mret true
  | None => mret true
  end.


End ClaudeMeterApp.

(** ** Notions used in the statements *)

(** A menu-bar snapshot as [getMenuBarData] builds it from a percentage. *)
Definition snapshot (pct : Q) : MenuBarData.t :=
  MenuBarData.mk pct 0 (CCUsageService.getStatus pct) None.

(** Every call arrives at least a cooldown after the one before it, the
    first one at least a cooldown after [prev]. *)
Fixpoint spaced (prev : Z) (calls : list (Z * MenuBarData.t)) : Prop :=
  match calls with
  | [] => True
  | (now, _) :: rest =>
      prev + NotificationService.NOTIFICATION_COOLDOWN ≤ now ∧ spaced now rest
  end.

(** How often each of the three sources was called in a trace: session
    blocks, daily aggregates, rate limits. *)
Definition sourceCalls (tr : Trace) : nat * nat * nat :=
  (occurrences LoadSessionBlockData tr,
   occurrences LoadDailyUsageData tr,
   occurrences GetUsageDataCall tr).

(** Two calls of [getUsageStats] in flight together: both run up to their
    [await] before either resumes; [firstSettlesFirst] picks the order in
    which the two resume. *)
Definition finish (now : Z) (f : Fetch.t) (b : CCUsageService.Begun)
    : M CCUsageService.Process Ref.t :=
  match b with
  | CCUsageService.Hit r => mret r
  | CCUsageService.Miss oauthCall => CCUsageService.getUsageStats_resume now f oauthCall
  end.

Definition raceTwo (now1 now2 : Z) (f1 f2 : Fetch.t) (firstSettlesFirst : bool)
    : M CCUsageService.Process (Ref.t * Ref.t) :=
  b1 ← CCUsageService.getUsageStats_start now1;
  b2 ← CCUsageService.getUsageStats_start now2;
  if firstSettlesFirst
  then r1 ← finish now1 f1 b1; r2 ← finish now2 f2 b2; mret (r1, r2)
  else r2 ← finish now2 f2 b2; r1 ← finish now1 f1 b1; mret (r1, r2).

(** The session-window cost in the words of the specification: the sum of
    [costUSD] over the blocks that are not gaps and start within the
    trailing five hours. *)
Definition inWindow (now : Z) (b : SessionBlock.t) : bool :=
  negb (bool_decide (SessionBlock.isGap b = Some true))
  && bool_decide (now - CCUsageService.WINDOW_MS ≤ SessionBlock.startTime b).

Definition sumCosts (l : list SessionBlock.t) : Q :=
  foldr (λ b acc, (SessionBlock.costUSD b + acc)%Q) 0%Q l.

Definition windowCostSpec (now : Z) (blocks : list SessionBlock.t) : Q :=
  sumCosts (List.filter (inWindow now) blocks).

(** The seven snapshots of the edge-detection scenario, 400 seconds apart. *)
Definition sevenCalls : list (Z * MenuBarData.t) :=
  [(1700000000000, snapshot 10);
   (1700000400000, snapshot 75);
   (1700000800000, snapshot 92);
   (1700001200000, snapshot 95);
   (1700001600000, snapshot 80);
   (1700002000000, snapshot 20);
   (1700002400000, snapshot 97)].

(** The credential the keychain yields, if any: the command must succeed,
    its output must parse to an object, and the object must carry a
    non-empty [claudeAiOauth.accessToken]. *)
Definition credentialOf (kc : Settled (Completion (Json ClaudeCredentials.t)))
    : option string :=
  match kc with
  | Fulfilled (Return (JsonObject c)) =>
      match ClaudeCredentials.claudeAiOauth c with
      | Some o =>
          if bool_decide (OAuthEntry.accessToken o = "") then None
          else Some (OAuthEntry.accessToken o)
      | None => None
      end
  | _ => None
  end.

(** The failures of the rate-limit call: no credential, a response that is
    not 2xx, a body that does not parse, a body without one of the two
    mandatory windows. *)
Inductive failure (env : ClaudeOAuthService.Env) : Prop :=
| no_credential :
    credentialOf (ClaudeOAuthService.keychain env) = None → failure env
| bad_status resp :
    ClaudeOAuthService.http env = Fulfilled resp →
    Response.ok resp = false → failure env
| unparseable_body resp reason :
    ClaudeOAuthService.http env = Fulfilled resp →
    Response.json resp = Rejected reason → failure env
| missing_window resp o :
    ClaudeOAuthService.http env = Fulfilled resp →
    Response.json resp = Fulfilled (JsonObject o) →
    UsageBody.five_hour o = None ∨ UsageBody.seven_day o = None →
    failure env.

Definition isConsoleError (e : Event) : bool :=
  match e with ConsoleError _ => true | _ => false end.

Definition isHttpGet (e : Event) : bool :=
  match e with HttpGet _ => true | _ => false end.

Definition isSourceCall (e : Event) : bool :=
  match e with
  | LoadSessionBlockData | LoadDailyUsageData | GetUsageDataCall => true
  | _ => false
  end.

(** Sample data for the concrete scenarios. *)
Definition sampleLimit (u : Q) : ClaudeUsageLimit.t :=
  ClaudeUsageLimit.mk u (Some 1700010000000).

Definition sampleData : ClaudeUsageData.t :=
  ClaudeUsageData.mk (sampleLimit 42) (sampleLimit 17) None None None None.

Definition sampleBody : UsageBody.t :=
  UsageBody.mk (Some (sampleLimit 42)) (Some (sampleLimit 17)) None None None None.

Definition goodKeychain : Settled (Completion (Json ClaudeCredentials.t)) :=
  Fulfilled (Return (JsonObject
    (ClaudeCredentials.mk (Some (OAuthEntry.mk "token" None None))))).

Definition goodResponse : Response.t :=
  Response.mk true 200 "OK" (Fulfilled (JsonObject sampleBody)).

Definition goodEnv : ClaudeOAuthService.Env :=
  ClaudeOAuthService.mkEnv goodKeychain (Fulfilled goodResponse).

Definition lockedKeychainEnv : ClaudeOAuthService.Env :=
  ClaudeOAuthService.mkEnv (Rejected "keychain locked") (Fulfilled goodResponse).

(** Whether [getUsageStats] called at [now] would serve from its cache. *)
Definition cacheFresh (now : Z) (this : CCUsageService.t) : bool :=
  match CCUsageService.cachedStats this with
  | Some _ => bool_decide (now - CCUsageService.lastUpdate this < CCUsageService.CACHE_DURATION)
  | None => false
  end.

(** The three calls a cache miss issues. *)
Definition oneFetchEach : nat * nat * nat := (1%nat, 1%nat, 1%nat).

(** A ledger day with 1000 tokens on the day of the sample clock, and a
    cache miss in which only the session-block read fails. *)
Definition sampleClock : Z := 1700000000000.

Definition sampleDay : DailyDataEntry.t :=
  DailyDataEntry.mk (isoDay sampleClock) 400 300 200 100 (5 # 2)
    [ModelBreakdown.mk "A" 400 300 200 100 (5 # 2)].

Definition goodFetch : Fetch.t :=
  Fetch.mk (Fulfilled (Some [])) (Fulfilled (Some [sampleDay])) goodEnv
           sampleClock 0 0.

Definition blocksRejectedFetch : Fetch.t :=
  Fetch.mk (Rejected "ledger") (Fulfilled (Some [sampleDay])) goodEnv
           sampleClock 0 0.

(** A cache miss like [goodFetch] whose three promises have settled [ms]
    milliseconds after the sample clock. *)
Definition fetchTaking (ms : Z) : Fetch.t :=
  Fetch.mk (Fulfilled (Some [])) (Fulfilled (Some [sampleDay])) goodEnv
           (sampleClock + ms) 0 0.

(** [updateConfiguration(config)] as a step of the process. *)
Definition reconfigure (config : PartialConfiguration.t) : M CCUsageService.Process unit :=
  λ p, (CCUsageService.withService (CCUsageService.updateConfiguration config) p,
        [], Return tt).

(** A call of [getUsageStats] is in flight while [updateConfiguration]
    runs, then resumes; a second call follows. *)
Definition reconfigureInFlight (now1 now2 : Z) (f1 f2 : Fetch.t)
    (config : PartialConfiguration.t) : M CCUsageService.Process (Ref.t * Ref.t) :=
  b1 ← CCUsageService.getUsageStats_start now1;
  reconfigure config;;
  r1 ← finish now1 f1 b1;
  r2 ← CCUsageService.getUsageStats now2 f2;
  mret (r1, r2).

(** The three blocks of the session-window example, relative to [now]. *)
Definition HOUR : Z := 3600000.

Definition exampleBlocks (now : Z) : list SessionBlock.t :=
  [SessionBlock.mk "a" (now - 6 * HOUR) (now - HOUR) false (Some false) 5;
   SessionBlock.mk "b" (now - 2 * HOUR) (now + 3 * HOUR) true (Some false) 3;
   SessionBlock.mk "c" (now - HOUR) (now + 4 * HOUR) false (Some true) 2].

(** A process configured for the session-window cost, and a cache miss
    whose session-block read delivers the three example blocks. *)
Definition sessionWindowProcess : CCUsageService.Process :=
  CCUsageService.withService
    (CCUsageService.updateConfiguration
       (PartialConfiguration.mk (Some CostSource.sessionWindow) None None))
    CCUsageService.boot.

(** A process whose configuration carries the thresholds 10 and 20. *)
Definition thresholdProcess : CCUsageService.Process :=
  CCUsageService.withService
    (CCUsageService.updateConfiguration
       (PartialConfiguration.mk None None (Some (Thresholds.mk 10 20))))
    CCUsageService.boot.

Definition windowFetch : Fetch.t :=
  Fetch.mk (Fulfilled (Some (exampleBlocks sampleClock))) (Fulfilled (Some [sampleDay]))
           goodEnv sampleClock 0 0.

(** The severity order of the three levels. *)
Definition rank (s : Status) : nat :=
  match s with
  | safe => 0
  | warning => 1
  | critical => 2
  end.

(** How many polls of a run fired. *)
Definition fireCount (flags : list bool) : nat :=
  length (List.filter (λ b : bool, b) flags).

(** The clock readings of the polls of a run that fired. *)
Fixpoint firedTimes (calls : list (Z * MenuBarData.t)) (g : NotificationService.Gate)
    : list Z :=
  match calls with
  | [] => []
  | (now, data) :: rest =>
      let r := NotificationService.poll now data g in
      if r.2 then now :: firedTimes rest r.1 else firedTimes rest r.1
  end.

(** Every time of the list is at least a cooldown after the one before it,
    the first one at least a cooldown after [prev]. *)
Fixpoint gapped (prev : Z) (times : list Z) : Prop :=
  match times with
  | [] => True
  | t :: rest =>
      prev + NotificationService.NOTIFICATION_COOLDOWN ≤ t ∧ gapped t rest
  end.

(** The lock is held exactly while its release timer is pending, and that
    timer is due one second after the last fire time. *)
Definition lockTracksTimer (g : NotificationService.Gate) : Prop :=
  (NotificationService.notificationInProgress (NotificationService.service g) = false ∧
   NotificationService.timers g = []) ∨
  (NotificationService.notificationInProgress (NotificationService.service g) = true ∧
   NotificationService.timers g =
     [NotificationService.lastNotificationTime (NotificationService.service g)
      + NotificationService.LOCK_DELAY]).

(** The last row of a day's breakdown that carries a given model name,
    and the map entry a row turns into. *)
Definition lastRow (name : string) (rows : list ModelBreakdown.t)
    : option ModelBreakdown.t :=
  last (filter (λ mb, ModelBreakdown.modelName mb = name) rows).

Definition usageOf (mb : ModelBreakdown.t) : ModelUsage.t :=
  ModelUsage.mk (CCUsageService.modelTokens mb) (ModelBreakdown.cost mb).

(** A [UsageStats] object whose rate-limit part, when present, is marked
    available; a process whose cached object is such an object. *)
Definition availableWhenPresent (stats : UsageStats.t) : Prop :=
  match UsageStats.oauthUtilization stats with
  | Some o => OAuthUtilization.isAvailable o = true
  | None => True
  end.

Definition soundCache (p : CCUsageService.Process) : Prop :=
  match CCUsageService.cachedStats (CCUsageService.service p) with
  | Some r => availableWhenPresent (Ref.value r)
  | None => True
  end.

Definition touchesNetwork (e : Event) : bool :=
  match e with
  | KeychainExec | HttpGet _ => true
  | _ => false
  end.

(** A partial settings object whose string keys, when present, would
    survive the migration unchanged. *)
Definition plainString (s : option string) : Prop :=
  ∀ v, s = Some v → v ≠ "" ∧ v ≠ "alternate".

Definition plainSettings (settings : PartialAppSettings.t) : Prop :=
  plainString (PartialAppSettings.menuBarDisplayMode settings) ∧
  plainString (PartialAppSettings.menuBarCostSource settings).

(** A settings file on which [loadSettings] raises inside its [try]: the
    file exists, and reading it raises, or its text does not parse, or it
    parses to [null].  (A text that parses to a number, a string, a boolean
    or an array is not of this kind: it loads like the empty object.) *)
Definition unusableFile (disk : SettingsService.Disk) : Prop :=
  (SettingsService.settingsFile disk ≠ None ∧ SettingsService.readFails disk = true) ∨
  SettingsService.settingsFile disk = Some SettingsService.Garbled ∨
  SettingsService.settingsFile disk = Some (SettingsService.Encodes JsonNull).

(** The percentage [getMenuBarData] derives from a [UsageStats] object. *)
Definition percentageOf (stats : UsageStats.t) : Q :=
  match UsageStats.oauthUtilization stats with
  | Some o =>
      if OAuthUtilization.isAvailable o
      then Window.utilization (OAuthUtilization.fiveHour o)
      else 0%Q
  | None => 0%Q
  end.

(** The application right after start, and a poll that meets a five-hour
    utilization of 95%. *)
Definition firstApp : ClaudeMeterApp.t :=
  ClaudeMeterApp.mk "both" "" CCUsageService.boot NotificationService.start
     (SettingsService.mkDisk None false false).

Definition hotEnv : ClaudeOAuthService.Env :=
  ClaudeOAuthService.mkEnv goodKeychain
    (Fulfilled (Response.mk true 200 "OK"
       (Fulfilled (JsonObject
          (UsageBody.mk (Some (sampleLimit 95)) (Some (sampleLimit 17))
                        None None None None))))).

Definition hotTick : ClaudeMeterApp.Tick :=
  ClaudeMeterApp.mkTick sampleClock
    (Fetch.mk (Fulfilled (Some [])) (Fulfilled (Some [sampleDay])) hotEnv
              sampleClock 0 0)
    sampleClock sampleClock.

(** * Properties *)

(** Unfolds the monad so that a computation runs on a given state. *)
Ltac run_m :=
  cbv beta iota zeta delta
    [mbind M_bind mret M_ret emit throw getState putState complete try_catch
     zoom await];
  simpl.

(** ** The notification gate *)

Section NotificationGate.

Import NotificationService.

Implicit Types (this : t) (data : MenuBarData.t) (g : Gate).

Lemma checkAndNotify_dedup now data source this :
  lastNotificationData this = dataIdentifier data ∨ notificationInProgress this = true →
  checkAndNotify now data source this = (this, []).
Proof.
  intros H. unfold checkAndNotify.
  destruct H as [H | H].
  - by rewrite bool_decide_eq_true_2.
  - rewrite H. by rewrite orb_true_r.
Qed.

Lemma checkAndNotify_cooldown now data source this :
  now - lastNotificationTime this < NOTIFICATION_COOLDOWN →
  checkAndNotify now data source this = (this, []).
Proof.
  intros H. unfold checkAndNotify.
  destruct (bool_decide _ || _); [done|].
  by rewrite bool_decide_eq_true_2.
Qed.

Lemma checkAndNotify_no_edge now data source this :
  edge data this = None →
  checkAndNotify now data source this = (this, []).
Proof.
  intros H. unfold checkAndNotify. rewrite H.
  by repeat case_match.
Qed.

Lemma checkAndNotify_fire now data source this title body :
  lastNotificationData this ≠ dataIdentifier data →
  notificationInProgress this = false →
  NOTIFICATION_COOLDOWN ≤ now - lastNotificationTime this →
  edge data this = Some (title, body) →
  checkAndNotify now data source this =
    (mk now (MenuBarData.status data) (dataIdentifier data) true,
     [SendNotification title body; SetTimeout LOCK_DELAY]).
Proof.
  intros Hid Hlock Hcool Hedge. unfold checkAndNotify.
  rewrite bool_decide_eq_false_2 by done. rewrite Hlock. simpl.
  rewrite bool_decide_eq_false_2 by lia.
  by rewrite Hedge.
Qed.

(** A call either changes nothing and requests nothing, or fires. *)
Lemma checkAndNotify_cases now data source this :
  checkAndNotify now data source this = (this, []) ∨
  ∃ title body,
    edge data this = Some (title, body) ∧
    lastNotificationData this ≠ dataIdentifier data ∧
    notificationInProgress this = false ∧
    NOTIFICATION_COOLDOWN ≤ now - lastNotificationTime this ∧
    checkAndNotify now data source this =
      (mk now (MenuBarData.status data) (dataIdentifier data) true,
       [SendNotification title body; SetTimeout LOCK_DELAY]).
Proof.
  unfold checkAndNotify.
  destruct (bool_decide (lastNotificationData this = dataIdentifier data)) eqn:Hid;
    [by left|].
  destruct (notificationInProgress this) eqn:Hlock; [by left|]. simpl.
  destruct (bool_decide (now - lastNotificationTime this < NOTIFICATION_COOLDOWN)) eqn:Hc;
    [by left|].
  destruct (edge data this) as [[title body]|] eqn:He; [|by left].
  right. exists title, body.
  apply bool_decide_eq_false in Hid. apply bool_decide_eq_false in Hc.
  repeat split; auto. lia.
Qed.

Lemma edge_safe data this :
  MenuBarData.status data = safe → edge data this = None.
Proof. intros H. unfold edge. by rewrite H. Qed.

Lemma edge_after_critical data this :
  lastWarningLevel this = critical → edge data this = None.
Proof.
  intros H. unfold edge. rewrite H.
  by destruct (MenuBarData.status data).
Qed.

Lemma dataIdentifier_not_empty data : dataIdentifier data ≠ "".
Proof. unfold dataIdentifier. by destruct (MenuBarData.status data). Qed.

Lemma dataIdentifier_status data1 data2 :
  dataIdentifier data1 = dataIdentifier data2 →
  MenuBarData.status data1 = MenuBarData.status data2.
Proof.
  unfold dataIdentifier.
  by destruct (MenuBarData.status data1), (MenuBarData.status data2).
Qed.


Lemma releaseLock_fields this :
  lastNotificationTime (releaseLock this) = lastNotificationTime this ∧
  lastWarningLevel (releaseLock this) = lastWarningLevel this ∧
  lastNotificationData (releaseLock this) = lastNotificationData this.
Proof. done. Qed.

(** The timers only ever touch the lock. *)
Lemma runTimers_fields now g :
  lastNotificationTime (service (runTimers now g)) = lastNotificationTime (service g) ∧
  lastWarningLevel (service (runTimers now g)) = lastWarningLevel (service g) ∧
  lastNotificationData (service (runTimers now g)) = lastNotificationData (service g).
Proof. unfold runTimers. by destruct (List.filter _ _). Qed.

Lemma runTimers_none now this : runTimers now (mkGate this []) = mkGate this [].
Proof. done. Qed.

Lemma runTimers_single due now this :
  due ≤ now → runTimers now (mkGate this [due]) = mkGate (releaseLock this) [].
Proof.
  intros H. unfold runTimers. simpl.
  by rewrite (proj2 (Z.leb_le due now) H).
Qed.

Lemma poll_unfold now data g :
  poll now data g =
    let g1 := runTimers now g in
    let r := checkAndNotify now data auto (service g1) in
    (mkGate r.1 (timers g1 ++ newTimers now r.2), fired r.2).
Proof. unfold poll. simpl. by destruct (checkAndNotify _ _ _ _). Qed.

(** A poll that fires records the identifier of its snapshot. *)
Lemma poll_fired_records now data g :
  (poll now data g).2 = true →
  lastNotificationData (service (poll now data g).1) = dataIdentifier data.
Proof.
  rewrite poll_unfold. simpl.
  destruct (checkAndNotify_cases now data auto (service (runTimers now g)))
    as [-> | (title & body & _ & _ & _ & _ & ->)]; simpl; [done|auto].
Qed.

(** A poll that stays silent leaves the three recorded values alone. *)
Lemma poll_silent_fields now data g :
  (poll now data g).2 = false →
  lastNotificationTime (service (poll now data g).1) = lastNotificationTime (service g) ∧
  lastWarningLevel (service (poll now data g).1) = lastWarningLevel (service g) ∧
  lastNotificationData (service (poll now data g).1) = lastNotificationData (service g).
Proof.
  rewrite poll_unfold. simpl.
  destruct (checkAndNotify_cases now data auto (service (runTimers now g)))
    as [-> | (title & body & _ & _ & _ & _ & ->)]; simpl; [|done].
  intros _. apply runTimers_fields.
Qed.

(** Once a critical alert has been recorded nothing fires any more. *)
Lemma poll_after_critical now data g :
  lastWarningLevel (service g) = critical →
  (poll now data g).2 = false ∧
  lastWarningLevel (service (poll now data g).1) = critical.
Proof.
  intros H. rewrite poll_unfold. simpl.
  rewrite checkAndNotify_no_edge.
  - simpl. split; [done|]. by rewrite (proj1 (proj2 (runTimers_fields now g))).
  - apply edge_after_critical. by rewrite (proj1 (proj2 (runTimers_fields now g))).
Qed.

Lemma run_cons now data rest g :
  run ((now, data) :: rest) g =
    ((run rest (poll now data g).1).1,
     (poll now data g).2 :: (run rest (poll now data g).1).2).
Proof.
  simpl. destruct (poll now data g) as [g1 f]. simpl.
  by destruct (run rest g1).
Qed.

Lemma run_after_critical calls g :
  lastWarningLevel (service g) = critical →
  (run calls g).2 = replicate (length calls) false.
Proof.
  revert g. induction calls as [|[now data] rest IH]; intros g H; [done|].
  rewrite run_cons. simpl.
  destruct (poll_after_critical now data g H) as [-> Hlevel].
  f_equal. by apply IH.
Qed.


(** *** C10: a call that does not fire changes nothing *)

(** C10.  A call of [checkAndNotify] on which no notification fires returns
    the service exactly as it found it and requests no effect: the last
    fire time, the last level, the last identifier and the lock all keep
    their values.  Each of the four ways of not firing (same identifier,
    lock held, inside the cooldown, no rising edge) is such a call; in
    particular a [safe] snapshot never writes [safe] into the last level,
    and the identifier of a suppressed candidate is never recorded. *)
Theorem checkAndNotify_silent_frame now data source this :
  (fired (checkAndNotify now data source this).2 = false →
     checkAndNotify now data source this = (this, [])) ∧
  (lastNotificationData this = dataIdentifier data →
     checkAndNotify now data source this = (this, [])) ∧
  (notificationInProgress this = true →
     checkAndNotify now data source this = (this, [])) ∧
  (now - lastNotificationTime this < NOTIFICATION_COOLDOWN →
     checkAndNotify now data source this = (this, [])) ∧
  (edge data this = None →
     checkAndNotify now data source this = (this, [])) ∧
  (MenuBarData.status data = safe →
     checkAndNotify now data source this = (this, [])).
Proof.
  repeat split.
  - destruct (checkAndNotify_cases now data source this)
      as [-> | (title & body & _ & _ & _ & _ & ->)]; [done|].
    simpl. discriminate.
  - intros H. apply checkAndNotify_dedup. by left.
  - intros H. apply checkAndNotify_dedup. by right.
  - apply checkAndNotify_cooldown.
  - apply checkAndNotify_no_edge.
  - intros H. apply checkAndNotify_no_edge. by apply edge_safe.
Qed.

(** After a critical alert a [safe] snapshot, ten minutes later, leaves the
    recorded level at [critical]. *)
Lemma checkAndNotify_silent_frame_witness :
  let this := mk 1700000000000 critical "critical-92" false in
  let data := snapshot 20 in
  checkAndNotify 1700000600000 data auto this = (this, []) ∧
  lastWarningLevel (checkAndNotify 1700000600000 data auto this).1 = critical.
Proof.
  intros this data.
  pose proof (checkAndNotify_silent_frame 1700000600000 data auto this)
    as (Hsilent & Hid & Hlock & Hcool & Hedge & Hsafe).
  assert (H : checkAndNotify 1700000600000 data auto this = (this, [])).
  { apply Hsafe. reflexivity. }
  split; [exact H|]. rewrite H. reflexivity.
Defined.

(** *** C5: the cooldown comes before the edge test *)

(** C5.  A call of [checkAndNotify] made less than the five-minute cooldown
    after the last fire time fires nothing and changes nothing, whatever
    the snapshot: the test precedes the edge test, so it also holds back a
    worsening candidate.  In particular, when a poll has fired (for a
    warning, say), every poll less than five minutes later stays silent,
    a [critical] one included. *)
Theorem cooldown_precedes_edge :
  (∀ now data source this,
     now - lastNotificationTime this < NOTIFICATION_COOLDOWN →
     checkAndNotify now data source this = (this, [])) ∧
  (∀ g0 earlier alert later worse,
     (poll earlier alert g0).2 = true →
     later - earlier < NOTIFICATION_COOLDOWN →
     (poll later worse (poll earlier alert g0).1).2 = false).
Proof.
  split; [apply checkAndNotify_cooldown|].
  intros g0 earlier alert later worse Hfired Hlater.
  set (g1 := (poll earlier alert g0).1).
  assert (Htime : lastNotificationTime (service g1) = earlier).
  { subst g1. revert Hfired. rewrite poll_unfold. simpl.
    destruct (checkAndNotify_cases earlier alert auto (service (runTimers earlier g0)))
      as [-> | (title & body & _ & _ & _ & _ & ->)]; simpl; [discriminate|done]. }
  rewrite poll_unfold. simpl.
  rewrite checkAndNotify_cooldown; [done|].
  rewrite (proj1 (runTimers_fields later g1)). lia.
Qed.

(** A warning alert fires; a critical snapshot one minute later is a rising
    edge and is nevertheless held back. *)
Lemma cooldown_precedes_edge_witness :
  let this := mk 1700000000000 warning "warning-75" false in
  let data := snapshot 95 in
  edge data this ≠ None ∧
  checkAndNotify 1700000060000 data auto this = (this, []) ∧
  (poll 1700000000000 (snapshot 75) start).2 = true ∧
  (poll 1700000060000 data (poll 1700000000000 (snapshot 75) start).1).2 = false.
Proof.
  intros this data.
  destruct cooldown_precedes_edge as [Hsame Hlater].
  split; [vm_compute; discriminate|].
  split; [apply Hsame; vm_compute; reflexivity|].
  split; [vm_compute; reflexivity|].
  apply Hlater; vm_compute; reflexivity.
Defined.

(** *** C3: identical identifiers *)

(** C3, as the code has it.  Of two consecutive polls whose snapshots have
    the same data identifier at most one fires: when the first fires, the
    second never does, whatever the clock says; likewise when the
    identifier is already the recorded one.  (When the first was held back
    by the cooldown or the lock its identifier is not recorded, and the
    second may fire.) *)
Theorem identical_identifier_fires_at_most_once g now1 now2 data1 data2 :
  dataIdentifier data1 = dataIdentifier data2 →
  ((poll now1 data1 g).2 = true ∨
   lastNotificationData (service g) = dataIdentifier data1) →
  (poll now2 data2 (poll now1 data1 g).1).2 = false.
Proof.
  intros Hid Hfirst.
  set (g1 := (poll now1 data1 g).1).
  assert (Hrec : lastNotificationData (service g1) = dataIdentifier data2).
  { subst g1. destruct (poll now1 data1 g).2 eqn:Hf.
    - rewrite poll_fired_records by done. done.
    - destruct Hfirst as [? | Hsame]; [done|].
      destruct (poll_silent_fields now1 data1 g Hf) as (_ & _ & ->). congruence. }
  rewrite poll_unfold. simpl.
  rewrite checkAndNotify_dedup; [done|].
  left. by rewrite (proj2 (proj2 (runTimers_fields now2 g1))).
Qed.

(** Two warnings at 75%, ten minutes apart, from the initial state: the
    first fires and the second does not, although the cooldown is over. *)
Lemma identical_identifier_fires_at_most_once_witness :
  (poll 1700000000000 (snapshot 75) start).2 = true ∧
  (poll 1700000600000 (snapshot 75) (poll 1700000000000 (snapshot 75) start).1).2 = false.
Proof.
  split; [vm_compute; reflexivity|].
  apply (identical_identifier_fires_at_most_once start 1700000000000 1700000600000
           (snapshot 75) (snapshot 75)).
  - reflexivity.
  - left. vm_compute. reflexivity.
Defined.

(** C3 as stated fails.  From the initial state a warning fires at [t0];
    a critical snapshot at 95% one minute later is held back by the
    cooldown; the identical snapshot six minutes after [t0] fires: the
    second of two consecutive calls with the same identifier fired. *)
Lemma second_identical_call_fires :
  let g := (poll 1700000000000 (snapshot 75) start).1 in
  let data := snapshot 95 in
  reachable g ∧
  dataIdentifier data = dataIdentifier data ∧
  (poll 1700000060000 data g).2 = false ∧
  (poll 1700000360000 data (poll 1700000060000 data g).1).2 = true.
Proof.
  intros g data. split; [|split; [|split]].
  - apply reachable_poll. apply reachable_start.
  - reflexivity.
  - vm_compute. reflexivity.
  - vm_compute. reflexivity.
Qed.

(** *** C2: the sequence safe, warning, critical, critical, warning, safe, critical *)

(** C2, as the code has it.  From the initial state, seven polls with the
    statuses safe, warning, critical, critical, warning, safe, critical,
    each at least five minutes after the one before, fire exactly twice:
    on the warning and on the first critical.  The last level is written
    only when a notification fires, so it is still [critical] when the
    final critical snapshot arrives, and that one does not fire. *)
Theorem edge_sequence_fires_twice calls :
  map (λ c, MenuBarData.status c.2) calls =
    [safe; warning; critical; critical; warning; safe; critical] →
  spaced 0 calls →
  (run calls start).2 = [false; true; true; false; false; false; false] ∧
  lastWarningLevel (service (run calls start).1) = critical.
Proof.
  intros Hst Hsp.
  destruct calls as [|[t1 d1] [|[t2 d2] [|[t3 d3] rest]]]; try discriminate.
  simpl in Hst. injection Hst as H1 H2 H3 Hrest.
  simpl in Hsp. destruct Hsp as (Hs1 & Hs2 & Hs3 & Hsrest).
  unfold NOTIFICATION_COOLDOWN in *.
  (* the safe snapshot *)
  assert (P1 : poll t1 d1 start = (start, false)).
  { rewrite poll_unfold. unfold start. rewrite runTimers_none. simpl.
    rewrite checkAndNotify_no_edge by (by apply edge_safe). done. }
  (* the warning *)
  set (s2 := mk t2 warning (dataIdentifier d2) true).
  assert (P2 : poll t2 d2 start = (mkGate s2 [t2 + LOCK_DELAY], true)).
  { rewrite poll_unfold. unfold start. rewrite runTimers_none. simpl.
    rewrite (checkAndNotify_fire t2 d2 auto initial warningTitle (warningBody d2)).
    - simpl. by rewrite H2.
    - simpl. intros E. by apply (dataIdentifier_not_empty d2).
    - done.
    - simpl. unfold NOTIFICATION_COOLDOWN. lia.
    - unfold edge. by rewrite H2. }
  (* the first critical *)
  set (s3 := mk t3 critical (dataIdentifier d3) true).
  assert (P3 : poll t3 d3 (mkGate s2 [t2 + LOCK_DELAY]) =
               (mkGate s3 [t3 + LOCK_DELAY], true)).
  { rewrite poll_unfold. rewrite runTimers_single by (unfold LOCK_DELAY; lia). simpl.
    rewrite (checkAndNotify_fire t3 d3 auto (releaseLock s2) criticalTitle (criticalBody d3)).
    - simpl. by rewrite H3.
    - simpl. intros E. apply dataIdentifier_status in E. congruence.
    - done.
    - simpl. unfold NOTIFICATION_COOLDOWN. lia.
    - unfold edge. by rewrite H3. }
  rewrite !run_cons. rewrite P1. simpl. rewrite P2. simpl. rewrite P3. simpl.
  assert (Hlevel : lastWarningLevel (service (mkGate s3 [t3 + LOCK_DELAY])) = critical)
    by done.
  split.
  - rewrite (run_after_critical rest _ Hlevel).
    assert (Hlen : length rest = 4%nat).
    { apply (f_equal length) in Hrest. by rewrite length_map in Hrest. }
    by rewrite Hlen.
  - clear Hrest Hsrest. revert Hlevel.
    generalize (mkGate s3 [t3 + LOCK_DELAY]).
    induction rest as [|[now data] rest IH]; intros g Hg; [done|].
    rewrite run_cons. simpl. apply IH.
    by apply poll_after_critical.
Qed.

Lemma edge_sequence_fires_twice_witness :
  (run sevenCalls start).2 = [false; true; true; false; false; false; false] ∧
  lastWarningLevel (service (run sevenCalls start).1) = critical.
Proof.
  apply edge_sequence_fires_twice.
  - reflexivity.
  - vm_compute. repeat split; discriminate.
Defined.

(** C2 as stated fails.  On seven snapshots with the claimed statuses,
    pairwise distinct identifiers and 400 seconds between consecutive
    calls, the final critical snapshot does not fire: the last level is
    still [critical] before it, not [safe]. *)
Lemma final_critical_does_not_fire :
  map (λ c, MenuBarData.status c.2) sevenCalls =
    [safe; warning; critical; critical; warning; safe; critical] ∧
  NoDup (map (λ c, dataIdentifier c.2) sevenCalls) ∧
  spaced 0 sevenCalls ∧
  lastWarningLevel (service (run (take 6 sevenCalls) start).1) = critical ∧
  (run sevenCalls start).2 !! 6%nat = Some false.
Proof.
  split; [reflexivity|]. split; [|split; [|split]].
  - refine (@bool_decide_unpack _ (NoDup_dec _) _). vm_compute. exact I.
  - vm_compute. repeat split; discriminate.
  - vm_compute. reflexivity.
  - vm_compute. reflexivity.
Qed.

End NotificationGate.

(** ** The rate-limit client *)

Section RateLimitClient.

Import ClaudeOAuthService.

Implicit Types (this : t) (env : Env).

(** [getAccessToken] never raises, leaves the service alone, returns the
    credential of the keychain, logs when there is none and issues no
    request. *)
Lemma getAccessToken_resume_spec kc this :
  ∃ tr,
    getAccessToken_resume kc this = (this, tr, Return (credentialOf kc)) ∧
    forallb isConsoleError tr = true ∧
    (credentialOf kc = None → tr ≠ []).
Proof.
  unfold getAccessToken_resume, credentialOf.
  destruct kc as [[[|c]|reason]|reason]; run_m.
  - eexists. split; [reflexivity|]. split; [reflexivity|done].
  - destruct (ClaudeCredentials.claudeAiOauth c) as [o|]; run_m.
    + destruct (bool_decide (OAuthEntry.accessToken o = "")); run_m;
        eexists; (split; [reflexivity|]); split; try reflexivity; done.
    + eexists. split; [reflexivity|]. split; [reflexivity|done].
  - eexists. split; [reflexivity|]. split; [reflexivity|done].
  - eexists. split; [reflexivity|]. split; [reflexivity|done].
Qed.

Lemma fresh_false_start now this :
  fresh now this = false →
  getUsageData_start now this = (this, [KeychainExec], Return AwaitingToken).
Proof.
  unfold fresh, getUsageData_start. run_m.
  destruct (cachedUsage this); [|done].
  intros ->. done.
Qed.

Lemma fresh_true_start now this :
  fresh now this = true →
  ∃ data, cachedUsage this = Some data ∧
          getUsageData_start now this = (this, [], Return (FromCache data)).
Proof.
  unfold fresh, getUsageData_start. run_m.
  destruct (cachedUsage this) as [data|]; [|done].
  intros ->. by exists data.
Qed.

(** The continuation after a miss never raises and calls no ledger. *)
Lemma getUsageData_resume_returns now env this :
  ∃ this' tr r,
    getUsageData_resume now env this = (this', tr, Return r) ∧
    forallb (λ e, negb (isSourceCall e)) tr = true ∧
    (r = None → this' = this).
Proof.
  unfold getUsageData_resume.
  destruct (getAccessToken_resume_spec (keychain env) this) as (tr0 & Htok & Hlog & _).
  assert (Hq0 : forallb (λ e, negb (isSourceCall e)) tr0 = true).
  { clear Htok. induction tr0 as [|e tr0 IH]; [done|].
    simpl in *. apply andb_prop in Hlog as [He Hlog].
    rewrite IH by done. by destruct e. }
  unfold mbind at 1, M_bind. rewrite Htok.
  destruct (credentialOf (keychain env)) as [token|].
  2:{ run_m. eexists _, _, _. split; [reflexivity|]. rewrite app_nil_r. done. }
  run_m.
  destruct (http env) as [resp|reason]; run_m.
  2:{ eexists _, _, _. split; [reflexivity|]. rewrite forallb_app, Hq0. done. }
  destruct (Response.ok resp); run_m.
  2:{ eexists _, _, _. split; [reflexivity|]. rewrite forallb_app, Hq0. done. }
  destruct (Response.json resp) as [[|o]|reason]; run_m.
  - eexists _, _, _. split; [reflexivity|]. rewrite forallb_app, Hq0. done.
  - destruct (validate o) as [data|]; run_m.
    + eexists _, _, _. split; [reflexivity|]. rewrite forallb_app, Hq0. done.
    + eexists _, _, _. split; [reflexivity|]. rewrite forallb_app, Hq0. done.
  - eexists _, _, _. split; [reflexivity|]. rewrite forallb_app, Hq0. done.
Qed.


Lemma only_errors_some tr :
  forallb isConsoleError tr = true → tr ≠ [] → existsb isConsoleError tr = true.
Proof.
  destruct tr as [|e tr]; [done|]. simpl.
  intros H _. apply andb_prop in H as [-> _]. done.
Qed.

Lemma only_errors_no_request tr :
  forallb isConsoleError tr = true → existsb isHttpGet tr = false.
Proof.
  induction tr as [|e tr IH]; [done|]. simpl.
  intros H. apply andb_prop in H as [He H].
  rewrite IH by done. by destruct e.
Qed.

Lemma validate_missing o :
  UsageBody.five_hour o = None ∨ UsageBody.seven_day o = None → validate o = None.
Proof.
  unfold validate. intros [-> | ->]; [done|].
  by destruct (UsageBody.five_hour o).
Qed.

(** On each failure the continuation returns [null], keeps the cache as it
    was and logs; without a credential it sends no request. *)
Lemma getUsageData_resume_failure now env this :
  failure env →
  ∃ tr,
    getUsageData_resume now env this = (this, tr, Return None) ∧
    existsb isConsoleError tr = true ∧
    (credentialOf (keychain env) = None → existsb isHttpGet tr = false).
Proof.
  intros Hfail. unfold getUsageData_resume.
  destruct (getAccessToken_resume_spec (keychain env) this) as (tr0 & Htok & Hlog & Hne).
  unfold mbind at 1, M_bind. rewrite Htok.
  destruct (credentialOf (keychain env)) as [token|] eqn:Hcred.
  2:{ run_m. eexists. split; [reflexivity|]. rewrite app_nil_r.
      split; [by apply only_errors_some; auto|].
      intros _. by apply only_errors_no_request. }
  destruct Hfail as [Hno | resp Hhttp Hok | resp reason Hhttp Hjson | resp o Hhttp Hjson Hmiss].
  - congruence.
  - run_m. rewrite Hhttp. run_m. rewrite Hok. run_m.
    eexists. split; [reflexivity|]. split; [|done].
    rewrite existsb_app. simpl. by rewrite orb_true_r.
  - run_m. rewrite Hhttp. run_m. destruct (Response.ok resp); run_m.
    + rewrite Hjson. run_m.
      eexists. split; [reflexivity|]. split; [|done].
      rewrite existsb_app. simpl. by rewrite orb_true_r.
    + eexists. split; [reflexivity|]. split; [|done].
      rewrite existsb_app. simpl. by rewrite orb_true_r.
  - run_m. rewrite Hhttp. run_m. destruct (Response.ok resp); run_m.
    + rewrite Hjson. run_m. rewrite (validate_missing o Hmiss). run_m.
      eexists. split; [reflexivity|]. split; [|done].
      rewrite existsb_app. simpl. by rewrite orb_true_r.
    + eexists. split; [reflexivity|]. split; [|done].
      rewrite existsb_app. simpl. by rewrite orb_true_r.
Qed.

(** *** C9: the rate-limit call fails soft *)




End RateLimitClient.

(** ** The usage aggregator *)

Section UsageAggregator.

Import CCUsageService.

Implicit Types (this : t) (p : Process) (f : Fetch.t).

Lemma occurrences_app e (a b : Trace) :
  occurrences e (a ++ b) = (occurrences e a + occurrences e b)%nat.
Proof. unfold occurrences. by rewrite filter_app, length_app. Qed.

Lemma occurrences_quiet e (tr : Trace) :
  isSourceCall e = true →
  forallb (λ x, negb (isSourceCall x)) tr = true →
  occurrences e tr = 0%nat.
Proof.
  intros He. unfold occurrences.
  induction tr as [|x tr IH]; [done|]. simpl.
  intros H. apply andb_prop in H as [Hx H].
  rewrite filter_cons. destruct (decide (x = e)) as [->|_]; [|by apply IH].
  by rewrite He in Hx.
Qed.

Lemma sourceCalls_app (a b : Trace) :
  sourceCalls (a ++ b) =
    ((sourceCalls a).1.1 + (sourceCalls b).1.1,
     (sourceCalls a).1.2 + (sourceCalls b).1.2,
     (sourceCalls a).2 + (sourceCalls b).2)%nat.
Proof. unfold sourceCalls. by rewrite !occurrences_app. Qed.

Lemma sourceCalls_quiet (tr : Trace) :
  forallb (λ x, negb (isSourceCall x)) tr = true →
  sourceCalls tr = (0, 0, 0)%nat.
Proof.
  intros H. unfold sourceCalls. by rewrite !occurrences_quiet.
Qed.

Lemma setOAuth_same p : setOAuth (oauthService (service p)) p = p.
Proof. by destruct p as [[]]. Qed.

(** A cache miss issues each of the three calls once and changes nothing. *)
Lemma issueFetches_spec now p :
  ∃ tr oauthCall,
    issueFetches now p = (p, tr, Return (Miss oauthCall)) ∧
    sourceCalls tr = oneFetchEach ∧
    ClaudeOAuthService.getUsageData_start now (oauthService (service p)) =
      (oauthService (service p), drop 3 tr, Return oauthCall).
Proof.
  unfold issueFetches. run_m.
  destruct (ClaudeOAuthService.fresh now (oauthService (service p))) eqn:Hfresh.
  - destruct (fresh_true_start _ _ Hfresh) as (data & _ & ->).
    rewrite setOAuth_same. eexists _, _. split; [reflexivity|]. done.
  - rewrite fresh_false_start by done.
    rewrite setOAuth_same. eexists _, _. split; [reflexivity|]. done.
Qed.

Lemma getUsageStats_start_miss now p :
  cacheFresh now (service p) = false →
  getUsageStats_start now p = issueFetches now p.
Proof.
  unfold cacheFresh, getUsageStats_start. run_m.
  destruct (cachedStats (service p)).
  - intros ->. by destruct (issueFetches now p) as [[? ?] ?].
  - intros _. by destruct (issueFetches now p) as [[? ?] ?].
Qed.

Lemma getUsageStats_start_hit now p :
  cacheFresh now (service p) = true →
  ∃ r, cachedStats (service p) = Some r ∧
       getUsageStats_start now p = (p, [], Return (Hit r)).
Proof.
  unfold cacheFresh, getUsageStats_start. run_m.
  destruct (cachedStats (service p)) as [r|]; [|done].
  intros ->. by exists r.
Qed.


(** What the rate-limit call contributes once it has settled. *)
Lemma oauth_settles now f oauthCall (o : ClaudeOAuthService.t) :
  ∃ o' tro od,
    match oauthCall with
    | ClaudeOAuthService.FromCache d => (o, [], Return (Some d))
    | ClaudeOAuthService.AwaitingToken =>
        ClaudeOAuthService.getUsageData_resume now (Fetch.oauth f) o
    end = (o', tro, Return od) ∧
    forallb (λ e, negb (isSourceCall e)) tro = true.
Proof.
  destruct oauthCall as [d|].
  - by eexists _, _, _.
  - destruct (getUsageData_resume_returns now (Fetch.oauth f) o)
      as (o' & tro & od & H & Hq & _).
    by eexists _, _, _.
Qed.

(** The continuation of [getUsageStats]: with both ledger reads fulfilled
    it allocates the merged object, stores the blocks and fills the cache;
    otherwise it allocates the empty object and leaves the cache alone.  It
    never raises and calls no source. *)
Lemma getUsageStats_resume_spec now f oauthCall p o' tro od :
  match oauthCall with
  | ClaudeOAuthService.FromCache d => (oauthService (service p), [], Return (Some d))
  | ClaudeOAuthService.AwaitingToken =>
      ClaudeOAuthService.getUsageData_resume now (Fetch.oauth f) (oauthService (service p))
  end = (o', tro, Return od) →
  forallb (λ e, negb (isSourceCall e)) tro = true →
  ∃ tr,
    forallb (λ e, negb (isSourceCall e)) tr = true ∧
    getUsageStats_resume now f oauthCall p =
      match Fetch.blocks f, Fetch.dailyData f with
      | Fulfilled b, Fulfilled d =>
          let r := Ref.mk (allocated p)
                     (merge f (processDailyData (default [] d)) od) in
          (mkProcess (mk (Some r) now o' (menuBarCostSource (service p)) (default [] b))
                     (S (allocated p)),
           tr, Return r)
      | _, _ =>
          (mkProcess (mk (cachedStats (service p)) (lastUpdate (service p)) o'
                         (menuBarCostSource (service p)) (sessionBlocks (service p)))
                     (S (allocated p)),
           tr, Return (Ref.mk (allocated p) (getEmptyStats (Fetch.settledAt f))))
      end.
Proof.
  intros Ho Hq. unfold getUsageStats_resume.
  destruct oauthCall as [d0|]; run_m.
  - injection Ho as <- <- <-.
    destruct p as [[cs lu o mcs sb] n]; simpl.
    destruct (Fetch.blocks f) as [b|rb], (Fetch.dailyData f) as [d|rd]; run_m;
      eexists; (split; [|reflexivity]); done.
  - rewrite Ho.
    destruct p as [[cs lu o mcs sb] n]; simpl.
    destruct (Fetch.blocks f) as [b|rb], (Fetch.dailyData f) as [d|rd]; run_m;
      eexists; (split; [|reflexivity]);
      rewrite ?app_nil_r, ?forallb_app, ?Hq; done.
Qed.


Lemma getUsageStats_hit now f p :
  cacheFresh now (service p) = true →
  ∃ r, cachedStats (service p) = Some r ∧
       getUsageStats now f p = (p, [], Return r).
Proof.
  intros H. destruct (getUsageStats_start_hit now p H) as (r & Hr & Hs).
  exists r. split; [done|].
  unfold getUsageStats. unfold mbind, M_bind. rewrite Hs. by run_m.
Qed.

(** A whole call on a cache miss, in terms of what the rate-limit call
    [getUsageData] does on the same clock and environment. *)
Lemma getUsageStats_miss now f p :
  cacheFresh now (service p) = false →
  ∃ o' tro od tr,
    ClaudeOAuthService.getUsageData now (Fetch.oauth f) (oauthService (service p))
      = (o', tro, Return od) ∧
    sourceCalls tr = oneFetchEach ∧
    getUsageStats now f p =
      match Fetch.blocks f, Fetch.dailyData f with
      | Fulfilled b, Fulfilled d =>
          let r := Ref.mk (allocated p)
                     (merge f (processDailyData (default [] d)) od) in
          (mkProcess (mk (Some r) now o' (menuBarCostSource (service p)) (default [] b))
                     (S (allocated p)),
           tr, Return r)
      | _, _ =>
          (mkProcess (mk (cachedStats (service p)) (lastUpdate (service p)) o'
                         (menuBarCostSource (service p)) (sessionBlocks (service p)))
                     (S (allocated p)),
           tr, Return (Ref.mk (allocated p) (getEmptyStats (Fetch.settledAt f))))
      end.
Proof.
  intros Hmiss.
  destruct (issueFetches_spec now p) as (tr1 & oauthCall & Hissue & Hcalls & Hstart).
  destruct (oauth_settles now f oauthCall (oauthService (service p)))
    as (o' & tro & od & Ho & Hq).
  destruct (getUsageStats_resume_spec now f oauthCall p o' tro od Ho Hq)
    as (tr2 & Hq2 & Hresume).
  exists o', (drop 3 tr1 ++ tro), od, (tr1 ++ tr2).
  split; [|split].
  - unfold ClaudeOAuthService.getUsageData. unfold mbind at 1, M_bind.
    rewrite Hstart. destruct oauthCall as [d|].
    + injection Ho as <- <- <-. by run_m.
    + by rewrite Ho.
  - rewrite sourceCalls_app, Hcalls, (sourceCalls_quiet tr2 Hq2). done.
  - unfold getUsageStats. unfold mbind at 1, M_bind.
    rewrite getUsageStats_start_miss by done. rewrite Hissue, Hresume.
    by destruct (Fetch.blocks f), (Fetch.dailyData f).
Qed.


(** Every call returns an object and keeps the configured cost source. *)
Lemma getUsageStats_returns now f p :
  ∃ p' tr r,
    getUsageStats now f p = (p', tr, Return r) ∧
    menuBarCostSource (service p') = menuBarCostSource (service p).
Proof.
  destruct (cacheFresh now (service p)) eqn:Hc.
  - destruct (getUsageStats_hit now f p Hc) as (r & _ & ->). by eexists _, _, _.
  - destruct (getUsageStats_miss now f p Hc) as (o' & tro & od & tr & _ & _ & ->).
    destruct (Fetch.blocks f), (Fetch.dailyData f); by eexists _, _, _.
Qed.

(** The continuation always returns a new object. *)
Lemma getUsageStats_resume_returns now f oauthCall p :
  ∃ p' tr r,
    getUsageStats_resume now f oauthCall p = (p', tr, Return r) ∧
    forallb (λ e, negb (isSourceCall e)) tr = true ∧
    Ref.addr r = allocated p ∧
    allocated p' = S (allocated p).
Proof.
  destruct (oauth_settles now f oauthCall (oauthService (service p)))
    as (o' & tro & od & Ho & Hq).
  destruct (getUsageStats_resume_spec now f oauthCall p o' tro od Ho Hq)
    as (tr & Hq2 & ->).
  destruct (Fetch.blocks f), (Fetch.dailyData f); by eexists _, _, _.
Qed.

(** *** C1: failures of the three fetches *)

(** C1, as the code has it.  On a cache miss [getUsageStats] issues the
    three fetches and never raises.  The rate-limit call catches its own
    failures: when both ledger reads succeed, [today] and [thisWeek] are
    computed from the daily data whatever the rate-limit call returned, and
    only [oauthUtilization] is absent when it failed.  The two ledger reads
    share one [try]/[catch]: when either of them fails the call returns the
    all-zero object, without [oauthUtilization], and stores neither the
    blocks nor the object. *)
Theorem getUsageStats_failure_handling p now f :
  cacheFresh now (service p) = false →
  ∃ p' tr r o' tro od,
    getUsageStats now f p = (p', tr, Return r) ∧
    sourceCalls tr = oneFetchEach ∧
    ClaudeOAuthService.getUsageData now (Fetch.oauth f) (oauthService (service p))
      = (o', tro, Return od) ∧
    (ClaudeOAuthService.fresh now (oauthService (service p)) = false →
     failure (Fetch.oauth f) → od = None) ∧
    (∀ b d,
       Fetch.blocks f = Fulfilled b → Fetch.dailyData f = Fulfilled d →
       UsageStats.today (Ref.value r) =
         UsageStats.today (merge f (processDailyData (default [] d)) None) ∧
       UsageStats.thisWeek (Ref.value r) =
         UsageStats.thisWeek (merge f (processDailyData (default [] d)) None) ∧
       UsageStats.oauthUtilization (Ref.value r) =
         (λ u, formatOAuthData (Fetch.settledAt f) (Some u)) <$> od ∧
       sessionBlocks (service p') = default [] b ∧
       cachedStats (service p') = Some r) ∧
    ((∃ reason, Fetch.blocks f = Rejected reason) ∨
     (∃ reason, Fetch.dailyData f = Rejected reason) →
       Ref.value r = getEmptyStats (Fetch.settledAt f) ∧
       cachedStats (service p') = cachedStats (service p) ∧
       sessionBlocks (service p') = sessionBlocks (service p)).
Proof.
  intros Hmiss.
  destruct (getUsageStats_miss now f p Hmiss) as (o' & tro & od & tr & Ho & Hcalls & Hrun).
  assert (Hsoft : ClaudeOAuthService.fresh now (oauthService (service p)) = false →
                  failure (Fetch.oauth f) → od = None).
  { intros Hfresh Hfail. revert Ho.
    unfold ClaudeOAuthService.getUsageData. unfold mbind at 1, M_bind.
    rewrite fresh_false_start by done.
    destruct (getUsageData_resume_failure now (Fetch.oauth f)
                (oauthService (service p)) Hfail) as (tr' & -> & _).
    congruence. }
  destruct (Fetch.blocks f) as [b|rb] eqn:Hb, (Fetch.dailyData f) as [d|rd] eqn:Hd;
    eexists _, _, _, o', tro, od;
    (split; [exact Hrun|]); (split; [exact Hcalls|]); (split; [exact Ho|]);
    (split; [exact Hsoft|]); split.
  - intros b' d' [= <-] [= <-]. simpl. repeat split; try done; by destruct od.
  - intros [[? ?] | [? ?]]; discriminate.
  - intros b' d' ? ?. discriminate.
  - done.
  - intros b' d' ? ?. discriminate.
  - done.
  - intros b' d' ? ?. discriminate.
  - done.
Qed.

(** From the first state, with a locked keychain and both ledger reads
    fulfilled: today's 1000 tokens are there and only the rate-limit part
    is missing. *)
Lemma getUsageStats_failure_handling_witness :
  let f := Fetch.mk (Fulfilled (Some [])) (Fulfilled (Some [sampleDay]))
             lockedKeychainEnv sampleClock 0 0 in
  ∃ p' tr r,
    getUsageStats sampleClock f boot = (p', tr, Return r) ∧
    DailyUsage.totalTokens (UsageStats.today (Ref.value r)) = 1000 ∧
    UsageStats.oauthUtilization (Ref.value r) = None.
Proof.
  intros f.
  assert (Hmiss : cacheFresh sampleClock (service boot) = false) by reflexivity.
  destruct (getUsageStats_failure_handling boot sampleClock f Hmiss)
    as (p' & tr & r & o' & tro & od & Hrun & _ & _ & Hsoft & Hok & _).
  exists p', tr, r. split; [exact Hrun|].
  destruct (Hok (Some []) (Some [sampleDay]) eq_refl eq_refl)
    as (Htoday & _ & Hoauth & _).
  split.
  - rewrite Htoday. vm_compute. reflexivity.
  - rewrite Hoauth, Hsoft; [reflexivity|reflexivity|].
    apply no_credential. reflexivity.
Defined.

(** C1 as stated fails.  On the first call the session-block read is
    rejected while the daily read delivers today's 1000 tokens and the
    rate-limit call delivers its data; the result is the all-zero object:
    [today] has no tokens and [oauthUtilization] is absent, so the failure
    of one fetch has degraded the fields of the other two. *)
Lemma ledger_failure_zeroes_everything :
  cacheFresh sampleClock (service boot) = false ∧
  (∃ reason, Fetch.blocks blocksRejectedFetch = Rejected reason) ∧
  Fetch.dailyData blocksRejectedFetch = Fulfilled (Some [sampleDay]) ∧
  (ClaudeOAuthService.getUsageData sampleClock (Fetch.oauth blocksRejectedFetch)
     (oauthService (service boot))).2 = Return (Some sampleData) ∧
  DailyUsage.totalTokens
    (UsageStats.today (merge blocksRejectedFetch (processDailyData [sampleDay]) None))
    = 1000 ∧
  ∃ p' tr r,
    getUsageStats sampleClock blocksRejectedFetch boot = (p', tr, Return r) ∧
    DailyUsage.totalTokens (UsageStats.today (Ref.value r)) = 0 ∧
    UsageStats.today (Ref.value r) ≠
      UsageStats.today (merge blocksRejectedFetch (processDailyData [sampleDay]) None) ∧
    UsageStats.oauthUtilization (Ref.value r) = None.
Proof.
  split; [reflexivity|]. split; [by eexists|]. split; [reflexivity|].
  split; [reflexivity|]. split; [vm_compute; reflexivity|].
  eexists _, _, _. split; [vm_compute; reflexivity|].
  split; [reflexivity|]. split; [|reflexivity].
  intros H. apply (f_equal DailyUsage.totalTokens) in H.
  vm_compute in H. discriminate.
Qed.


(** A call on a miss issues the three fetches and returns a new object. *)
Lemma getUsageStats_refetch now f p :
  cacheFresh now (service p) = false →
  ∃ p' tr r,
    getUsageStats now f p = (p', tr, Return r) ∧
    sourceCalls tr = oneFetchEach ∧
    Ref.addr r = allocated p.
Proof.
  intros Hmiss.
  destruct (getUsageStats_miss now f p Hmiss) as (o' & tro & od & tr & _ & Hcalls & ->).
  destruct (Fetch.blocks f), (Fetch.dailyData f); by eexists _, _, _.
Qed.

(** *** C6: the three-second cache *)

(** C6, as the code has it.  A call of [getUsageStats] that misses the
    cache when the clock reads [now0] issues the three fetches.  When both
    ledger reads succeed it stores, on resuming, the new object together
    with [now0], the reading taken at its start and not the time of its
    completion; it does so in whatever state [p] it resumes, be it after an
    [updateConfiguration] or after another call has filled the cache.  From
    then on a call that starts less than 3 seconds after [now0] returns the
    very same object, issues no fetch and changes nothing; a call that
    starts 3 seconds after [now0] or later issues the three fetches again
    and returns a new object, however recently the first call completed;
    and a call that starts right after [updateConfiguration] issues the
    three fetches whatever the clock reads.  When nothing happens between
    the start and the resumption, the two steps are one call of
    [getUsageStats]. *)
Theorem cache_counts_from_start_reading p0 now0 f0 b d :
  cacheFresh now0 (service p0) = false →
  Fetch.blocks f0 = Fulfilled b →
  Fetch.dailyData f0 = Fulfilled d →
  ∃ trs oauthCall,
    getUsageStats_start now0 p0 = (p0, trs, Return (Miss oauthCall)) ∧
    sourceCalls trs = oneFetchEach ∧
    ∀ p,
      ∃ p1 tr0 r0,
        getUsageStats_resume now0 f0 oauthCall p = (p1, tr0, Return r0) ∧
        sourceCalls tr0 = (0, 0, 0)%nat ∧
        Ref.addr r0 = allocated p ∧
        cachedStats (service p1) = Some r0 ∧
        lastUpdate (service p1) = now0 ∧
        (p = p0 → getUsageStats now0 f0 p0 = (p1, trs ++ tr0, Return r0)) ∧
        (∀ now1 f1,
           now1 - now0 < 3000 →
           getUsageStats now1 f1 p1 = (p1, [], Return r0)) ∧
        (∀ now1 f1,
           3000 ≤ now1 - now0 →
           ∃ p2 tr r,
             getUsageStats now1 f1 p1 = (p2, tr, Return r) ∧
             sourceCalls tr = oneFetchEach ∧
             Ref.addr r ≠ Ref.addr r0) ∧
        (∀ config now1 f1,
           ∃ p2 tr r,
             getUsageStats now1 f1 (withService (updateConfiguration config) p1)
               = (p2, tr, Return r) ∧
             sourceCalls tr = oneFetchEach ∧
             Ref.addr r ≠ Ref.addr r0).
Proof.
  intros Hmiss Hb Hd.
  destruct (issueFetches_spec now0 p0) as (trs & oauthCall & Hissue & Hcalls & _).
  exists trs, oauthCall.
  assert (Hstart : getUsageStats_start now0 p0 = (p0, trs, Return (Miss oauthCall))).
  { by rewrite getUsageStats_start_miss. }
  split; [exact Hstart|]. split; [exact Hcalls|].
  intros p.
  destruct (oauth_settles now0 f0 oauthCall (oauthService (service p)))
    as (o' & tro & od & Ho & Hq).
  destruct (getUsageStats_resume_spec now0 f0 oauthCall p o' tro od Ho Hq)
    as (tr0 & Hq0 & Hresume).
  rewrite Hb, Hd in Hresume. simpl in Hresume.
  eexists _, tr0, _. split; [exact Hresume|].
  split; [by apply sourceCalls_quiet|].
  split; [reflexivity|]. split; [reflexivity|]. split; [reflexivity|].
  split; [|split; [|split]].
  - intros ->. unfold getUsageStats. unfold mbind at 1, M_bind.
    rewrite Hstart, Hresume. by run_m.
  - intros now1 f1 Hlt.
    match goal with |- getUsageStats _ _ ?p1 = _ =>
      destruct (getUsageStats_hit now1 f1 p1) as (r & Hr & ->) end.
    + unfold cacheFresh, CACHE_DURATION. simpl. by apply bool_decide_eq_true_2.
    + simpl in Hr. by injection Hr as <-.
  - intros now1 f1 Hge.
    match goal with |- ∃ _ _ _, getUsageStats _ _ ?p1 = _ ∧ _ =>
      destruct (getUsageStats_refetch now1 f1 p1) as (p2 & tr & r & -> & Hc & Haddr) end.
    + unfold cacheFresh, CACHE_DURATION. simpl. apply bool_decide_eq_false_2. lia.
    + eexists _, _, _. split; [reflexivity|]. split; [exact Hc|].
      rewrite Haddr. simpl. lia.
  - intros config now1 f1.
    match goal with |- ∃ _ _ _, getUsageStats _ _ ?p1 = _ ∧ _ =>
      destruct (getUsageStats_refetch now1 f1 p1) as (p2 & tr & r & -> & Hc & Haddr) end.
    + reflexivity.
    + eexists _, _, _. split; [reflexivity|]. split; [exact Hc|].
      rewrite Haddr. simpl. lia.
Qed.

(** The first call of the process fetches; a call 2.999 seconds after its
    start gets the same object without a fetch, a call 3 seconds after its
    start fetches. *)
Lemma cache_counts_from_start_reading_witness :
  ∃ p1 tr r0,
    getUsageStats sampleClock goodFetch boot = (p1, tr, Return r0) ∧
    getUsageStats (sampleClock + 2999) blocksRejectedFetch p1 = (p1, [], Return r0) ∧
    (∃ p2 tr r,
       getUsageStats (sampleClock + 3000) goodFetch p1 = (p2, tr, Return r) ∧
       sourceCalls tr = oneFetchEach ∧ Ref.addr r ≠ Ref.addr r0).
Proof.
  destruct (cache_counts_from_start_reading boot sampleClock goodFetch
              (Some []) (Some [sampleDay]) eq_refl eq_refl eq_refl)
    as (trs & oauthCall & _ & _ & Hresume).
  destruct (Hresume boot)
    as (p1 & tr0 & r0 & _ & _ & _ & _ & _ & Hrun & Hhit & Hstale & _).
  exists p1, (trs ++ tr0), r0. split; [exact (Hrun eq_refl)|]. split.
  - apply Hhit. lia.
  - apply Hstale. lia.
Defined.

(** C6 as stated fails, in two ways.  First: from the first state of the
    process a call starts at the sample clock and its fetches take five
    seconds, all successful; the next call starts one millisecond after it
    has returned and nothing else has happened, yet it issues the three
    fetches and returns another object, because the three seconds count
    from the start of the first call.  Second: a call is in flight, with
    its fetches issued, when [updateConfiguration] clears the cache; it
    resumes 400 milliseconds after its start and fills the cache again, so
    the next call, one second after the start, returns that object and
    issues no fetch although it is the first to start after
    [updateConfiguration]. *)
Lemma late_call_refetches_and_inflight_call_refills :
  (∃ p1 tr1 r1 p2 tr2 r2,
     cacheFresh sampleClock (service boot) = false ∧
     getUsageStats sampleClock (fetchTaking 5000) boot = (p1, tr1, Return r1) ∧
     sourceCalls tr1 = oneFetchEach ∧
     cachedStats (service p1) = Some r1 ∧
     Fetch.settledAt (fetchTaking 5000) = sampleClock + 5000 ∧
     getUsageStats (sampleClock + 5001) (fetchTaking 5200) p1 = (p2, tr2, Return r2) ∧
     sourceCalls tr2 = oneFetchEach ∧
     Ref.addr r2 ≠ Ref.addr r1) ∧
  (∃ config p' tr r1 r2,
     reconfigureInFlight sampleClock (sampleClock + 1000)
       (fetchTaking 400) (fetchTaking 1200) config boot
     = (p', tr, Return (r1, r2)) ∧
     sourceCalls tr = oneFetchEach ∧
     r2 = r1 ∧
     tr = (getUsageStats sampleClock (fetchTaking 400) boot).1.2).
Proof.
  split.
  - eexists _, _, _, _, _, _.
    split; [reflexivity|]. split; [vm_compute; reflexivity|].
    split; [reflexivity|]. split; [reflexivity|]. split; [reflexivity|].
    split; [vm_compute; reflexivity|]. split; [reflexivity|].
    vm_compute. discriminate.
  - exists (PartialConfiguration.mk (Some CostSource.sessionWindow) None None).
    eexists _, _, _, _.
    split; [vm_compute; reflexivity|].
    split; [reflexivity|]. split; reflexivity.
Qed.

(** The same with two overlapping calls and no [updateConfiguration] at
    all: the first call starts at the sample clock, the second one second
    later; the second resumes first and the first after it, which puts the
    older start reading into [lastUpdate].  A call 2.5 seconds after the
    start of the second call, both having succeeded, fetches again. *)
Lemma overlapping_calls_keep_older_reading :
  ∃ p1 tr1 r1 r2 p2 tr2 r3,
    raceTwo sampleClock (sampleClock + 1000) (fetchTaking 1200) (fetchTaking 1100)
      false boot
    = (p1, tr1, Return (r1, r2)) ∧
    cachedStats (service p1) = Some r1 ∧
    lastUpdate (service p1) = sampleClock ∧
    getUsageStats (sampleClock + 3500) (fetchTaking 3700) p1 = (p2, tr2, Return r3) ∧
    sourceCalls tr2 = oneFetchEach ∧
    Ref.addr r3 ≠ Ref.addr r1 ∧ Ref.addr r3 ≠ Ref.addr r2.
Proof.
  eexists _, _, _, _, _, _, _.
  split; [vm_compute; reflexivity|].
  split; [reflexivity|]. split; [reflexivity|].
  split; [vm_compute; reflexivity|]. split; [reflexivity|].
  split; vm_compute; discriminate.
Qed.

(** *** C4: two calls in flight together *)

(** C4, as the code has it.  Two calls of [getUsageStats] that both start
    before any cache entry exists, and before either has resumed, each
    issue their own fetch of each of the three sources, two per source in
    all, and return two different objects, in whichever order they resume:
    nothing coalesces calls in flight. *)
Theorem concurrent_misses_fetch_twice p now1 now2 f1 f2 firstSettlesFirst :
  cachedStats (service p) = None →
  ∃ p' tr r1 r2,
    raceTwo now1 now2 f1 f2 firstSettlesFirst p = (p', tr, Return (r1, r2)) ∧
    sourceCalls tr = (2, 2, 2)%nat ∧
    Ref.addr r1 ≠ Ref.addr r2.
Proof.
  intros Hnone.
  assert (Hmiss : ∀ now, cacheFresh now (service p) = false).
  { intros now. unfold cacheFresh. by rewrite Hnone. }
  destruct (issueFetches_spec now1 p) as (tr1 & oc1 & Hi1 & Hc1 & _).
  destruct (issueFetches_spec now2 p) as (tr2 & oc2 & Hi2 & Hc2 & _).
  unfold raceTwo. unfold mbind at 1, M_bind.
  rewrite getUsageStats_start_miss, Hi1 by done.
  unfold mbind at 1, M_bind.
  rewrite getUsageStats_start_miss, Hi2 by done.
  destruct firstSettlesFirst; unfold finish.
  - destruct (getUsageStats_resume_returns now1 f1 oc1 p)
      as (pa & tra & ra & Hra & Hqa & Haddr_a & Halloc_a).
    destruct (getUsageStats_resume_returns now2 f2 oc2 pa)
      as (pb & trb & rb & Hrb & Hqb & Haddr_b & Halloc_b).
    unfold mbind, M_bind. rewrite Hra, Hrb. run_m.
    eexists _, _, _, _. split; [reflexivity|]. split; [|lia].
    rewrite !sourceCalls_app, Hc1, Hc2.
    rewrite (sourceCalls_quiet _ Hqa), (sourceCalls_quiet _ Hqb). done.
  - destruct (getUsageStats_resume_returns now2 f2 oc2 p)
      as (pb & trb & rb & Hrb & Hqb & Haddr_b & Halloc_b).
    destruct (getUsageStats_resume_returns now1 f1 oc1 pb)
      as (pa & tra & ra & Hra & Hqa & Haddr_a & Halloc_a).
    unfold mbind, M_bind. rewrite Hrb, Hra. run_m.
    eexists _, _, _, _. split; [reflexivity|]. split; [|lia].
    rewrite !sourceCalls_app, Hc1, Hc2.
    rewrite (sourceCalls_quiet _ Hqa), (sourceCalls_quiet _ Hqb). done.
Qed.

Lemma concurrent_misses_fetch_twice_witness :
  ∃ p' tr r1 r2,
    raceTwo sampleClock (sampleClock + 10) goodFetch goodFetch true boot
      = (p', tr, Return (r1, r2)) ∧
    sourceCalls tr = (2, 2, 2)%nat ∧
    Ref.addr r1 ≠ Ref.addr r2.
Proof.
  apply (concurrent_misses_fetch_twice boot sampleClock (sampleClock + 10)
           goodFetch goodFetch true).
  reflexivity.
Defined.

(** C4 as stated fails.  In the first state of the process no cache entry
    exists; two calls that start ten milliseconds apart, before either has
    resumed, call each of the three sources twice, not once. *)
Lemma concurrent_misses_are_not_coalesced :
  cachedStats (service boot) = None ∧
  sourceCalls (raceTwo sampleClock (sampleClock + 10) goodFetch goodFetch true boot).1.2
    = (2, 2, 2)%nat ∧
  sourceCalls (raceTwo sampleClock (sampleClock + 10) goodFetch goodFetch true boot).1.2
    ≠ oneFetchEach.
Proof.
  split; [reflexivity|]. split; [vm_compute; reflexivity|].
  vm_compute. discriminate.
Qed.


(** *** C7: the status buckets *)

Lemma Qle_bool_false x y : (y < x)%Q → Qle_bool x y = false.
Proof.
  intros H. destruct (Qle_bool x y) eqn:E; [|done].
  apply Qle_bool_iff in E. exfalso. by apply (Qlt_not_le y x).
Qed.

Lemma getStatus_cases pct :
  ((pct < 70)%Q → getStatus pct = safe) ∧
  ((70 <= pct)%Q → (pct < 90)%Q → getStatus pct = warning) ∧
  ((90 <= pct)%Q → getStatus pct = critical).
Proof.
  unfold getStatus. repeat split.
  - intros H. rewrite (Qle_bool_false 70 pct H).
    rewrite Qle_bool_false; [done|].
    apply Qlt_trans with 70%Q; [done|reflexivity].
  - intros H70 H90. rewrite (Qle_bool_false 90 pct H90).
    by rewrite (proj2 (Qle_bool_iff 70 pct) H70).
  - intros H. by rewrite (proj2 (Qle_bool_iff 90 pct) H).
Qed.

(** The menu-bar status is [getStatus] of the menu-bar percentage. *)
Lemma getMenuBarData_status now f menuNow p p' tr data :
  getMenuBarData now f menuNow p = (p', tr, Return data) →
  MenuBarData.status data = getStatus (MenuBarData.percentageUsed data).
Proof.
  unfold getMenuBarData. unfold mbind at 1, M_bind.
  destruct (getUsageStats_returns now f p) as (p1 & tr1 & r & -> & _).
  run_m. by intros [= <- <- <-].
Qed.

(** C7.  The status is a total function of the percentage alone: [safe] on
    [0, 70), [warning] on [70, 90), [critical] from 90 on, the same for
    equal percentages.  The two thresholds are constants:
    [updateConfiguration] discards [notificationThresholds], so the status
    of the menu-bar data is the same whatever thresholds are configured,
    and it is always [getStatus] of the menu-bar percentage. *)
Theorem status_is_a_function_of_percentage :
  (∀ pct, (0 <= pct)%Q → (pct < 70)%Q → getStatus pct = safe) ∧
  (∀ pct, (70 <= pct)%Q → (pct < 90)%Q → getStatus pct = warning) ∧
  (∀ pct, (90 <= pct)%Q → getStatus pct = critical) ∧
  (∀ pct pct', (pct == pct')%Q → getStatus pct = getStatus pct') ∧
  (∀ source mode thresholds thresholds' this,
     updateConfiguration (PartialConfiguration.mk source mode thresholds) this =
     updateConfiguration (PartialConfiguration.mk source mode thresholds') this) ∧
  (∀ source mode thresholds thresholds' now f menuNow p,
     getMenuBarData now f menuNow
       (withService (updateConfiguration
                       (PartialConfiguration.mk source mode thresholds)) p) =
     getMenuBarData now f menuNow
       (withService (updateConfiguration
                       (PartialConfiguration.mk source mode thresholds')) p)) ∧
  (∀ now f menuNow p p' tr data,
     getMenuBarData now f menuNow p = (p', tr, Return data) →
     MenuBarData.status data = getStatus (MenuBarData.percentageUsed data)).
Proof.
  split; [|split; [|split; [|split; [|split; [|split]]]]].
  - intros pct _. apply getStatus_cases.
  - intros pct. apply getStatus_cases.
  - intros pct. apply getStatus_cases.
  - intros pct pct' Heq. unfold getStatus.
    assert (H90 : Qle_bool 90 pct = Qle_bool 90 pct').
    { apply eq_true_iff_eq. rewrite !Qle_bool_iff. by rewrite Heq. }
    assert (H70 : Qle_bool 70 pct = Qle_bool 70 pct').
    { apply eq_true_iff_eq. rewrite !Qle_bool_iff. by rewrite Heq. }
    by rewrite H90, H70.
  - done.
  - done.
  - apply getMenuBarData_status.
Qed.

(** The bucket boundaries, and a process configured with thresholds 10 and
    20: at 42% the menu bar is still [safe]. *)
Lemma status_is_a_function_of_percentage_witness :
  getStatus 0 = safe ∧ getStatus (699 # 10) = safe ∧
  getStatus 70 = warning ∧ getStatus (899 # 10) = warning ∧
  getStatus 90 = critical ∧ getStatus 100 = critical ∧
  getStatus (140 # 2) = getStatus 70 ∧
  ∃ p' tr data,
    getMenuBarData sampleClock goodFetch sampleClock thresholdProcess
      = (p', tr, Return data) ∧
    MenuBarData.percentageUsed data = 42%Q ∧
    MenuBarData.status data = getStatus (MenuBarData.percentageUsed data).
Proof.
  destruct status_is_a_function_of_percentage
    as (Hsafe & Hwarn & Hcrit & Heq & _ & _ & Hmenu).
  split; [apply Hsafe; vm_compute; discriminate || reflexivity|].
  split; [apply Hsafe; vm_compute; discriminate || reflexivity|].
  split; [apply Hwarn; vm_compute; discriminate || reflexivity|].
  split; [apply Hwarn; vm_compute; discriminate || reflexivity|].
  split; [apply Hcrit; vm_compute; discriminate || reflexivity|].
  split; [apply Hcrit; vm_compute; discriminate || reflexivity|].
  split; [apply Heq; vm_compute; reflexivity|].
  let run := eval vm_compute in
      (getMenuBarData sampleClock goodFetch sampleClock thresholdProcess) in
  match run with
  | (?p', ?tr, Return ?data) =>
      exists p', tr, data;
      assert (Hrun : getMenuBarData sampleClock goodFetch sampleClock thresholdProcess
                     = (p', tr, Return data)) by (vm_compute; reflexivity);
      split; [exact Hrun|]; split; [reflexivity|];
      exact (Hmenu sampleClock goodFetch sampleClock thresholdProcess p' tr data Hrun)
  end.
Defined.

(** *** C8: the session-window cost *)

Lemma orZero_eq x : (orZero x == x)%Q.
Proof.
  unfold orZero. destruct (Qeq_bool x 0) eqn:E; [|reflexivity].
  apply Qeq_bool_iff in E. by rewrite E.
Qed.

Lemma windowCostSpec_cons now b blocks :
  windowCostSpec now (b :: blocks) =
    if inWindow now b
    then (SessionBlock.costUSD b + windowCostSpec now blocks)%Q
    else windowCostSpec now blocks.
Proof. unfold windowCostSpec. simpl. by destruct (inWindow now b). Qed.

Lemma inWindow_unfold now b :
  inWindow now b =
    if bool_decide (SessionBlock.isGap b = Some true) then false
    else bool_decide (SessionBlock.startTime b >= now - WINDOW_MS).
Proof.
  unfold inWindow. destruct (bool_decide (SessionBlock.isGap b = Some true)); [done|].
  simpl. apply bool_decide_ext. lia.
Qed.

(** The loop with its running total adds the specified sum to the total. *)
Lemma window_loop_spec (now : Z) blocks total :
  Qeq
    (foldl (λ total block,
              if bool_decide (SessionBlock.isGap block = Some true) then total
              else if bool_decide (SessionBlock.startTime block >= now - WINDOW_MS)
              then (total + orZero (SessionBlock.costUSD block))%Q
              else total)
           total blocks)
    (total + windowCostSpec now blocks)%Q.
Proof.
  revert total. induction blocks as [|b blocks IH]; intros total.
  - unfold windowCostSpec. simpl. ring.
  - cbn [foldl]. rewrite IH, windowCostSpec_cons, inWindow_unfold.
    destruct (bool_decide (SessionBlock.isGap b = Some true)); [reflexivity|].
    destruct (bool_decide (SessionBlock.startTime b >= now - WINDOW_MS));
      [|reflexivity].
    rewrite orZero_eq. ring.
Qed.

Lemma getSessionWindowCost_spec now this :
  (getSessionWindowCost now this == windowCostSpec now (sessionBlocks this))%Q.
Proof.
  unfold getSessionWindowCost.
  destruct (sessionBlocks this) as [|b blocks] eqn:E; [reflexivity|].
  rewrite window_loop_spec. ring.
Qed.

Lemma exampleBlocks_cost now : (windowCostSpec now (exampleBlocks now) == 3)%Q.
Proof.
  unfold windowCostSpec, exampleBlocks, inWindow, WINDOW_MS, HOUR. simpl.
  rewrite bool_decide_eq_false_2 by lia.
  rewrite bool_decide_eq_true_2 by lia.
  simpl. reflexivity.
Qed.

(** C8.  With the cost source [sessionWindow], the cost of the menu-bar
    data is the sum of [costUSD] over the stored session blocks that are
    not gaps and whose start lies at or after five hours before the clock
    reading; for the three blocks (six hours ago, 5), (two hours ago, 3)
    and (one hour ago, 2, a gap) it is 3. *)
Theorem session_window_cost p now f menuNow :
  menuBarCostSource (service p) = CostSource.sessionWindow →
  ∃ p' tr data,
    getMenuBarData now f menuNow p = (p', tr, Return data) ∧
    (MenuBarData.cost data == windowCostSpec menuNow (sessionBlocks (service p')))%Q ∧
    (sessionBlocks (service p') = exampleBlocks menuNow →
     (MenuBarData.cost data == 3)%Q).
Proof.
  intros Hsource.
  unfold getMenuBarData. unfold mbind at 1, M_bind.
  destruct (getUsageStats_returns now f p) as (p1 & tr1 & r & -> & Hkeep).
  run_m. rewrite Hkeep, Hsource. simpl.
  eexists _, _, _. split; [reflexivity|]. simpl.
  split; [apply getSessionWindowCost_spec|].
  intros Hex. rewrite getSessionWindowCost_spec, Hex. apply exampleBlocks_cost.
Qed.


(** The first call of a process configured for the session window meets
    the three example blocks: the menu bar shows a cost of 3. *)
Lemma session_window_cost_witness :
  ∃ p' tr data,
    getMenuBarData sampleClock windowFetch sampleClock sessionWindowProcess
      = (p', tr, Return data) ∧
    (MenuBarData.cost data == 3)%Q.
Proof.
  destruct (session_window_cost sessionWindowProcess sampleClock windowFetch sampleClock
              eq_refl) as (p' & tr & data & Hrun & _ & Hexample).
  exists p', tr, data. split; [exact Hrun|].
  apply Hexample.
  assert (E : sessionBlocks (service
                (getMenuBarData sampleClock windowFetch sampleClock
                   sessionWindowProcess).1.1) = exampleBlocks sampleClock)
    by (vm_compute; reflexivity).
  rewrite Hrun in E. exact E.
Defined.

End UsageAggregator.

(** ** The embedding on the examples of the specification *)

Example format_thirty_hours :
  ClaudeOAuthService.formatTimeUntilReset sampleClock (sampleClock + 30 * HOUR) = "1d 6h".
Proof. reflexivity. Qed.

Example format_ninety_minutes :
  ClaudeOAuthService.formatTimeUntilReset sampleClock (sampleClock + 90 * 60000) = "1h 30m".
Proof. reflexivity. Qed.

Example format_five_minutes :
  ClaudeOAuthService.formatTimeUntilReset sampleClock (sampleClock + 5 * 60000) = "5m".
Proof. reflexivity. Qed.

Example format_past :
  ClaudeOAuthService.formatTimeUntilReset sampleClock (sampleClock - 1) = "Resetting...".
Proof. reflexivity. Qed.

Example synthetic_model_excluded :
  DailyUsage.models
    (CCUsageService.processDay
       (DailyDataEntry.mk 0 1 2 3 4 1
          [ModelBreakdown.mk "A" 1 2 3 4 1;
           ModelBreakdown.mk "<synthetic>" 5 5 5 5 0]))
  = {["A" := ModelUsage.mk 10 1]}.
Proof. reflexivity. Qed.

Example identifier_rounds_half_up :
  NotificationService.dataIdentifier (snapshot (745 # 10)) = "warning-75" ∧
  NotificationService.dataIdentifier (snapshot (744 # 10)) = "warning-74".
Proof. split; reflexivity. Qed.

Example unavailable_rate_limit_shows_zero :
  ∃ p tr data,
    CCUsageService.getMenuBarData sampleClock
      (Fetch.mk (Fulfilled (Some [])) (Fulfilled (Some [sampleDay])) lockedKeychainEnv
                sampleClock 0 0)
      sampleClock CCUsageService.boot = (p, tr, Return data) ∧
    MenuBarData.percentageUsed data = 0%Q ∧
    MenuBarData.status data = safe.
Proof. eexists _, _, _. split; [vm_compute; reflexivity|]. split; reflexivity. Qed.

(** * Further properties of the code *)

(** Closes a goal whose hypotheses contradict each other by cases. *)
Ltac contradictory_cases :=
  repeat match goal with
         | H : _ ∨ _ |- _ => destruct H
         | H : _ ∧ _ |- _ => destruct H
         | H : ∃ _, _ |- _ => destruct H
         end;
  congruence.

(** ** The notification gate over the life of the process *)

Section GateLifetime.

Import NotificationService.

Implicit Types (this : t) (data : MenuBarData.t) (g : Gate).

(** A poll that fires records the status and the clock of its snapshot,
    and that status is above the level recorded before. *)
Lemma poll_fired_level now data g :
  (poll now data g).2 = true →
  lastWarningLevel (service (poll now data g).1) = MenuBarData.status data ∧
  lastNotificationTime (service (poll now data g).1) = now ∧
  lastNotificationTime (service g) + NOTIFICATION_COOLDOWN ≤ now ∧
  (rank (lastWarningLevel (service g)) < rank (MenuBarData.status data))%nat.
Proof.
  rewrite poll_unfold. simpl.
  destruct (runTimers_fields now g) as (Htime & Hlevel & _).
  destruct (checkAndNotify_cases now data auto (service (runTimers now g)))
    as [-> | (title & body & Hedge & _ & _ & Hcool & ->)]; simpl; [discriminate|].
  intros _. rewrite Htime in Hcool. repeat split; [lia|].
  revert Hedge. unfold edge. rewrite Hlevel.
  destruct (MenuBarData.status data), (lastWarningLevel (service g));
    simpl; try discriminate; lia.
Qed.

(** X1.  Once a poll has fired for a [critical] snapshot, no later poll
    fires, whatever the snapshots and however much time passes: the
    recorded level stays [critical] for the rest of the process. *)
Theorem silent_after_critical_alert g now data rest :
  (poll now data g).2 = true →
  MenuBarData.status data = critical →
  (run rest (poll now data g).1).2 = replicate (length rest) false.
Proof.
  intros Hfired Hcrit.
  apply run_after_critical.
  destruct (poll_fired_level now data g Hfired) as (-> & _). exact Hcrit.
Qed.

Lemma silent_after_critical_alert_witness :
  (poll 1700000000000 (snapshot 95) start).2 = true ∧
  (run [(1700003600000, snapshot 10);
        (1700007200000, snapshot 75);
        (1700010800000, snapshot 99)]
       (poll 1700000000000 (snapshot 95) start).1).2 = [false; false; false].
Proof.
  split; [vm_compute; reflexivity|].
  apply (silent_after_critical_alert start 1700000000000 (snapshot 95)
           [(1700003600000, snapshot 10);
            (1700007200000, snapshot 75);
            (1700010800000, snapshot 99)]).
  - vm_compute. reflexivity.
  - reflexivity.
Defined.

Lemma poll_level_monotone now data g :
  (rank (lastWarningLevel (service g)) + (if (poll now data g).2 then 1 else 0)
   ≤ rank (lastWarningLevel (service (poll now data g).1)))%nat.
Proof.
  destruct (poll now data g).2 eqn:Hf.
  - destruct (poll_fired_level now data g Hf) as (-> & _ & _ & Hlt). lia.
  - destruct (poll_silent_fields now data g Hf) as (_ & -> & _). lia.
Qed.

(** X2.  Every notification raises the recorded level, which is never
    lowered: over any run the number of notifications is at most the rise
    of the level, so a process sends at most two notifications in its
    life (one for [warning], one for [critical]). *)
Theorem at_most_two_notifications calls g :
  (fireCount (run calls g).2 + rank (lastWarningLevel (service g))
   ≤ rank (lastWarningLevel (service (run calls g).1)))%nat ∧
  (fireCount (run calls g).2 ≤ 2)%nat.
Proof.
  assert (H : (fireCount (run calls g).2 + rank (lastWarningLevel (service g))
               ≤ rank (lastWarningLevel (service (run calls g).1)))%nat).
  { revert g. induction calls as [|[now data] rest IH]; intros g; [simpl; lia|].
    rewrite run_cons.
    specialize (IH (poll now data g).1).
    pose proof (poll_level_monotone now data g) as Hstep.
    destruct (poll now data g) as [g1 f]. cbn [fst snd] in *.
    unfold fireCount in *. cbn [List.filter].
    destruct f; cbn [length]; lia. }
  split; [exact H|].
  assert (rank (lastWarningLevel (service (run calls g).1)) ≤ 2)%nat
    by (destruct (lastWarningLevel (service (run calls g).1)); simpl; lia).
  lia.
Qed.

Lemma firedTimes_cons now data rest g :
  firedTimes ((now, data) :: rest) g =
    if (poll now data g).2 then now :: firedTimes rest (poll now data g).1
    else firedTimes rest (poll now data g).1.
Proof. reflexivity. Qed.

(** X3.  Two notifications are never less than five minutes apart: in any
    run, the clock readings of the polls that fired are each at least the
    cooldown after the previous one, the first at least the cooldown after
    the fire time recorded at the start. *)
Theorem notifications_five_minutes_apart calls g :
  gapped (lastNotificationTime (service g)) (firedTimes calls g).
Proof.
  revert g. induction calls as [|[now data] rest IH]; intros g; [done|].
  rewrite firedTimes_cons.
  destruct (poll now data g).2 eqn:Hf.
  - destruct (poll_fired_level now data g Hf) as (_ & Htime & Hgap & _).
    simpl. split; [exact Hgap|].
    specialize (IH (poll now data g).1). by rewrite Htime in IH.
  - destruct (poll_silent_fields now data g Hf) as (Htime & _).
    specialize (IH (poll now data g).1). by rewrite Htime in IH.
Qed.

Lemma runTimers_lock now g :
  lockTracksTimer g →
  lockTracksTimer (runTimers now g) ∧
  (notificationInProgress (service (runTimers now g)) = true →
   now < lastNotificationTime (service (runTimers now g)) + LOCK_DELAY).
Proof.
  intros [[Hlock Htimers] | [Hlock Htimers]]; unfold runTimers; rewrite Htimers; simpl.
  - split; [left; done|]. rewrite Hlock. discriminate.
  - destruct (Z.leb_spec (lastNotificationTime (service g) + LOCK_DELAY) now) as [Hdue|Hnot];
      simpl.
    + split; [left; done|]. discriminate.
    + split; [right; done|]. intros _. lia.
Qed.

Lemma poll_lock now data g :
  lockTracksTimer g → lockTracksTimer (poll now data g).1.
Proof.
  intros Hinv. destruct (runTimers_lock now g Hinv) as [Hinv1 _].
  rewrite poll_unfold. simpl.
  destruct (checkAndNotify_cases now data auto (service (runTimers now g)))
    as [-> | (title & body & _ & _ & Hfree & _ & ->)]; simpl.
  - rewrite app_nil_r. by destruct (runTimers now g).
  - destruct Hinv1 as [[_ Ht] | [Hheld _]]; [|congruence].
    rewrite Ht. right. done.
Qed.

Lemma reachable_lock g : reachable g → lockTracksTimer g.
Proof.
  induction 1 as [|now data g _ IH]; [left; done|]. by apply poll_lock.
Qed.

(** X4.  The lock never decides alone: in every state the process can
    reach, a poll that finds the lock still held arrives less than a
    second after the last notification, hence inside the cooldown, which
    would have held it back anyway. *)
Theorem lock_implies_cooldown g now :
  reachable g →
  notificationInProgress (service (runTimers now g)) = true →
  now - lastNotificationTime (service (runTimers now g)) < NOTIFICATION_COOLDOWN.
Proof.
  intros Hreach Hheld.
  destruct (runTimers_lock now g (reachable_lock g Hreach)) as [_ Hsoon].
  specialize (Hsoon Hheld). unfold LOCK_DELAY, NOTIFICATION_COOLDOWN in *. lia.
Qed.

Lemma lock_implies_cooldown_witness :
  let g := (poll 1700000000000 (snapshot 75) start).1 in
  notificationInProgress (service (runTimers 1700000000500 g)) = true ∧
  1700000000500 - lastNotificationTime (service (runTimers 1700000000500 g))
    < NOTIFICATION_COOLDOWN.
Proof.
  intros g. split; [vm_compute; reflexivity|].
  apply lock_implies_cooldown.
  - apply reachable_poll, reachable_start.
  - vm_compute. reflexivity.
Defined.

End GateLifetime.

(** ** Delivering a notification *)

Section Delivery.

Import NotificationService.

(** X5.  [sendNotification] never raises, whatever the host does.  The
    notification reaches the screen exactly when the host reports support
    and showing succeeds; when the host has no support nothing happens at
    all; when the support test or the showing raises, the screen is left
    as it was and the failure goes to the console. *)
Theorem sendNotification_contains_failures host title body screen :
  ∃ screen' tr,
    sendNotification host title body screen = (screen', tr, Return tt) ∧
    (isSupported host = Return true → show host = Return tt →
       screen' = screen ++ [(title, body)] ∧ tr = []) ∧
    (isSupported host = Return false → screen' = screen ∧ tr = []) ∧
    ((∃ reason, isSupported host = Throw reason) ∨
     (isSupported host = Return true ∧ ∃ reason, show host = Throw reason) →
       screen' = screen ∧ tr = [ConsoleError "Error sending notification:"]).
Proof.
  unfold sendNotification, display. run_m.
  destruct (isSupported host) as [[|]|r1] eqn:Hs; run_m.
  - destruct (show host) as [[]|r2] eqn:Hshow; run_m;
      eexists _, _; (split; [reflexivity|]);
      repeat split; try done; contradictory_cases.
  - eexists _, _. split; [reflexivity|].
    repeat split; try done; contradictory_cases.
  - eexists _, _. split; [reflexivity|].
    repeat split; try done; contradictory_cases.
Qed.

Lemma sendNotification_contains_failures_witness :
  sendNotification (mkPlatform (Return true) (Return tt) pretty) "t" "b" []
    = ([("t", "b")], [], Return tt) ∧
  sendNotification (mkPlatform (Return true) (Throw "no display") pretty) "t" "b" []
    = ([], [ConsoleError "Error sending notification:"], Return tt).
Proof.
  split.
  - destruct (sendNotification_contains_failures
                (mkPlatform (Return true) (Return tt) pretty) "t" "b" [])
      as (screen' & tr & -> & Hshown & _).
    destruct Hshown as [-> ->]; reflexivity.
  - destruct (sendNotification_contains_failures
                (mkPlatform (Return true) (Throw "no display") pretty) "t" "b" [])
      as (screen' & tr & -> & _ & _ & Hfail).
    destruct Hfail as [-> ->]; [|reflexivity].
    right. split; [reflexivity|]. by eexists.
Defined.

(** X6.  [sendDailySummary] asks the host for support before it enters
    [sendNotification]: without support it does nothing, with support it
    shows one notification titled "Claude Meter: Daily Summary" whose body
    carries the token count and the cost with three decimals; but when the
    support test itself raises, the exception reaches the caller, which
    [sendNotification] alone never lets happen. *)
Theorem sendDailySummary_support_test host tokensUsed cost screen :
  (isSupported host = Return false →
     sendDailySummary host tokensUsed cost screen = (screen, [], Return tt)) ∧
  (isSupported host = Return true → show host = Return tt →
     sendDailySummary host tokensUsed cost screen =
       (screen ++ [(summaryTitle,
                    "Today: " +:+ toLocaleString host tokensUsed +:+
                    " tokens used, $" +:+ toFixed 3 cost +:+ " spent")],
        [], Return tt)) ∧
  (∀ reason, isSupported host = Throw reason →
     sendDailySummary host tokensUsed cost screen = (screen, [], Throw reason)).
Proof.
  unfold sendDailySummary, sendNotification, display, summaryBody.
  repeat split.
  - intros H. run_m. rewrite H. by run_m.
  - intros H Hshow. run_m. rewrite H. run_m. rewrite Hshow. by run_m.
  - intros reason H. run_m. rewrite H. by run_m.
Qed.

Lemma sendDailySummary_support_test_witness :
  sendDailySummary (mkPlatform (Return true) (Return tt) pretty) 12345 (5 # 4) []
    = ([("Claude Meter: Daily Summary", "Today: 12345 tokens used, $1.250 spent")],
       [], Return tt) ∧
  sendDailySummary (mkPlatform (Throw "no electron") (Return tt) pretty) 12345 (5 # 4) []
    = ([], [], Throw "no electron").
Proof.
  destruct (sendDailySummary_support_test
              (mkPlatform (Return true) (Return tt) pretty) 12345 (5 # 4) [])
    as (_ & Hshown & _).
  destruct (sendDailySummary_support_test
              (mkPlatform (Throw "no electron") (Return tt) pretty) 12345 (5 # 4) [])
    as (_ & _ & Hraise).
  split.
  - rewrite Hshown; reflexivity.
  - apply Hraise. reflexivity.
Defined.

End Delivery.

(** ** The rate-limit client beyond its failures *)

Section RateLimitCache.

Import ClaudeOAuthService.

Implicit Types (this : t) (env : Env).

(** X7.  [formatTimeUntilReset] truncates, it never rounds up: a deadline
    that is not in the future reads "Resetting..."; under an hour it reads
    the whole minutes left (so "0m" in the last minute); from one hour up
    to, but not including, 25 hours it reads whole hours (1 to 24) and
    whole minutes; from 25 hours on it reads whole days and whole hours and
    drops the minutes. *)
Theorem formatTimeUntilReset_truncates now resetsAt :
  (resetsAt - now ≤ 0 → formatTimeUntilReset now resetsAt = "Resetting...") ∧
  (0 < resetsAt - now < HOUR →
   ∃ m, formatTimeUntilReset now resetsAt = pretty m +:+ "m" ∧
        0 ≤ m < 60 ∧
        m * 60000 ≤ resetsAt - now < (m + 1) * 60000) ∧
  (HOUR ≤ resetsAt - now < 25 * HOUR →
   ∃ h m, formatTimeUntilReset now resetsAt = pretty h +:+ "h " +:+ pretty m +:+ "m" ∧
          1 ≤ h ≤ 24 ∧ 0 ≤ m < 60 ∧
          h * HOUR + m * 60000 ≤ resetsAt - now < h * HOUR + (m + 1) * 60000) ∧
  (25 * HOUR ≤ resetsAt - now →
   ∃ d h, formatTimeUntilReset now resetsAt = pretty d +:+ "d " +:+ pretty h +:+ "h" ∧
          1 ≤ d ∧ 0 ≤ h < 24 ∧
          (24 * d + h) * HOUR ≤ resetsAt - now < (24 * d + h + 1) * HOUR).
Proof.
  unfold formatTimeUntilReset, HOUR.
  change (1000 * 60 * 60) with 3600000. change (1000 * 60) with 60000.
  set (diff := resetsAt - now).
  repeat split.
  - intros H. by rewrite bool_decide_eq_true_2.
  - intros H. rewrite bool_decide_eq_false_2 by lia.
    assert (Hh : diff `div` 3600000 = 0) by (apply Z.div_small; lia).
    rewrite Hh. rewrite bool_decide_eq_false_2 by lia.
    rewrite bool_decide_eq_false_2 by lia.
    rewrite (Z.mod_small diff 3600000) by lia.
    exists (diff `div` 60000). split; [done|].
    pose proof (Z.div_mod diff 60000 ltac:(lia)).
    pose proof (Z.mod_pos_bound diff 60000 ltac:(lia)). lia.
  - intros H. rewrite bool_decide_eq_false_2 by lia.
    pose proof (Z.div_mod diff 3600000 ltac:(lia)) as Hdm.
    pose proof (Z.mod_pos_bound diff 3600000 ltac:(lia)) as Hmb.
    set (h := diff `div` 3600000) in *. set (r := diff `mod` 3600000) in *.
    pose proof (Z.div_mod r 60000 ltac:(lia)) as Hdm2.
    pose proof (Z.mod_pos_bound r 60000 ltac:(lia)) as Hmb2.
    assert (1 ≤ h ≤ 24) by lia.
    rewrite bool_decide_eq_false_2 by lia.
    rewrite bool_decide_eq_true_2 by lia.
    exists h, (r `div` 60000). split; [done|]. lia.
  - intros H. rewrite bool_decide_eq_false_2 by lia.
    pose proof (Z.div_mod diff 3600000 ltac:(lia)) as Hdm.
    pose proof (Z.mod_pos_bound diff 3600000 ltac:(lia)) as Hmb.
    set (h := diff `div` 3600000) in *. set (r := diff `mod` 3600000) in *.
    assert (25 ≤ h) by lia.
    rewrite bool_decide_eq_true_2 by lia.
    pose proof (Z.div_mod h 24 ltac:(lia)) as Hdm2.
    pose proof (Z.mod_pos_bound h 24 ltac:(lia)) as Hmb2.
    exists (h `div` 24), (h `mod` 24). split; [done|]. lia.
Qed.

Lemma formatTimeUntilReset_truncates_witness :
  formatTimeUntilReset sampleClock (sampleClock + 59999) = "0m" ∧
  formatTimeUntilReset sampleClock (sampleClock + 24 * HOUR + 59 * 60000) = "24h 59m" ∧
  (∃ d h, formatTimeUntilReset sampleClock (sampleClock + 25 * HOUR) =
            pretty d +:+ "d " +:+ pretty h +:+ "h" ∧
          (24 * d + h) * HOUR ≤ sampleClock + 25 * HOUR - sampleClock).
Proof.
  split; [reflexivity|]. split; [reflexivity|].
  destruct (formatTimeUntilReset_truncates sampleClock (sampleClock + 25 * HOUR))
    as (_ & _ & _ & Hdays).
  destruct Hdays as (d & h & Hout & _ & _ & Hlow & _).
  - vm_compute. discriminate.
  - exists d, h. split; [exact Hout|exact Hlow].
Defined.

Lemma validate_fields o data :
  validate o = Some data →
  UsageBody.five_hour o = Some (ClaudeUsageData.five_hour data) ∧
  UsageBody.seven_day o = Some (ClaudeUsageData.seven_day data) ∧
  UsageBody.seven_day_sonnet o = ClaudeUsageData.seven_day_sonnet data ∧
  UsageBody.seven_day_opus o = ClaudeUsageData.seven_day_opus data ∧
  UsageBody.seven_day_oauth_apps o = ClaudeUsageData.seven_day_oauth_apps data ∧
  UsageBody.extra_usage o = ClaudeUsageData.extra_usage data.
Proof.
  unfold validate.
  destruct (UsageBody.five_hour o), (UsageBody.seven_day o); try discriminate.
  by intros [= <-].
Qed.

(** What a cache miss does, by the outside world it meets. *)
Lemma getUsageData_resume_outcome now env this :
  match credentialOf (keychain env), http env with
  | Some token, Fulfilled resp =>
      match Response.ok resp, Response.json resp with
      | true, Fulfilled (JsonObject o) =>
          match validate o with
          | Some data =>
              getUsageData_resume now env this =
                (mk (Some data) now, [HttpGet token], Return (Some data))
          | None => ∃ tr, getUsageData_resume now env this = (this, tr, Return None)
          end
      | _, _ => ∃ tr, getUsageData_resume now env this = (this, tr, Return None)
      end
  | _, _ => ∃ tr, getUsageData_resume now env this = (this, tr, Return None)
  end.
Proof.
  unfold getUsageData_resume.
  destruct (getAccessToken_resume_spec (keychain env) this) as (tr0 & Htok & Hlog & Hne).
  run_m. rewrite Htok.
  destruct (credentialOf (keychain env)) as [token|] eqn:Hcred.
  2:{ run_m. by eexists. }
  assert (tr0 = []) as ->.
  { revert Htok. unfold getAccessToken_resume, credentialOf in *.
    destruct (keychain env) as [[[|c]|?]|?]; try discriminate.
    run_m. destruct (ClaudeCredentials.claudeAiOauth c) as [e|]; [|discriminate].
    destruct (bool_decide (OAuthEntry.accessToken e = "")); [discriminate|].
    run_m. by intros [= <-]. }
  destruct (http env) as [resp|reason]; run_m; [|by eexists].
  destruct (Response.ok resp); run_m; [|destruct (Response.json resp); by eexists].
  destruct (Response.json resp) as [[|o]|reason]; run_m; try by eexists.
  destruct (validate o) as [data|]; run_m; [done|by eexists].
Qed.

(** X8.  On a cache miss [getUsageData] returns data only from a 2xx
    response, requested with the keychain's token, whose body carries both
    mandatory windows; the data is that body, and it is cached with the
    clock reading taken when the call started.  Conversely such a response
    always yields its data, at the price of one keychain call and one
    request. *)
Theorem getUsageData_returns_what_it_fetched now env this :
  fresh now this = false →
  (∀ this' tr data,
     getUsageData now env this = (this', tr, Return (Some data)) →
     this' = mk (Some data) now ∧
     ∃ token resp o,
       credentialOf (keychain env) = Some token ∧
       http env = Fulfilled resp ∧ Response.ok resp = true ∧
       Response.json resp = Fulfilled (JsonObject o) ∧
       UsageBody.five_hour o = Some (ClaudeUsageData.five_hour data) ∧
       UsageBody.seven_day o = Some (ClaudeUsageData.seven_day data) ∧
       UsageBody.seven_day_opus o = ClaudeUsageData.seven_day_opus data ∧
       UsageBody.extra_usage o = ClaudeUsageData.extra_usage data) ∧
  (∀ token resp o five seven,
     credentialOf (keychain env) = Some token →
     http env = Fulfilled resp → Response.ok resp = true →
     Response.json resp = Fulfilled (JsonObject o) →
     UsageBody.five_hour o = Some five → UsageBody.seven_day o = Some seven →
     let data :=
       ClaudeUsageData.mk five seven (UsageBody.seven_day_sonnet o)
         (UsageBody.seven_day_opus o) (UsageBody.seven_day_oauth_apps o)
         (UsageBody.extra_usage o) in
     getUsageData now env this =
       (mk (Some data) now, [KeychainExec; HttpGet token], Return (Some data))).
Proof.
  intros Hmiss.
  assert (Hrun : getUsageData now env this =
                 let '(s, tr, c) := getUsageData_resume now env this in
                 (s, KeychainExec :: tr, c)).
  { unfold getUsageData. unfold mbind at 1, M_bind.
    rewrite fresh_false_start by done.
    by destruct (getUsageData_resume now env this) as [[? ?] ?]. }
  pose proof (getUsageData_resume_outcome now env this) as Hout.
  split.
  - intros this' tr data. rewrite Hrun.
    destruct (credentialOf (keychain env)) as [token|] eqn:Hcred;
      [|destruct Hout as [tr' ->]; discriminate].
    destruct (http env) as [resp|] eqn:Hhttp;
      [|destruct Hout as [tr' ->]; discriminate].
    destruct (Response.ok resp) eqn:Hok; [|destruct Hout as [tr' ->]; discriminate].
    destruct (Response.json resp) as [[|o]|] eqn:Hjson;
      try (destruct Hout as [tr' ->]; discriminate).
    destruct (validate o) as [d|] eqn:Hv; [|destruct Hout as [tr' ->]; discriminate].
    rewrite Hout. intros [= <- <- <-]. split; [done|].
    destruct (validate_fields o d Hv) as (? & ? & _ & ? & _ & ?).
    by exists token, resp, o.
  - intros token resp o five seven Hcred Hhttp Hok Hjson Hfive Hseven.
    rewrite Hcred, Hhttp, Hok, Hjson in Hout.
    intros data.
    assert (Hv : validate o = Some data).
    { unfold validate. by rewrite Hfive, Hseven. }
    rewrite Hv in Hout. by rewrite Hrun, Hout.
Qed.

Lemma getUsageData_returns_what_it_fetched_witness :
  getUsageData sampleClock goodEnv initial =
    (mk (Some sampleData) sampleClock, [KeychainExec; HttpGet "token"],
     Return (Some sampleData)).
Proof.
  destruct (getUsageData_returns_what_it_fetched sampleClock goodEnv initial eq_refl)
    as [_ Hfetch].
  exact (Hfetch "token" goodResponse sampleBody (sampleLimit 42) (sampleLimit 17)
           eq_refl eq_refl eq_refl eq_refl eq_refl eq_refl).
Defined.

(** X9.  The 30-second cache of the rate-limit client.  With data cached
    at [now0], a call less than 30 seconds later returns that data without
    touching keychain or network and changes nothing; a call 30 seconds
    later or more goes to the keychain first, never returns the stale data
    on failure (it returns [null]) yet keeps it cached; and after
    [clearCache] the next call goes to the keychain whatever the clock
    reads. *)
Theorem rate_limit_cache_window data now0 now1 env :
  (now1 - now0 < CACHE_DURATION →
     getUsageData now1 env (mk (Some data) now0) =
       (mk (Some data) now0, [], Return (Some data))) ∧
  (CACHE_DURATION ≤ now1 - now0 →
     ∃ this' tr r,
       getUsageData now1 env (mk (Some data) now0) = (this', KeychainExec :: tr, Return r) ∧
       (r = None → this' = mk (Some data) now0) ∧
       (failure env → r = None)) ∧
  (∃ this' tr r,
     getUsageData now1 env (clearCache (mk (Some data) now0))
       = (this', KeychainExec :: tr, Return r)).
Proof.
  assert (Hmiss : ∀ this, fresh now1 this = false →
            ∃ this' tr r,
              getUsageData now1 env this = (this', KeychainExec :: tr, Return r) ∧
              (r = None → this' = this) ∧ (failure env → r = None)).
  { intros this Hfresh.
    destruct (getUsageData_resume_returns now1 env this) as (this' & tr & r & Hres & _ & Hkeep).
    exists this', tr, r. split; [|split; [exact Hkeep|]].
    - unfold getUsageData. unfold mbind at 1, M_bind.
      rewrite fresh_false_start by done. by rewrite Hres.
    - intros Hfail.
      destruct (getUsageData_resume_failure now1 env this Hfail) as (tr' & Hres' & _).
      congruence. }
  split; [|split].
  - intros Hlt.
    destruct (fresh_true_start now1 (mk (Some data) now0)) as (d & Hd & Hs).
    { unfold fresh. simpl. by apply bool_decide_eq_true_2. }
    simpl in Hd. injection Hd as <-.
    unfold getUsageData. unfold mbind at 1, M_bind. rewrite Hs. by run_m.
  - intros Hge. apply Hmiss. unfold fresh. simpl. apply bool_decide_eq_false_2. lia.
  - destruct (Hmiss (clearCache (mk (Some data) now0)) eq_refl) as (this' & tr & r & H & _).
    by exists this', tr, r.
Qed.

Lemma rate_limit_cache_window_witness :
  getUsageData (sampleClock + 29999) lockedKeychainEnv (mk (Some sampleData) sampleClock)
    = (mk (Some sampleData) sampleClock, [], Return (Some sampleData)) ∧
  ∃ tr,
    getUsageData (sampleClock + 30000) lockedKeychainEnv (mk (Some sampleData) sampleClock)
      = (mk (Some sampleData) sampleClock, KeychainExec :: tr, Return None).
Proof.
  split.
  - apply (rate_limit_cache_window sampleData sampleClock (sampleClock + 29999)
             lockedKeychainEnv). vm_compute. reflexivity.
  - destruct (rate_limit_cache_window sampleData sampleClock (sampleClock + 30000)
                lockedKeychainEnv) as (_ & Hstale & _).
    destruct Hstale as (this' & tr & r & Hrun & Hkeep & Hfail).
    + vm_compute. discriminate.
    + assert (r = None) as -> by (apply Hfail, no_credential; reflexivity).
      rewrite (Hkeep eq_refl) in Hrun. by exists tr.
Defined.

End RateLimitCache.

(** ** The small queries of the rate-limit client *)

Section RateLimitQueries.

Import ClaudeOAuthService.

Implicit Types (this : t) (env : Env).

Lemma getUsageData_returns now env this :
  ∃ this' tr od, getUsageData now env this = (this', tr, Return od).
Proof.
  unfold getUsageData. unfold mbind at 1, M_bind.
  destruct (fresh now this) eqn:Hfresh.
  - destruct (fresh_true_start now this Hfresh) as (data & _ & ->). run_m. eauto.
  - rewrite fresh_false_start by done.
    destruct (getUsageData_resume_returns now env this) as (this' & tr & r & -> & _).
    eauto.
Qed.

(** X10.  The two window queries never raise and answer from
    [getUsageData]: a reading is returned exactly when data is available
    and the window carries a reset time, and it is that window's
    utilization and reset time; a window whose reset time is missing is
    reported as absent although its utilization is known. *)
Theorem window_queries_need_reset_time now env this :
  ∃ this' tr od five seven,
    getUsageData now env this = (this', tr, Return od) ∧
    (∃ tr5, getFiveHourUtilization now env this = (this', tr5, Return five)) ∧
    (∃ tr7, getSevenDayUtilization now env this = (this', tr7, Return seven)) ∧
    (∀ reading,
       five = Some reading ↔
       ∃ d, od = Some d ∧
            ClaudeUsageLimit.resets_at (ClaudeUsageData.five_hour d)
              = Some (readingResetsAt reading) ∧
            ClaudeUsageLimit.utilization (ClaudeUsageData.five_hour d)
              = readingUtilization reading) ∧
    (∀ reading,
       seven = Some reading ↔
       ∃ d, od = Some d ∧
            ClaudeUsageLimit.resets_at (ClaudeUsageData.seven_day d)
              = Some (readingResetsAt reading) ∧
            ClaudeUsageLimit.utilization (ClaudeUsageData.seven_day d)
              = readingUtilization reading).
Proof.
  destruct (getUsageData_returns now env this) as (this' & tr & od & Hrun).
  assert (Hread : ∀ l reading,
            readWindow l = Some reading ↔
            ClaudeUsageLimit.resets_at l = Some (readingResetsAt reading) ∧
            ClaudeUsageLimit.utilization l = readingUtilization reading).
  { intros l [u r]. unfold readWindow. simpl.
    destruct (ClaudeUsageLimit.resets_at l) as [r'|]; split.
    - by intros [= <- <-].
    - by intros [[= ->] ->].
    - discriminate.
    - by intros [? _]. }
  exists this', tr, od,
    (od ≫= λ d, readWindow (ClaudeUsageData.five_hour d)),
    (od ≫= λ d, readWindow (ClaudeUsageData.seven_day d)).
  split; [exact Hrun|]. split; [|split; [|split]].
  - unfold getFiveHourUtilization. unfold mbind at 1, M_bind. rewrite Hrun.
    destruct od; run_m; by eexists.
  - unfold getSevenDayUtilization. unfold mbind at 1, M_bind. rewrite Hrun.
    destruct od; run_m; by eexists.
  - intros reading. destruct od as [d|]; simpl.
    + rewrite Hread. split; [intros [? ?]; by exists d|].
      by intros (d' & [= <-] & ? & ?).
    + split; [discriminate|]. by intros (d' & ? & _).
  - intros reading. destruct od as [d|]; simpl.
    + rewrite Hread. split; [intros [? ?]; by exists d|].
      by intros (d' & [= <-] & ? & ?).
    + split; [discriminate|]. by intros (d' & ? & _).
Qed.

(** The five-hour window comes without a reset time: no reading, although
    the data is there; the seven-day window is read. *)
Lemma window_queries_need_reset_time_witness :
  let this := mk (Some (ClaudeUsageData.mk (ClaudeUsageLimit.mk 42 None) (sampleLimit 17)
                          None None None None)) sampleClock in
  ∃ this' tr od five seven,
    getUsageData (sampleClock + 1) goodEnv this = (this', tr, Return od) ∧
    (∃ tr5, getFiveHourUtilization (sampleClock + 1) goodEnv this = (this', tr5, Return five)) ∧
    (∃ tr7, getSevenDayUtilization (sampleClock + 1) goodEnv this = (this', tr7, Return seven)) ∧
    od ≠ None ∧ five = None ∧ seven = Some (mkReading 17 1700010000000).
Proof.
  intros this.
  destruct (window_queries_need_reset_time (sampleClock + 1) goodEnv this)
    as (this' & tr & od & five & seven & Hrun & H5 & H7 & Hfive & Hseven).
  exists this', tr, od, five, seven.
  split; [exact Hrun|]. split; [exact H5|]. split; [exact H7|].
  assert (Hod : od = cachedUsage this).
  { assert (E : (getUsageData (sampleClock + 1) goodEnv this).2 = Return (cachedUsage this))
      by (vm_compute; reflexivity).
    rewrite Hrun in E. simpl in E. injection E as ->. reflexivity. }
  split; [rewrite Hod; discriminate|]. split.
  - destruct five as [reading|]; [|reflexivity].
    destruct (proj1 (Hfive reading) eq_refl) as (d & Hd & Hreset & _).
    rewrite Hod in Hd. injection Hd as <-. discriminate.
  - apply (Hseven (mkReading 17 1700010000000)).
    eexists. split; [exact Hod|]. split; reflexivity.
Defined.

(** X11.  [hasCredentials] asks the keychain on every call, whatever is
    cached: it never raises, sends no request, leaves the cache alone and
    answers [true] exactly when the keychain yields a non-empty token.  So
    within 30 seconds of a fetch it can answer [false] while [getUsageData]
    still returns data. *)
Theorem hasCredentials_ignores_cache kc this :
  (∃ tr,
     hasCredentials kc this =
       (this, KeychainExec :: tr, Return (bool_decide (credentialOf kc ≠ None))) ∧
     forallb isConsoleError tr = true) ∧
  (∀ now env data,
     fresh now this = true → cachedUsage this = Some data →
     credentialOf (keychain env) = None →
     (hasCredentials (keychain env) this).2 = Return false ∧
     (getUsageData now env this).2 = Return (Some data)).
Proof.
  assert (Hrun : ∀ kc', ∃ tr,
            hasCredentials kc' this =
              (this, KeychainExec :: tr, Return (bool_decide (credentialOf kc' ≠ None))) ∧
            forallb isConsoleError tr = true).
  { intros kc'.
    destruct (getAccessToken_resume_spec kc' this) as (tr & Htok & Hlog & _).
    exists tr. split; [|exact Hlog].
    unfold hasCredentials, getAccessToken. run_m. rewrite Htok.
    by rewrite app_nil_r. }
  split; [apply Hrun|].
  intros now env data Hfresh Hcached Hcred. split.
  - destruct (Hrun (keychain env)) as (tr & -> & _). simpl. by rewrite Hcred.
  - destruct (fresh_true_start now this Hfresh) as (d & Hd & Hs).
    unfold getUsageData. unfold mbind at 1, M_bind. rewrite Hs. run_m. congruence.
Qed.

Lemma hasCredentials_ignores_cache_witness :
  (hasCredentials (keychain lockedKeychainEnv) (mk (Some sampleData) sampleClock)).2
    = Return false ∧
  (getUsageData (sampleClock + 1000) lockedKeychainEnv
     (mk (Some sampleData) sampleClock)).2 = Return (Some sampleData).
Proof.
  destruct (hasCredentials_ignores_cache (keychain lockedKeychainEnv)
              (mk (Some sampleData) sampleClock)) as [_ Hgap].
  apply (Hgap (sampleClock + 1000) lockedKeychainEnv sampleData); reflexivity.
Defined.

End RateLimitQueries.

(** ** The aggregator beyond its cache *)

Section Aggregation.

Import CCUsageService.

Implicit Types (this : t) (p : Process) (f : Fetch.t).

Lemma lastRow_without_synthetic name rows :
  name ≠ "<synthetic>" →
  lastRow name
    (List.filter (λ mb, negb (bool_decide (ModelBreakdown.modelName mb = "<synthetic>")))
                 rows)
  = lastRow name rows.
Proof.
  intros Hname. unfold lastRow. f_equal.
  induction rows as [|mb rows IH]; [done|]. simpl.
  destruct (bool_decide (ModelBreakdown.modelName mb = "<synthetic>")) eqn:E; simpl.
  - apply bool_decide_eq_true in E.
    rewrite (filter_cons_False _ mb rows) by congruence. exact IH.
  - rewrite !filter_cons. by rewrite IH.
Qed.

Lemma lastRow_only_synthetic rows :
  lastRow "<synthetic>"
    (List.filter (λ mb, negb (bool_decide (ModelBreakdown.modelName mb = "<synthetic>")))
                 rows)
  = None.
Proof.
  unfold lastRow.
  induction rows as [|mb rows IH]; [done|]. simpl.
  destruct (bool_decide (ModelBreakdown.modelName mb = "<synthetic>")) eqn:E; simpl;
    [exact IH|].
  apply bool_decide_eq_false in E. by rewrite filter_cons_False.
Qed.

(** Looking a name up after the [reduce]: the last row with that name, or
    what the accumulator held. *)
Lemma reduce_lookup name rows (acc : gmap string ModelUsage.t) :
  name ≠ "__proto__" →
  foldl (λ acc mb, assign (ModelBreakdown.modelName mb) (usageOf mb) acc) acc rows !! name
  = match lastRow name rows with
    | Some mb => Some (usageOf mb)
    | None => acc !! name
    end.
Proof.
  intros Hname. revert acc. unfold lastRow.
  induction rows as [|mb rows IH]; intros acc; [done|].
  cbn [foldl]. rewrite IH, filter_cons.
  destruct (decide (ModelBreakdown.modelName mb = name)) as [Heq|Hne].
  - rewrite last_cons.
    destruct (last (filter _ rows)); [done|].
    unfold assign. rewrite bool_decide_eq_false_2 by congruence.
    by rewrite <- Heq, lookup_insert_eq.
  - destruct (last (filter _ rows)); [done|].
    unfold assign. destruct (bool_decide _); [done|].
    by rewrite lookup_insert_ne.
Qed.

(** No row gives the object an own property named ["__proto__"]. *)
Lemma reduce_proto rows (acc : gmap string ModelUsage.t) :
  foldl (λ acc mb, assign (ModelBreakdown.modelName mb) (usageOf mb) acc) acc rows
    !! "__proto__"
  = acc !! "__proto__".
Proof.
  revert acc.
  induction rows as [|mb rows IH]; intros acc; [done|].
  cbn [foldl]. rewrite IH. unfold assign.
  destruct (bool_decide (ModelBreakdown.modelName mb = "__proto__")) eqn:E; [done|].
  apply bool_decide_eq_false in E. by rewrite lookup_insert_ne.
Qed.

(** X12.  [processDailyData] keeps the days and their order; a day's total
    is the sum of its four token counts and its cost is carried over; its
    [models] object has no own property for ["<synthetic>"], which is
    filtered out, and none for ["__proto__"], whose assignment replaces the
    prototype instead; for every other name it has the entry of the last
    row of the breakdown with that name, whatever rows surround it: rows of
    the same model are not added up, the last one wins. *)
Theorem processDailyData_models data :
  map DailyUsage.date (processDailyData data) = map DailyDataEntry.date data ∧
  ∀ (i : nat) day,
    data !! i = Some day →
    ∃ u,
      processDailyData data !! i = Some u ∧
      DailyUsage.totalTokens u =
        DailyDataEntry.inputTokens day + DailyDataEntry.outputTokens day +
        DailyDataEntry.cacheCreationTokens day + DailyDataEntry.cacheReadTokens day ∧
      DailyUsage.totalCost u = DailyDataEntry.totalCost day ∧
      DailyUsage.models u !! "<synthetic>" = None ∧
      DailyUsage.models u !! "__proto__" = None ∧
      ∀ name,
        name ≠ "<synthetic>" →
        name ≠ "__proto__" →
        DailyUsage.models u !! name
          = usageOf <$> lastRow name (DailyDataEntry.modelBreakdowns day).
Proof.
  unfold processDailyData. split.
  - rewrite <- list_fmap_compose. by apply list_fmap_ext.
  - intros i day Hday. exists (processDay day).
    split; [by rewrite list_lookup_fmap, Hday|].
    split; [done|]. split; [done|].
    unfold processDay. simpl.
    change (λ (acc : gmap string ModelUsage.t) (mb : ModelBreakdown.t),
              assign (ModelBreakdown.modelName mb)
                     (ModelUsage.mk (modelTokens mb) (ModelBreakdown.cost mb)) acc)
      with (λ (acc : gmap string ModelUsage.t) (mb : ModelBreakdown.t),
              assign (ModelBreakdown.modelName mb) (usageOf mb) acc).
    split; [|split].
    + by rewrite reduce_lookup, lastRow_only_synthetic.
    + by rewrite reduce_proto.
    + intros name Hname Hproto.
      rewrite reduce_lookup, lastRow_without_synthetic by done.
      by destruct (lastRow name _).
Qed.

(** A day with two rows of model A around a synthetic row and a row named
    ["__proto__"]: the object has the second row of A and nothing for the
    other two names. *)
Lemma processDailyData_models_witness :
  let day :=
    DailyDataEntry.mk 19675 10 20 30 40 (7 # 2)
      [ModelBreakdown.mk "A" 1 1 1 1 (1 # 2);
       ModelBreakdown.mk "<synthetic>" 9 9 9 9 1;
       ModelBreakdown.mk "__proto__" 5 5 5 5 3;
       ModelBreakdown.mk "A" 2 2 2 2 2] in
  ∃ u,
    processDailyData [day] !! 0%nat = Some u ∧
    DailyUsage.totalTokens u = 100 ∧
    DailyUsage.models u !! "<synthetic>" = None ∧
    DailyUsage.models u !! "__proto__" = None ∧
    DailyUsage.models u !! "A" = Some (ModelUsage.mk 8 2).
Proof.
  intros day.
  destruct (processDailyData_models [day]) as [_ Hdays].
  destruct (Hdays 0%nat day eq_refl) as (u & Hu & Htok & _ & Hsyn & Hproto & Hlast).
  exists u. split; [exact Hu|]. split; [rewrite Htok; reflexivity|].
  split; [exact Hsyn|]. split; [exact Hproto|].
  rewrite (Hlast "A"); [reflexivity|discriminate|discriminate].
Defined.


Lemma find_first {A} (test : A → bool) (l : list A) x :
  List.find test l = Some x →
  ∃ before after,
    l = before ++ x :: after ∧ test x = true ∧ ∀ y, y ∈ before → test y = false.
Proof.
  induction l as [|a l IH]; [discriminate|]. simpl.
  destruct (test a) eqn:Ha.
  - intros [= <-]. exists [], l. split; [done|]. split; [done|].
    intros y Hy. by apply elem_of_nil in Hy.
  - intros Hfind. destruct (IH Hfind) as (before & after & -> & Hx & Hbefore).
    exists (a :: before), after. split; [done|]. split; [done|].
    intros y Hy. apply elem_of_cons in Hy as [->|Hy]; auto.
Qed.

Lemma find_nowhere {A} (test : A → bool) (l : list A) :
  List.find test l = None → ∀ y, y ∈ l → test y = false.
Proof.
  intros Hfind y Hy. apply (find_none test l Hfind). by apply list_elem_of_In.
Qed.

Lemma filter_keeps_order {A} (test : A → bool) (l : list A) :
  List.filter test l `sublist_of` l.
Proof.
  induction l as [|a l IH]; [constructor|]. simpl.
  destruct (test a); by constructor.
Qed.

(** The clock reading within its UTC day. *)
Lemma isoDay_bounds ms :
  dayStart (isoDay ms) ≤ ms < dayStart (isoDay ms) + MS_PER_DAY.
Proof.
  unfold dayStart, isoDay, MS_PER_DAY.
  pose proof (Z.div_mod ms 86400000 ltac:(lia)).
  pose proof (Z.mod_pos_bound ms 86400000 ltac:(lia)). lia.
Qed.

(** X13.  What a successful refresh puts into [today] and [thisWeek].
    [today] always carries the UTC day of the clock: it is the first
    processed day with that date, or the zero day when the ledger has no
    row for it.  [thisWeek] is the processed days, in ledger order, whose
    UTC midnight is not before the instant that [setDate(getDate() - 7)]
    computes from the clock: seven times 24 hours back, corrected by the
    change of the local zone offset over the week.  When the offset did not
    change, these are the rows dated on the UTC day of the clock or on one
    of the six days before it (or later); a row dated seven days before is
    kept only when the clock reads UTC midnight exactly, and no older row
    is kept. *)
Theorem today_and_this_week now f p b d :
  cacheFresh now (service p) = false →
  Fetch.blocks f = Fulfilled b →
  Fetch.dailyData f = Fulfilled d →
  ∃ p' tr r,
    getUsageStats now f p = (p', tr, Return r) ∧
    DailyUsage.date (UsageStats.today (Ref.value r)) = isoDay (Fetch.settledAt f) ∧
    ((UsageStats.today (Ref.value r) = getEmptyDay (Fetch.settledAt f) ∧
      ∀ u, u ∈ processDailyData (default [] d) →
           DailyUsage.date u ≠ isoDay (Fetch.settledAt f)) ∨
     (∃ before after,
        processDailyData (default [] d)
          = before ++ UsageStats.today (Ref.value r) :: after ∧
        ∀ u, u ∈ before → DailyUsage.date u ≠ isoDay (Fetch.settledAt f))) ∧
    UsageStats.thisWeek (Ref.value r) `sublist_of` processDailyData (default [] d) ∧
    (∀ u, u ∈ UsageStats.thisWeek (Ref.value r) ↔
          u ∈ processDailyData (default [] d) ∧
          Fetch.settledAt f - 7 * MS_PER_DAY
            + (Fetch.zoneOffset f - Fetch.zoneOffsetWeekAgo f)
          ≤ dayStart (DailyUsage.date u)) ∧
    (Fetch.zoneOffsetWeekAgo f = Fetch.zoneOffset f →
     ∀ u, u ∈ processDailyData (default [] d) →
       (isoDay (Fetch.settledAt f) - 6 ≤ DailyUsage.date u →
          u ∈ UsageStats.thisWeek (Ref.value r)) ∧
       (DailyUsage.date u = isoDay (Fetch.settledAt f) - 7 →
          (u ∈ UsageStats.thisWeek (Ref.value r) ↔
           Fetch.settledAt f = dayStart (isoDay (Fetch.settledAt f)))) ∧
       (DailyUsage.date u < isoDay (Fetch.settledAt f) - 7 →
          u ∉ UsageStats.thisWeek (Ref.value r))).
Proof.
  intros Hmiss Hb Hd.
  destruct (getUsageStats_miss now f p Hmiss) as (o' & tro & od & tr & _ & _ & Hrun).
  rewrite Hb, Hd in Hrun. simpl in Hrun.
  eexists _, _, _. split; [exact Hrun|]. simpl.
  set (days := processDailyData (default [] d)).
  set (test := λ u : DailyUsage.t,
         bool_decide (DailyUsage.date u = isoDay (Fetch.settledAt f))).
  assert (Hweek : ∀ u,
            u ∈ List.filter
                  (λ d0, bool_decide (dayStart (DailyUsage.date d0) >= weekAgo f)) days ↔
            u ∈ days ∧
            Fetch.settledAt f - 7 * MS_PER_DAY
              + (Fetch.zoneOffset f - Fetch.zoneOffsetWeekAgo f)
            ≤ dayStart (DailyUsage.date u)).
  { intros u. rewrite list_elem_of_In, filter_In, <- list_elem_of_In.
    rewrite bool_decide_eq_true. unfold weekAgo, setDateBack.
    split; intros [? ?]; split; auto; lia. }
  assert (Hzone : Fetch.zoneOffsetWeekAgo f = Fetch.zoneOffset f →
     ∀ u, u ∈ days →
       (isoDay (Fetch.settledAt f) - 6 ≤ DailyUsage.date u →
          u ∈ List.filter
                (λ d0, bool_decide (dayStart (DailyUsage.date d0) >= weekAgo f)) days) ∧
       (DailyUsage.date u = isoDay (Fetch.settledAt f) - 7 →
          (u ∈ List.filter
                 (λ d0, bool_decide (dayStart (DailyUsage.date d0) >= weekAgo f)) days ↔
           Fetch.settledAt f = dayStart (isoDay (Fetch.settledAt f)))) ∧
       (DailyUsage.date u < isoDay (Fetch.settledAt f) - 7 →
          u ∉ List.filter
                (λ d0, bool_decide (dayStart (DailyUsage.date d0) >= weekAgo f)) days)).
  { intros Hsame u Hu.
    pose proof (isoDay_bounds (Fetch.settledAt f)) as Hday.
    unfold dayStart, MS_PER_DAY in Hday.
    rewrite !Hweek. rewrite Hsame. unfold dayStart, MS_PER_DAY.
    split; [|split].
    - intros Hle. split; [done|]. lia.
    - intros Heq. split; [intros [_ ?]; lia | intros ?; split; [done|]; lia].
    - intros Hlt [_ ?]. lia. }
  destruct (List.find test days) as [u0|] eqn:Hfind; simpl.
  - destruct (find_first test days u0 Hfind) as (before & after & Hsplit & Hu0 & Hbefore).
    split; [by apply bool_decide_eq_true in Hu0|].
    split.
    + right. exists before, after. split; [done|].
      intros u Hu. specialize (Hbefore u Hu). by apply bool_decide_eq_false in Hbefore.
    + split; [apply filter_keeps_order|]. split; [exact Hweek|exact Hzone].
  - split; [done|]. split.
    + left. split; [done|].
      intros u Hu. pose proof (find_nowhere test days Hfind u Hu) as Hno.
      by apply bool_decide_eq_false in Hno.
    + split; [apply filter_keeps_order|]. split; [exact Hweek|exact Hzone].
Qed.

(** On a host one hour east of UTC all week, the ledger has a row for
    yesterday, one for seven days ago and one for eight days ago, and none
    for the day of the clock: [today] is the zero day, yesterday's row is
    part of the week, and the two old rows are not (the sample clock does
    not read midnight). *)
Lemma today_and_this_week_witness :
  let yesterday := DailyDataEntry.mk (isoDay sampleClock - 1) 1 2 3 4 1 [] in
  let seventh := DailyDataEntry.mk (isoDay sampleClock - 7) 1 1 1 1 1 [] in
  let eighth := DailyDataEntry.mk (isoDay sampleClock - 8) 2 2 2 2 2 [] in
  let f := Fetch.mk (Fulfilled (Some []))
             (Fulfilled (Some [eighth; seventh; yesterday])) goodEnv
             sampleClock 3600000 3600000 in
  ∃ p' tr r,
    getUsageStats sampleClock f boot = (p', tr, Return r) ∧
    DailyUsage.date (UsageStats.today (Ref.value r)) = isoDay sampleClock ∧
    DailyUsage.totalTokens (UsageStats.today (Ref.value r)) = 0 ∧
    processDay yesterday ∈ UsageStats.thisWeek (Ref.value r) ∧
    (processDay seventh ∉ UsageStats.thisWeek (Ref.value r)) ∧
    (processDay eighth ∉ UsageStats.thisWeek (Ref.value r)).
Proof.
  intros yesterday seventh eighth f.
  destruct (today_and_this_week sampleClock f boot (Some [])
              (Some [eighth; seventh; yesterday]) eq_refl eq_refl eq_refl)
    as (p' & tr & r & Hrun & Hdate & Htoday & _ & _ & Hzone).
  exists p', tr, r. split; [exact Hrun|]. split; [exact Hdate|]. split.
  - destruct Htoday as [[-> _] | (before & after & Hsplit & _)]; [reflexivity|].
    apply (f_equal (map DailyUsage.date)) in Hsplit.
    rewrite map_app in Hsplit. simpl in Hsplit. rewrite Hdate in Hsplit.
    destruct before as [|? [|? [|? [|? ?]]]]; vm_compute in Hsplit; discriminate.
  - split; [|split].
    + destruct (Hzone eq_refl (processDay yesterday)) as (Hrecent & _).
      * do 2 apply list_elem_of_further. apply list_elem_of_here.
      * apply Hrecent. vm_compute. discriminate.
    + destruct (Hzone eq_refl (processDay seventh)) as (_ & Hseventh & _).
      * apply list_elem_of_further, list_elem_of_here.
      * intros Hin. apply (Hseventh eq_refl) in Hin. vm_compute in Hin. discriminate.
    + destruct (Hzone eq_refl (processDay eighth)) as (_ & _ & Hold).
      * apply list_elem_of_here.
      * apply Hold. vm_compute. reflexivity.
Defined.





Lemma merge_available f days od : availableWhenPresent (merge f days od).
Proof. unfold availableWhenPresent, merge. simpl. by destruct od. Qed.

(** Every call hands out an object whose rate-limit part, when present, is
    marked available, and keeps the cache such. *)
Lemma getUsageStats_available now f p :
  soundCache p →
  ∃ p' tr r,
    getUsageStats now f p = (p', tr, Return r) ∧
    availableWhenPresent (Ref.value r) ∧
    soundCache p'.
Proof.
  intros Hsound.
  destruct (cacheFresh now (service p)) eqn:Hc.
  - destruct (getUsageStats_hit now f p Hc) as (r & Hr & ->).
    exists p, [], r. split; [done|]. split; [|done].
    unfold soundCache in Hsound. by rewrite Hr in Hsound.
  - destruct (getUsageStats_miss now f p Hc) as (o' & tro & od & tr & _ & _ & ->).
    destruct (Fetch.blocks f), (Fetch.dailyData f); eexists _, _, _;
      (split; [reflexivity|]); simpl; split;
      try apply merge_available; try done;
      unfold soundCache in *; simpl; try apply merge_available; done.
Qed.

(** X15.  The rate-limit part of what the aggregator hands out is either
    absent or marked available: from the first state of the process on,
    and across [updateConfiguration], [isAvailable] is never [false].  The
    menu-bar percentage is the five-hour utilization when the part is
    present and 0 when it is absent. *)
Theorem unavailable_is_never_reported now f menuNow p :
  soundCache boot ∧
  (∀ config, soundCache p → soundCache (withService (updateConfiguration config) p)) ∧
  (soundCache p →
   ∃ p' tr data,
     getMenuBarData now f menuNow p = (p', tr, Return data) ∧
     soundCache p' ∧
     match MenuBarData.oauthUtilization data with
     | Some o =>
         OAuthUtilization.isAvailable o = true ∧
         MenuBarData.percentageUsed data = Window.utilization (OAuthUtilization.fiveHour o)
     | None => MenuBarData.percentageUsed data = 0%Q
     end).
Proof.
  split; [done|]. split; [done|].
  intros Hsound.
  destruct (getUsageStats_available now f p Hsound) as (p' & tr & r & Hrun & Hav & Hsound').
  unfold getMenuBarData. unfold mbind at 1, M_bind. rewrite Hrun. run_m.
  eexists _, _, _. split; [reflexivity|]. split; [exact Hsound'|]. simpl.
  unfold availableWhenPresent in Hav.
  destruct (UsageStats.oauthUtilization (Ref.value r)) as [o|]; [|done].
  by rewrite Hav.
Qed.

Lemma unavailable_is_never_reported_witness :
  ∃ p' tr data,
    getMenuBarData sampleClock goodFetch sampleClock boot = (p', tr, Return data) ∧
    soundCache p' ∧
    MenuBarData.percentageUsed data = 42%Q.
Proof.
  destruct (unavailable_is_never_reported sampleClock goodFetch sampleClock boot)
    as (Hboot & _ & Hmenu).
  destruct (Hmenu Hboot) as (p' & tr & data & Hrun & Hsound & Hpct).
  exists p', tr, data. split; [exact Hrun|]. split; [exact Hsound|].
  assert (E : MenuBarData.oauthUtilization
                (match (getMenuBarData sampleClock goodFetch sampleClock boot).2 with
                 | Return x => x
                 | Throw _ => snapshot 0
                 end)
              = Some (formatOAuthData sampleClock (Some sampleData)))
    by (vm_compute; reflexivity).
  rewrite Hrun in E. simpl in E. rewrite E in Hpct.
  destruct Hpct as [_ ->]. reflexivity.
Defined.

Lemma formatTimeUntilReset_now now :
  ClaudeOAuthService.formatTimeUntilReset now now = "Resetting...".
Proof.
  unfold ClaudeOAuthService.formatTimeUntilReset.
  by rewrite bool_decide_eq_true_2 by lia.
Qed.

(** X16.  How [formatOAuthData] treats what is missing.  The two mandatory
    windows are always reported, with their utilization; when such a
    window has no reset time its remaining time reads "Resetting...".  The
    Opus window is left out unless its utilization is above zero, and when
    it is reported without a reset time its remaining time reads "N/A". *)
Theorem formatOAuthData_missing_values now d :
  OAuthUtilization.isAvailable (formatOAuthData now (Some d)) = true ∧
  Window.utilization (OAuthUtilization.fiveHour (formatOAuthData now (Some d)))
    = ClaudeUsageLimit.utilization (ClaudeUsageData.five_hour d) ∧
  Window.utilization (OAuthUtilization.sevenDay (formatOAuthData now (Some d)))
    = ClaudeUsageLimit.utilization (ClaudeUsageData.seven_day d) ∧
  (ClaudeUsageLimit.resets_at (ClaudeUsageData.five_hour d) = None →
   Window.formattedTimeRemaining (OAuthUtilization.fiveHour (formatOAuthData now (Some d)))
     = "Resetting...") ∧
  (ClaudeUsageLimit.resets_at (ClaudeUsageData.seven_day d) = None →
   Window.formattedTimeRemaining (OAuthUtilization.sevenDay (formatOAuthData now (Some d)))
     = "Resetting...") ∧
  (∀ opus,
     ClaudeUsageData.seven_day_opus d = Some opus →
     (ClaudeUsageLimit.utilization opus <= 0)%Q →
     OAuthUtilization.sevenDayOpus (formatOAuthData now (Some d)) = None) ∧
  (∀ opus,
     ClaudeUsageData.seven_day_opus d = Some opus →
     (0 < ClaudeUsageLimit.utilization opus)%Q →
     ClaudeUsageLimit.resets_at opus = None →
     OAuthUtilization.sevenDayOpus (formatOAuthData now (Some d))
       = Some (Window.mk (ClaudeUsageLimit.utilization opus) None "N/A")).
Proof.
  unfold formatOAuthData, formatWindow. simpl.
  split; [done|]. split; [done|]. split; [done|].
  split; [|split; [|split]].
  - intros ->. simpl. apply formatTimeUntilReset_now.
  - intros ->. simpl. apply formatTimeUntilReset_now.
  - intros opus -> Hle.
    destruct (Qlt_le_dec 0 (ClaudeUsageLimit.utilization opus)) as [Hlt|_]; [|done].
    exfalso. by apply (Qlt_not_le _ _ Hlt).
  - intros opus -> Hlt Hreset.
    destruct (Qlt_le_dec 0 (ClaudeUsageLimit.utilization opus)) as [_|Hle].
    + by rewrite Hreset.
    + exfalso. by apply (Qlt_not_le _ _ Hlt).
Qed.

Lemma formatOAuthData_missing_values_witness :
  let d := ClaudeUsageData.mk (ClaudeUsageLimit.mk 42 None) (sampleLimit 17) None
             (Some (ClaudeUsageLimit.mk 5 None)) None None in
  Window.formattedTimeRemaining
    (OAuthUtilization.fiveHour (formatOAuthData sampleClock (Some d))) = "Resetting..." ∧
  OAuthUtilization.sevenDayOpus (formatOAuthData sampleClock (Some d))
    = Some (Window.mk 5 None "N/A").
Proof.
  intros d.
  destruct (formatOAuthData_missing_values sampleClock d)
    as (_ & _ & _ & Hfive & _ & _ & Hopus).
  split.
  - apply Hfive. reflexivity.
  - apply (Hopus (ClaudeUsageLimit.mk 5 None)); reflexivity.
Defined.


Lemma inWindow_later now now' b :
  now ≤ now' → inWindow now' b = true → inWindow now b = true.
Proof.
  unfold inWindow. intros Hle H. apply andb_prop in H as [Hgap Hin].
  rewrite Hgap. simpl. apply bool_decide_eq_true in Hin.
  apply bool_decide_eq_true_2. lia.
Qed.

Lemma windowCostSpec_bounds now now' blocks :
  (∀ b, b ∈ blocks → (0 <= SessionBlock.costUSD b)%Q) →
  now ≤ now' →
  (0 <= windowCostSpec now' blocks)%Q ∧
  (windowCostSpec now' blocks <= windowCostSpec now blocks)%Q ∧
  (windowCostSpec now blocks <= sumCosts blocks)%Q.
Proof.
  intros Hpos Hle.
  induction blocks as [|b blocks IH].
  - unfold windowCostSpec. simpl. repeat split; apply Qle_refl.
  - assert (Hb : (0 <= SessionBlock.costUSD b)%Q) by (apply Hpos; left).
    destruct IH as (IH0 & IH1 & IH2); [intros x Hx; apply Hpos; by right|].
    assert (Hnow : (0 <= windowCostSpec now blocks)%Q) by (by apply Qle_trans with (windowCostSpec now' blocks)).
    rewrite !windowCostSpec_cons.
    change (sumCosts (b :: blocks)) with (SessionBlock.costUSD b + sumCosts blocks)%Q.
    destruct (inWindow now' b) eqn:E'.
    + rewrite (inWindow_later now now' b Hle E').
      repeat split.
      * apply Qle_trans with (0 + 0)%Q; [apply Qle_refl|]. by apply Qplus_le_compat.
      * apply Qplus_le_compat; [apply Qle_refl|done].
      * apply Qplus_le_compat; [apply Qle_refl|done].
    + destruct (inWindow now b); repeat split; try done.
      * apply Qle_trans with (0 + windowCostSpec now blocks)%Q.
        -- rewrite Qplus_0_l. done.
        -- apply Qplus_le_compat; [done|apply Qle_refl].
      * apply Qplus_le_compat; [apply Qle_refl|done].
      * apply Qle_trans with (0 + sumCosts blocks)%Q.
        -- rewrite Qplus_0_l. done.
        -- apply Qplus_le_compat; [done|apply Qle_refl].
Qed.

(** X17.  When no stored block has a negative cost, the session-window
    cost lies between 0 and the total cost of the stored blocks, and with
    the same blocks it can only shrink as the clock advances. *)
Theorem session_window_cost_shrinks now now' this :
  (∀ b, b ∈ sessionBlocks this → (0 <= SessionBlock.costUSD b)%Q) →
  now ≤ now' →
  (0 <= getSessionWindowCost now' this)%Q ∧
  (getSessionWindowCost now' this <= getSessionWindowCost now this)%Q ∧
  (getSessionWindowCost now this <= sumCosts (sessionBlocks this))%Q.
Proof.
  intros Hpos Hle. rewrite !getSessionWindowCost_spec.
  by apply windowCostSpec_bounds.
Qed.

Lemma session_window_cost_shrinks_witness :
  let this := mk None 0 ClaudeOAuthService.initial CostSource.sessionWindow
                 (exampleBlocks sampleClock) in
  (getSessionWindowCost (sampleClock + 4 * HOUR) this
     <= getSessionWindowCost sampleClock this)%Q ∧
  (getSessionWindowCost sampleClock this <= 10)%Q.
Proof.
  intros this.
  destruct (session_window_cost_shrinks sampleClock (sampleClock + 4 * HOUR) this)
    as (_ & Hshrink & Htotal).
  - intros b Hb. unfold this in Hb. simpl in Hb.
    repeat (apply elem_of_cons in Hb as [-> | Hb]; [vm_compute; discriminate|]).
    by apply elem_of_nil in Hb.
  - vm_compute. discriminate.
  - split; [exact Hshrink|exact Htotal].
Defined.

(** X18.  The status never improves as the percentage grows, and every
    percentage below 70, negative ones included, is [safe]. *)
Theorem status_is_monotone pct pct' :
  ((pct <= pct')%Q → (rank (getStatus pct) ≤ rank (getStatus pct'))%nat) ∧
  ((pct < 70)%Q → getStatus pct = safe).
Proof.
  split; [|apply getStatus_cases].
  intros Hle.
  destruct (Qlt_le_dec pct' 70) as [H70'|H70'].
  - destruct (getStatus_cases pct) as (Hsafe & _).
    rewrite Hsafe; [simpl; lia|]. by apply Qle_lt_trans with pct'.
  - destruct (Qlt_le_dec pct' 90) as [H90'|H90'].
    + destruct (getStatus_cases pct') as (_ & Hwarn' & _). rewrite Hwarn' by done.
      destruct (Qlt_le_dec pct 70) as [H70|H70].
      * destruct (getStatus_cases pct) as (Hsafe & _). rewrite Hsafe by done. simpl. lia.
      * destruct (getStatus_cases pct) as (_ & Hwarn & _).
        rewrite Hwarn; [done|done|]. by apply Qle_lt_trans with pct'.
    + destruct (getStatus_cases pct') as (_ & _ & Hcrit'). rewrite Hcrit' by done.
      destruct (getStatus pct); simpl; lia.
Qed.

Lemma status_is_monotone_witness :
  (rank (getStatus (699 # 10)) ≤ rank (getStatus 70))%nat ∧ getStatus (-5) = safe.
Proof.
  destruct (status_is_monotone (699 # 10) 70) as [Hmono _].
  destruct (status_is_monotone (-5) 0) as [_ Hneg].
  split.
  - apply Hmono. vm_compute. discriminate.
  - apply Hneg. vm_compute. reflexivity.
Defined.

(** X19.  The two caches together.  When the 3-second cache misses while
    the rate-limit client's own 30-second cache is still fresh (after
    [updateConfiguration], for instance), the call reads the ledger again
    but touches neither keychain nor network: the rate-limit part of the
    result is the data cached by the client, which stays as it was. *)
Theorem stale_stats_reuse_fresh_rate_limit now f p data :
  cacheFresh now (service p) = false →
  ClaudeOAuthService.fresh now (oauthService (service p)) = true →
  ClaudeOAuthService.cachedUsage (oauthService (service p)) = Some data →
  ∃ p' tr r,
    getUsageStats now f p = (p', tr, Return r) ∧
    sourceCalls tr = oneFetchEach ∧
    forallb (λ e, negb (touchesNetwork e)) tr = true ∧
    oauthService (service p') = oauthService (service p) ∧
    (∀ b d, Fetch.blocks f = Fulfilled b → Fetch.dailyData f = Fulfilled d →
       UsageStats.oauthUtilization (Ref.value r)
         = Some (formatOAuthData (Fetch.settledAt f) (Some data))).
Proof.
  intros Hmiss Hfresh Hdata.
  destruct (fresh_true_start now _ Hfresh) as (d0 & Hd0 & Hstart).
  assert (d0 = data) as -> by congruence.
  unfold getUsageStats. unfold mbind at 1, M_bind.
  rewrite getUsageStats_start_miss by done.
  unfold issueFetches. run_m. rewrite Hstart, setOAuth_same.
  unfold getUsageStats_resume. run_m.
  destruct p as [[cs lu o mcs sb] n]. simpl in *.
  destruct (Fetch.blocks f) as [b|rb], (Fetch.dailyData f) as [d|rd]; run_m;
    eexists _, _, _; (split; [reflexivity|]); simpl;
    repeat split; try done; intros; discriminate.
Qed.

Lemma stale_stats_reuse_fresh_rate_limit_witness :
  ∃ p1 tr1 r1 p2 tr2 r2,
    getUsageStats sampleClock goodFetch boot = (p1, tr1, Return r1) ∧
    getUsageStats (sampleClock + 1000)
      (Fetch.mk (Fulfilled (Some [])) (Fulfilled (Some [sampleDay])) lockedKeychainEnv
                (sampleClock + 1000) 0 0)
      (withService (updateConfiguration (PartialConfiguration.mk None None None)) p1)
      = (p2, tr2, Return r2) ∧
    forallb (λ e, negb (touchesNetwork e)) tr2 = true ∧
    UsageStats.oauthUtilization (Ref.value r2)
      = Some (formatOAuthData (sampleClock + 1000) (Some sampleData)).
Proof.
  let run := eval vm_compute in (getUsageStats sampleClock goodFetch boot) in
  match run with
  | (?p1, ?tr1, Return ?r1) =>
      exists p1, tr1, r1;
      destruct (stale_stats_reuse_fresh_rate_limit (sampleClock + 1000)
                  (Fetch.mk (Fulfilled (Some [])) (Fulfilled (Some [sampleDay]))
                     lockedKeychainEnv (sampleClock + 1000)
                     0 0)
                  (withService (updateConfiguration
                                  (PartialConfiguration.mk None None None)) p1)
                  sampleData eq_refl eq_refl eq_refl)
        as (p2 & tr2 & r2 & Hrun & _ & Hquiet & _ & Hpart);
      exists p2, tr2, r2;
      split; [vm_compute; reflexivity|];
      split; [exact Hrun|]; split; [exact Hquiet|];
      exact (Hpart (Some []) (Some [sampleDay]) eq_refl eq_refl)
  end.
Defined.

(** X30.  A failed refresh does not depend on the schedule.  When a ledger
    read is rejected, [getUsageStats] returns the all-zero object and
    leaves the cache, the stored blocks and [lastUpdate] as they were,
    whether the rate-limit call had settled before the rejection or is
    still in flight when [Promise.all] rejects.  In the second schedule the
    call returns with the rate-limit client untouched and nothing but the
    error logged; once the rate-limit call has settled by itself, the
    process is in the state the first schedule leaves, and the same events
    have happened, the log entry before them instead of after them. *)
Theorem failed_refresh_in_both_schedules now f oauthCall p :
  (∃ reason, Fetch.blocks f = Rejected reason) ∨
  (∃ reason, Fetch.dailyData f = Rejected reason) →
  ∃ r pFirst trOAuth pEarly pLater,
    Ref.value r = getEmptyStats (Fetch.settledAt f) ∧
    getUsageStats_resume now f oauthCall p
      = (pFirst, trOAuth ++ [ConsoleError "Error fetching usage stats:"], Return r) ∧
    getUsageStats_rejected f p
      = (pEarly, [ConsoleError "Error fetching usage stats:"], Return r) ∧
    oauthService (service pEarly) = oauthService (service p) ∧
    oauthCall_settles now f oauthCall pEarly = (pLater, trOAuth, Return tt) ∧
    pLater = pFirst ∧
    cachedStats (service pFirst) = cachedStats (service p) ∧
    lastUpdate (service pFirst) = lastUpdate (service p) ∧
    sessionBlocks (service pFirst) = sessionBlocks (service p).
Proof.
  intros Hrejected.
  destruct (oauth_settles now f oauthCall (oauthService (service p)))
    as (o' & tro & od & Ho & _).
  exists (Ref.mk (allocated p) (getEmptyStats (Fetch.settledAt f))).
  exists (mkProcess (mk (cachedStats (service p)) (lastUpdate (service p)) o'
                        (menuBarCostSource (service p)) (sessionBlocks (service p)))
                    (S (allocated p))).
  exists tro.
  exists (mkProcess (service p) (S (allocated p))).
  eexists.
  split; [reflexivity|].
  split; [|split; [reflexivity|]; split; [reflexivity|]; split; [|done]].
  - unfold getUsageStats_resume.
    destruct oauthCall as [d0|]; run_m.
    + injection Ho as <- <- <-.
      destruct p as [[cs lu o mcs sb] n]; simpl.
      destruct (Fetch.blocks f) as [b|rb] eqn:Hb, (Fetch.dailyData f) as [d|rd] eqn:Hd;
        run_m; try reflexivity.
      destruct Hrejected as [[? ?]|[? ?]]; discriminate.
    + rewrite Ho.
      destruct p as [[cs lu o mcs sb] n]; simpl.
      destruct (Fetch.blocks f) as [b|rb] eqn:Hb, (Fetch.dailyData f) as [d|rd] eqn:Hd;
        run_m; rewrite ?app_nil_r; try reflexivity.
      destruct Hrejected as [[? ?]|[? ?]]; discriminate.
  - unfold oauthCall_settles.
    destruct oauthCall as [d0|]; run_m.
    + injection Ho as <- <- <-. by destruct p as [[cs lu o mcs sb] n].
    + simpl. rewrite Ho. run_m. by rewrite app_nil_r.
Qed.

(** The session-block read is rejected on the first call of the process:
    in the early schedule the call has returned before any request went to
    the rate-limit endpoint; the request follows, and the process ends up
    as in the other schedule, with the rate-limit data cached. *)
Lemma failed_refresh_in_both_schedules_witness :
  ∃ r pFirst trOAuth pEarly,
    getUsageStats_resume sampleClock blocksRejectedFetch ClaudeOAuthService.AwaitingToken boot
      = (pFirst, trOAuth ++ [ConsoleError "Error fetching usage stats:"], Return r) ∧
    getUsageStats_rejected blocksRejectedFetch boot
      = (pEarly, [ConsoleError "Error fetching usage stats:"], Return r) ∧
    oauthCall_settles sampleClock blocksRejectedFetch ClaudeOAuthService.AwaitingToken pEarly
      = (pFirst, trOAuth, Return tt) ∧
    ClaudeOAuthService.cachedUsage (oauthService (service pEarly)) = None ∧
    ClaudeOAuthService.cachedUsage (oauthService (service pFirst)) = Some sampleData.
Proof.
  destruct (failed_refresh_in_both_schedules sampleClock blocksRejectedFetch
              ClaudeOAuthService.AwaitingToken boot)
    as (r & pFirst & trOAuth & pEarly & pLater & _ & Hfirst & Hearly & Hclient & Hlater
        & -> & _).
  { left. by eexists. }
  exists r, pFirst, trOAuth, pEarly.
  split; [exact Hfirst|]. split; [exact Hearly|]. split; [exact Hlater|].
  split.
  - rewrite Hclient. reflexivity.
  - vm_compute in Hfirst. by injection Hfirst as <- _ _.
Defined.

End Aggregation.

(** ** The settings file *)

Section Settings.

Import SettingsService.

Implicit Types (disk : Disk) (settings : PartialAppSettings.t).

(** What [loadSettings] does, by the state of the disk. *)
Lemma loadSettings_outcome disk :
  loadSettings disk =
    match settingsFile disk with
    | None => (disk, [], Return defaultSettings)
    | Some text =>
        if readFails disk
        then (disk, [ConsoleError "Error loading settings:"], Return defaultSettings)
        else
          match text with
          | Encodes (JsonObject raw) => (disk, [], Return (migrate raw))
          | EncodesOther => (disk, [], Return (migrate noKeys))
          | _ => (disk, [ConsoleError "Error loading settings:"], Return defaultSettings)
          end
    end.
Proof.
  unfold loadSettings. run_m.
  destruct (settingsFile disk) as [[|[|raw]|]|]; destruct (readFails disk); by run_m.
Qed.

(** [loadSettings] returns and leaves the disk alone. *)
Lemma loadSettings_returns disk :
  ∃ tr loaded, loadSettings disk = (disk, tr, Return loaded).
Proof.
  rewrite loadSettings_outcome.
  destruct (settingsFile disk) as [[|[|raw]|]|]; destruct (readFails disk);
    by eexists _, _.
Qed.


(** X20.  [loadSettings] never raises and never writes.  Without a
    settings file it returns the defaults silently.  It logs an error, and
    returns the defaults, exactly when the file exists and reading it
    raises, or its text does not parse, or parses to [null].  A text that
    parses to a number, a string, a boolean or an array gives the defaults
    without any log; a text that parses to an object gives the migrated
    content of the file. *)
Theorem loadSettings_falls_back disk :
  ∃ tr loaded,
    loadSettings disk = (disk, tr, Return loaded) ∧
    (settingsFile disk = None → loaded = defaultSettings ∧ tr = []) ∧
    (unusableFile disk →
       loaded = defaultSettings ∧ tr = [ConsoleError "Error loading settings:"]) ∧
    (tr ≠ [] → unusableFile disk) ∧
    (settingsFile disk = Some EncodesOther → readFails disk = false →
       loaded = defaultSettings ∧ tr = []) ∧
    (∀ raw,
       settingsFile disk = Some (Encodes (JsonObject raw)) → readFails disk = false →
       loaded = migrate raw ∧ tr = []).
Proof.
  rewrite loadSettings_outcome. unfold unusableFile.
  destruct (settingsFile disk) as [[|[|raw]|]|] eqn:Hfile;
    destruct (readFails disk) eqn:Hread;
    eexists _, _; (split; [reflexivity|]);
    (split; [intros; try discriminate; done|]);
    (split; [intros; try contradictory_cases; done|]);
    (split; [intros Htr; try (by destruct Htr);
             first [by left | by right; left | by right; right]|]);
    (split; [intros; try discriminate; done|]);
    intros; try discriminate; split; congruence.
Qed.

(** An unparsable file is logged; a missing file and a file holding the
    number 42 give the defaults in silence. *)
Lemma loadSettings_falls_back_witness :
  loadSettings (mkDisk (Some Garbled) false false)
    = (mkDisk (Some Garbled) false false, [ConsoleError "Error loading settings:"],
       Return defaultSettings) ∧
  loadSettings (mkDisk None true true) = (mkDisk None true true, [], Return defaultSettings) ∧
  loadSettings (mkDisk (Some EncodesOther) false false)
    = (mkDisk (Some EncodesOther) false false, [], Return defaultSettings).
Proof.
  split; [|split].
  - destruct (loadSettings_falls_back (mkDisk (Some Garbled) false false))
      as (tr & loaded & -> & _ & Hbad & _).
    destruct Hbad as [-> ->]; [|reflexivity]. right. left. reflexivity.
  - destruct (loadSettings_falls_back (mkDisk None true true))
      as (tr & loaded & -> & Hnone & _).
    destruct (Hnone eq_refl) as [-> ->]. reflexivity.
  - destruct (loadSettings_falls_back (mkDisk (Some EncodesOther) false false))
      as (tr & loaded & -> & _ & _ & _ & Hother & _).
    destruct (Hother eq_refl eq_refl) as [-> ->]. reflexivity.
Defined.

Lemma migrate_normal raw :
  AppSettings.menuBarDisplayMode (migrate raw) ≠ "" ∧
  AppSettings.menuBarDisplayMode (migrate raw) ≠ "alternate" ∧
  AppSettings.menuBarCostSource (migrate raw) ≠ "".
Proof.
  unfold migrate, truthy. simpl. repeat split.
  - destruct (PartialAppSettings.menuBarDisplayMode raw) as [m|]; [|done].
    destruct (bool_decide (m = "")) eqn:E; [done|].
    apply bool_decide_eq_false in E. by destruct (bool_decide (m = "alternate")).
  - destruct (PartialAppSettings.menuBarDisplayMode raw) as [m|]; [|done].
    destruct (bool_decide (m = "")); [done|].
    destruct (bool_decide (m = "alternate")) eqn:E; [done|].
    by apply bool_decide_eq_false in E.
  - destruct (PartialAppSettings.menuBarCostSource raw) as [c|]; [|done].
    destruct (bool_decide (c = "")) eqn:E; [done|].
    by apply bool_decide_eq_false in E.
Qed.

(** Whatever the disk holds, the loaded display mode is neither empty nor
    ["alternate"], and the loaded cost source is not empty. *)
Lemma loadSettings_normal disk :
  ∃ tr loaded,
    loadSettings disk = (disk, tr, Return loaded) ∧
    AppSettings.menuBarDisplayMode loaded ≠ "" ∧
    AppSettings.menuBarDisplayMode loaded ≠ "alternate" ∧
    AppSettings.menuBarCostSource loaded ≠ "".
Proof.
  rewrite loadSettings_outcome.
  destruct (settingsFile disk) as [[|[|raw]|]|]; destruct (readFails disk);
    eexists _, _; (split; [reflexivity|]);
    try apply migrate_normal; done.
Qed.

(** X21.  What [loadSettings] can return.  The display mode is never empty
    and never the retired ["alternate"] (both become ["both"]), the cost
    source is never empty, and each key missing from the file takes its
    default on its own.  Unknown strings are not validated: a display mode
    or cost source the application does not know is returned as it is. *)
Theorem loaded_settings_are_migrated disk :
  ∃ tr loaded,
    loadSettings disk = (disk, tr, Return loaded) ∧
    AppSettings.menuBarDisplayMode loaded ≠ "" ∧
    AppSettings.menuBarDisplayMode loaded ≠ "alternate" ∧
    AppSettings.menuBarCostSource loaded ≠ "" ∧
    (∀ raw,
       settingsFile disk = Some (Encodes (JsonObject raw)) → readFails disk = false →
       (PartialAppSettings.menuBarDisplayMode raw = Some "alternate" →
          AppSettings.menuBarDisplayMode loaded = "both") ∧
       (∀ m, PartialAppSettings.menuBarDisplayMode raw = Some m →
             m ≠ "" → m ≠ "alternate" → AppSettings.menuBarDisplayMode loaded = m) ∧
       (∀ c, PartialAppSettings.menuBarCostSource raw = Some c →
             c ≠ "" → AppSettings.menuBarCostSource loaded = c) ∧
       (PartialAppSettings.menuBarCostSource raw = None →
          AppSettings.menuBarCostSource loaded = "today") ∧
       (PartialAppSettings.notificationThresholds raw = None →
          AppSettings.notificationThresholds loaded = Thresholds.mk 70 90) ∧
       (∀ th, PartialAppSettings.notificationThresholds raw = Some th →
              AppSettings.notificationThresholds loaded = th)).
Proof.
  rewrite loadSettings_outcome.
  assert (Hdefault : AppSettings.menuBarDisplayMode defaultSettings ≠ "" ∧
                     AppSettings.menuBarDisplayMode defaultSettings ≠ "alternate" ∧
                     AppSettings.menuBarCostSource defaultSettings ≠ "") by done.
  destruct (settingsFile disk) as [[|[|raw]|]|] eqn:Hfile;
    destruct (readFails disk) eqn:Hread;
    eexists _, _; (split; [reflexivity|]);
    try (destruct Hdefault as (? & ? & ?); repeat split; try done; intros; congruence).
  destruct (migrate_normal raw) as (? & ? & ?).
  split; [done|]. split; [done|]. split; [done|].
  intros raw' [= <-] _. unfold migrate, truthy. simpl.
  repeat split.
  - by intros ->.
  - intros m -> Hm1 Hm2. by rewrite !bool_decide_eq_false_2.
  - intros c -> Hc1. by rewrite bool_decide_eq_false_2.
  - by intros ->.
  - by intros ->.
  - by intros th ->.
Qed.

Lemma loaded_settings_are_migrated_witness :
  let raw := PartialAppSettings.mk (Some "alternate") (Some "weekly") None in
  ∃ tr loaded,
    loadSettings (mkDisk (Some (Encodes (JsonObject raw))) false false)
      = (mkDisk (Some (Encodes (JsonObject raw))) false false, tr, Return loaded) ∧
    AppSettings.menuBarDisplayMode loaded = "both" ∧
    AppSettings.menuBarCostSource loaded = "weekly" ∧
    AppSettings.notificationThresholds loaded = Thresholds.mk 70 90.
Proof.
  intros raw.
  destruct (loaded_settings_are_migrated (mkDisk (Some (Encodes (JsonObject raw))) false false))
    as (tr & loaded & Hrun & _ & _ & _ & Hraw).
  destruct (Hraw raw eq_refl eq_refl) as (Halt & _ & Hsource & _ & Hth & _).
  exists tr, loaded. split; [exact Hrun|].
  split; [apply Halt; reflexivity|].
  split; [apply (Hsource "weekly"); [reflexivity|discriminate]|].
  apply Hth. reflexivity.
Defined.


(** What [saveSettings] does, given what its own [loadSettings] returns. *)
Lemma saveSettings_outcome settings disk tr current :
  loadSettings disk = (disk, tr, Return current) →
  saveSettings settings disk =
    if writeFails disk
    then (disk, tr ++ [ConsoleError "Error saving settings:"], Throw "EACCES")
    else (mkDisk (Some (stringify (spread current settings)))
                 (readFails disk) (writeFails disk),
          tr, Return tt).
Proof.
  intros Hload. unfold saveSettings, writeFile. run_m. rewrite Hload.
  destruct (writeFails disk); run_m; by rewrite ?app_nil_r.
Qed.

Lemma migrate_stringify (loaded : AppSettings.t) :
  AppSettings.menuBarDisplayMode loaded ≠ "" →
  AppSettings.menuBarDisplayMode loaded ≠ "alternate" →
  AppSettings.menuBarCostSource loaded ≠ "" →
  ∀ raw, stringify loaded = Encodes (JsonObject raw) → migrate raw = loaded.
Proof.
  intros H1 H2 H3 raw [= <-]. unfold migrate, truthy. simpl.
  rewrite !bool_decide_eq_false_2 by done. simpl. by destruct loaded.
Qed.

(** X22.  Saving and loading round-trip.  On a disk that reads and writes,
    when the keys given carry no empty string and no ["alternate"],
    [saveSettings] leaves a file from which [loadSettings] returns exactly
    the settings loaded before overridden by the keys given: keys not
    given keep their stored values. *)
Theorem save_then_load settings disk :
  readFails disk = false →
  writeFails disk = false →
  plainSettings settings →
  ∃ tr current disk',
    loadSettings disk = (disk, tr, Return current) ∧
    saveSettings settings disk = (disk', tr, Return tt) ∧
    loadSettings disk' = (disk', [], Return (spread current settings)).
Proof.
  intros Hread Hwrite [Hmode Hsource].
  destruct (loadSettings_normal disk) as (tr & current & Hload & Hm1 & Hm2 & Hc).
  exists tr, current. eexists. split; [exact Hload|].
  rewrite (saveSettings_outcome settings disk tr current Hload), Hwrite.
  split; [reflexivity|].
  rewrite loadSettings_outcome. simpl. rewrite Hread.
  f_equal. f_equal.
  apply (migrate_stringify (spread current settings)); [| | |done].
  - unfold spread. simpl.
    destruct (PartialAppSettings.menuBarDisplayMode settings) as [m|]; [|done].
    by destruct (Hmode m eq_refl).
  - unfold spread. simpl.
    destruct (PartialAppSettings.menuBarDisplayMode settings) as [m|]; [|done].
    by destruct (Hmode m eq_refl).
  - unfold spread. simpl.
    destruct (PartialAppSettings.menuBarCostSource settings) as [c|]; [|done].
    by destruct (Hsource c eq_refl).
Qed.

Lemma save_then_load_witness :
  let stored := PartialAppSettings.mk (Some "cost") (Some "sessionWindow")
                  (Some (Thresholds.mk 80 95)) in
  let disk := mkDisk (Some (Encodes (JsonObject stored))) false false in
  ∃ tr disk',
    saveSettings (PartialAppSettings.mk (Some "percentage") None None) disk
      = (disk', tr, Return tt) ∧
    loadSettings disk'
      = (disk', [], Return (AppSettings.mk "percentage" "sessionWindow" (Thresholds.mk 80 95))).
Proof.
  intros stored disk.
  destruct (save_then_load (PartialAppSettings.mk (Some "percentage") None None) disk)
    as (tr & current & disk' & Hload & Hsave & Hback).
  - reflexivity.
  - reflexivity.
  - split; intros v [= <-]; try discriminate. split; discriminate.
  - exists tr, disk'. split; [exact Hsave|].
    rewrite Hback. f_equal. f_equal.
    assert (E : current = migrate stored).
    { rewrite loadSettings_outcome in Hload. simpl in Hload. congruence. }
    rewrite E. reflexivity.
Defined.



(** X24.  When writing the file raises, [saveSettings] logs the error and
    raises it again to its caller; the disk is as before. *)
Theorem save_failure_is_rethrown settings disk :
  writeFails disk = true →
  ∃ tr,
    saveSettings settings disk =
      (disk, tr ++ [ConsoleError "Error saving settings:"], Throw "EACCES").
Proof.
  intros Hwrite.
  destruct (loadSettings_returns disk) as (tr & loaded & Hload).
  exists tr. by rewrite (saveSettings_outcome settings disk _ _ Hload), Hwrite.
Qed.

Lemma save_failure_is_rethrown_witness :
  ∃ tr,
    saveSettings (PartialAppSettings.mk (Some "percentage") None None)
      (mkDisk None false true)
    = (mkDisk None false true, tr ++ [ConsoleError "Error saving settings:"],
       Throw "EACCES").
Proof.
  exact (save_failure_is_rethrown (PartialAppSettings.mk (Some "percentage") None None)
           (mkDisk None false true) eq_refl).
Defined.

End Settings.

(** ** The tray title and the handlers of the main process *)

Section MainProcess.

Import ClaudeMeterApp.

Implicit Types (app : t) (k : Tick).

Lemma getMenuBarData_outcome now f menuNow (p : CCUsageService.Process) :
  ∃ p' tr r,
    CCUsageService.getUsageStats now f p = (p', tr, Return r) ∧
    CCUsageService.getMenuBarData now f menuNow p =
      (p', tr,
       Return (MenuBarData.mk
                 (percentageOf (Ref.value r))
                 (if bool_decide (CCUsageService.menuBarCostSource (CCUsageService.service p')
                                  = CostSource.sessionWindow)
                  then CCUsageService.getSessionWindowCost menuNow (CCUsageService.service p')
                  else DailyUsage.totalCost (UsageStats.today (Ref.value r)))
                 (CCUsageService.getStatus (percentageOf (Ref.value r)))
                 (UsageStats.oauthUtilization (Ref.value r)))).
Proof.
  destruct (getUsageStats_returns now f p) as (p' & tr & r & Hrun & _).
  exists p', tr, r. split; [exact Hrun|].
  unfold CCUsageService.getMenuBarData. unfold mbind at 1, M_bind. rewrite Hrun.
  run_m. by rewrite app_nil_r.
Qed.

Lemma notify_poll now data app :
  notify now data app =
    (mk (menuBarDisplayMode app) (trayTitle app) (usageService app)
        (NotificationService.poll now data (notificationService app)).1 (disk app),
     (NotificationService.checkAndNotify now data NotificationService.auto
        (NotificationService.service
           (NotificationService.runTimers now (notificationService app)))).2,
     Return tt) ∧
  NotificationService.fired
    (NotificationService.checkAndNotify now data NotificationService.auto
       (NotificationService.service
          (NotificationService.runTimers now (notificationService app)))).2
  = (NotificationService.poll now data (notificationService app)).2.
Proof.
  unfold notify. rewrite poll_unfold. simpl.
  by destruct (NotificationService.checkAndNotify _ _ _ _).
Qed.

(** One [updateTrayTitle]: the menu-bar data, the title made of it, and
    one poll of the notification gate with the same data. *)
Lemma updateTrayTitle_outcome k app :
  ∃ u' trm data effects,
    CCUsageService.getMenuBarData (startedAt k) (fetch k) (menuAt k) (usageService app)
      = (u', trm, Return data) ∧
    updateTrayTitle k app =
      (mk (menuBarDisplayMode app) (formatTitle (menuBarDisplayMode app) data) u'
          (NotificationService.poll (notifyAt k) data (notificationService app)).1
          (disk app),
       trm ++ effects, Return tt) ∧
    NotificationService.fired effects
      = (NotificationService.poll (notifyAt k) data (notificationService app)).2 ∧
    sourceCalls effects = (0, 0, 0)%nat.
Proof.
  destruct (getMenuBarData_outcome (startedAt k) (fetch k) (menuAt k) (usageService app))
    as (u' & trm & r & _ & Hmenu).
  eexists u', trm, _, _. split; [exact Hmenu|].
  unfold updateTrayTitle. run_m. rewrite Hmenu. run_m.
  match goal with |- context [notify ?n ?d ?a] =>
    destruct (notify_poll n d a) as [Hnotify Hfired]; rewrite Hnotify end.
  simpl. split; [reflexivity|]. split; [exact Hfired|].
  match goal with |- context [NotificationService.checkAndNotify ?n ?d ?s ?g] =>
    destruct (checkAndNotify_cases n d s g) as [-> | (? & ? & _ & _ & _ & _ & ->)] end;
    reflexivity.
Qed.

(** X25.  [updateTrayTitle] never falls into its [catch]: the services
    behind it do not raise, so it always completes, sets the title made of
    the menu-bar data (never the placeholder of the failure path), and
    polls the notification gate once with that same data. *)
Theorem updateTrayTitle_always_renders k app :
  ∃ u' trm data effects,
    CCUsageService.getMenuBarData (startedAt k) (fetch k) (menuAt k) (usageService app)
      = (u', trm, Return data) ∧
    updateTrayTitle k app =
      (mk (menuBarDisplayMode app) (formatTitle (menuBarDisplayMode app) data) u'
          (NotificationService.poll (notifyAt k) data (notificationService app)).1
          (disk app),
       trm ++ effects, Return tt) ∧
    NotificationService.fired effects
      = (NotificationService.poll (notifyAt k) data (notificationService app)).2.
Proof.
  destruct (updateTrayTitle_outcome k app) as (u' & trm & data & effects & H1 & H2 & H3 & _).
  by exists u', trm, data, effects.
Qed.

(** X26.  Alerts follow the five-hour utilization and nothing else.  When
    the poll made by [updateTrayTitle] fires, the rate-limit part of the
    data is present and available, the percentage is its five-hour
    utilization, and that is at least 70 (at least 90 for a critical
    alert); the cost plays no part. *)
Theorem alerts_follow_five_hour_utilization k app u' trm data :
  CCUsageService.getMenuBarData (startedAt k) (fetch k) (menuAt k) (usageService app)
    = (u', trm, Return data) →
  (NotificationService.poll (notifyAt k) data (notificationService app)).2 = true →
  (70 <= MenuBarData.percentageUsed data)%Q ∧
  (MenuBarData.status data = critical → (90 <= MenuBarData.percentageUsed data)%Q) ∧
  ∃ o,
    MenuBarData.oauthUtilization data = Some o ∧
    OAuthUtilization.isAvailable o = true ∧
    MenuBarData.percentageUsed data = Window.utilization (OAuthUtilization.fiveHour o).
Proof.
  intros Hmenu Hfired.
  destruct (getMenuBarData_outcome (startedAt k) (fetch k) (menuAt k) (usageService app))
    as (p' & tr & r & _ & Hout).
  rewrite Hout in Hmenu. injection Hmenu as <- <- <-. simpl.
  destruct (poll_fired_level _ _ _ Hfired) as (_ & _ & _ & Hrank). simpl in Hrank.
  set (pct := percentageOf (Ref.value r)) in *.
  assert (H70 : (70 <= pct)%Q).
  { destruct (Qlt_le_dec pct 70) as [Hlt|Hge]; [|done].
    destruct (getStatus_cases pct) as (Hsafe & _). rewrite (Hsafe Hlt) in Hrank.
    simpl in Hrank. lia. }
  split; [exact H70|]. split.
  - intros Hcrit. destruct (Qlt_le_dec pct 90) as [Hlt|Hge]; [|done].
    destruct (getStatus_cases pct) as (_ & Hwarn & _).
    rewrite (Hwarn H70 Hlt) in Hcrit. discriminate.
  - subst pct. unfold percentageOf in *.
    destruct (UsageStats.oauthUtilization (Ref.value r)) as [o|];
      [|by vm_compute in H70].
    destruct (OAuthUtilization.isAvailable o) eqn:Hav; [|by vm_compute in H70].
    by exists o.
Qed.

Lemma alerts_follow_five_hour_utilization_witness :
  ∃ u' trm data,
    CCUsageService.getMenuBarData (startedAt hotTick) (fetch hotTick) (menuAt hotTick)
      (usageService firstApp) = (u', trm, Return data) ∧
    (NotificationService.poll (notifyAt hotTick) data (notificationService firstApp)).2
      = true ∧
    (90 <= MenuBarData.percentageUsed data)%Q.
Proof.
  let run := eval vm_compute in
      (CCUsageService.getMenuBarData (startedAt hotTick) (fetch hotTick) (menuAt hotTick)
         (usageService firstApp)) in
  match run with
  | (?u', ?trm, Return ?data) =>
      exists u', trm, data;
      assert (Hrun : CCUsageService.getMenuBarData (startedAt hotTick) (fetch hotTick)
                       (menuAt hotTick) (usageService firstApp) = (u', trm, Return data))
        by (vm_compute; reflexivity);
      assert (Hfired : (NotificationService.poll (notifyAt hotTick) data
                          (notificationService firstApp)).2 = true)
        by (vm_compute; reflexivity);
      destruct (alerts_follow_five_hour_utilization hotTick firstApp u' trm data
                  Hrun Hfired) as (_ & Hcrit & _);
      split; [exact Hrun|]; split; [exact Hfired|];
      apply Hcrit; reflexivity
  end.
Defined.


(** X27.  A failed ledger read silences the alert of that poll.  When the
    3-second cache misses and a ledger read fails, the menu-bar data is 0%
    and [safe] without a rate-limit part, whatever the rate-limit call
    returned at the same time; [updateTrayTitle] shows it, and its poll of
    the notification gate requests nothing and leaves the recorded alert
    state as it was. *)
Theorem ledger_failure_silences_alert k app :
  cacheFresh (startedAt k) (CCUsageService.service (usageService app)) = false →
  (∃ reason, Fetch.blocks (fetch k) = Rejected reason) ∨
  (∃ reason, Fetch.dailyData (fetch k) = Rejected reason) →
  ∃ u' trm cost gate',
    CCUsageService.getMenuBarData (startedAt k) (fetch k) (menuAt k) (usageService app)
      = (u', trm, Return (MenuBarData.mk 0 cost safe None)) ∧
    updateTrayTitle k app =
      (mk (menuBarDisplayMode app)
          (formatTitle (menuBarDisplayMode app) (MenuBarData.mk 0 cost safe None))
          u' gate' (disk app),
       trm, Return tt) ∧
    NotificationService.service gate'
      = NotificationService.service
          (NotificationService.runTimers (notifyAt k) (notificationService app)).
Proof.
  intros Hmiss Hfail.
  destruct (updateTrayTitle_outcome k app)
    as (u' & trm & data & effects & Hmenu & Hrun & Hfired & _).
  destruct (getMenuBarData_outcome (startedAt k) (fetch k) (menuAt k) (usageService app))
    as (p' & tr & r & Hstats & Hout).
  assert (Hempty : Ref.value r = CCUsageService.getEmptyStats (Fetch.settledAt (fetch k))).
  { destruct (getUsageStats_miss _ (fetch k) _ Hmiss) as (o' & tro & od & tr0 & _ & _ & Hres).
    rewrite Hstats in Hres.
    destruct Hfail as [[reason Hb] | [reason Hd]].
    - rewrite Hb in Hres. by injection Hres as _ _ ->.
    - rewrite Hd in Hres. destruct (Fetch.blocks (fetch k)); by injection Hres as _ _ ->. }
  rewrite Hout in Hmenu. injection Hmenu as <- <- Hdata.
  rewrite Hempty in Hdata. unfold percentageOf in Hdata. simpl in Hdata.
  change (CCUsageService.getStatus 0) with safe in Hdata.
  subst data.
  eexists p', tr, _, _. split; [rewrite Hout, Hempty; reflexivity|].
  assert (Hsilent : NotificationService.checkAndNotify (notifyAt k)
            (MenuBarData.mk 0
               (if bool_decide
                     (CCUsageService.menuBarCostSource (CCUsageService.service p')
                      = CostSource.sessionWindow)
                then CCUsageService.getSessionWindowCost (menuAt k)
                       (CCUsageService.service p')
                else 0%Q) safe None)
            NotificationService.auto
            (NotificationService.service
               (NotificationService.runTimers (notifyAt k) (notificationService app)))
          = (NotificationService.service
               (NotificationService.runTimers (notifyAt k) (notificationService app)), []))
    by (apply checkAndNotify_no_edge; by apply edge_safe).
  split.
  - unfold updateTrayTitle. run_m. rewrite Hout, Hempty. run_m.
    unfold percentageOf. simpl. change (CCUsageService.getStatus 0) with safe.
    unfold notify. simpl. rewrite Hsilent. simpl.
    by rewrite !app_nil_r.
  - reflexivity.
Qed.

Lemma ledger_failure_silences_alert_witness :
  let k := mkTick sampleClock
             (Fetch.mk (Rejected "ledger") (Fulfilled (Some [sampleDay])) hotEnv
                       sampleClock 0 0)
             sampleClock sampleClock in
  ∃ app' tr,
    updateTrayTitle k firstApp = (app', tr, Return tt) ∧
    trayTitle app' = "0% · $0.00" ∧
    NotificationService.service (notificationService app') = NotificationService.initial.
Proof.
  intros k.
  destruct (ledger_failure_silences_alert k firstApp eq_refl)
    as (u' & trm & cost & gate' & Hmenu & Hrun & Hgate).
  - left. by eexists.
  - eexists _, _. split; [exact Hrun|]. simpl. split; [|exact Hgate].
    assert (E : MenuBarData.cost
                  (match (CCUsageService.getMenuBarData (startedAt k) (fetch k) (menuAt k)
                            (usageService firstApp)).2 with
                   | Return x => x
                   | Throw _ => snapshot 1
                   end) = 0%Q) by (vm_compute; reflexivity).
    rewrite Hmenu in E. simpl in E. rewrite E. reflexivity.
Defined.


Lemma setDisk_same app : setDisk (disk app) app = app.
Proof. by destruct app. Qed.

(** X28.  The handler of ['save-settings'].  When the file cannot be
    written the handler raises and the application is as before: neither
    the cost source nor the title changes.  When the file is written and
    the settings carry no display mode, the cost source given (if any) is
    in force and the cached statistics are dropped, but the tray title is
    not refreshed: it keeps showing the old figures until the next
    update. *)
Theorem save_settings_handler settings k app :
  (SettingsService.writeFails (disk app) = true →
   ∃ tr, saveSettingsHandler settings k app = (app, tr, Throw "EACCES")) ∧
  (SettingsService.writeFails (disk app) = false →
   SettingsService.truthy (PartialAppSettings.menuBarDisplayMode settings) = None →
   ∃ tr disk',
     saveSettingsHandler settings k app =
       (mk (menuBarDisplayMode app) (trayTitle app)
           (CCUsageService.withService
              (CCUsageService.updateConfiguration
                 (PartialConfiguration.mk
                    (costSourceOf <$> PartialAppSettings.menuBarCostSource settings)
                    None None))
              (usageService app))
           (notificationService app) disk',
        tr, Return true) ∧
     SettingsService.settingsFile disk' ≠ None).
Proof.
  destruct (loadSettings_returns (disk app)) as (tr0 & loaded & Hload).
  pose proof (saveSettings_outcome settings (disk app) tr0 loaded Hload) as Hsave.
  split.
  - intros Hwrite. rewrite Hwrite in Hsave.
    unfold saveSettingsHandler. run_m. rewrite Hsave. run_m.
    rewrite setDisk_same. by eexists.
  - intros Hwrite Hmode. rewrite Hwrite in Hsave.
    unfold saveSettingsHandler, configure. run_m. rewrite Hsave. run_m.
    rewrite Hmode. run_m.
    eexists _, _. split; [reflexivity|done].
Qed.

Lemma save_settings_handler_witness :
  (∃ tr,
     saveSettingsHandler (PartialAppSettings.mk None (Some "sessionWindow") None) hotTick
       (mk "both" "12% · $1.00" CCUsageService.boot NotificationService.start
           (SettingsService.mkDisk None false true))
     = (mk "both" "12% · $1.00" CCUsageService.boot NotificationService.start
           (SettingsService.mkDisk None false true), tr, Throw "EACCES")) ∧
  (∃ app' tr,
     saveSettingsHandler (PartialAppSettings.mk None (Some "sessionWindow") None) hotTick
       (mk "both" "12% · $1.00" CCUsageService.boot NotificationService.start
           (SettingsService.mkDisk None false false))
     = (app', tr, Return true) ∧
     trayTitle app' = "12% · $1.00" ∧
     CCUsageService.menuBarCostSource (CCUsageService.service (usageService app'))
       = CostSource.sessionWindow).
Proof.
  split.
  - apply (save_settings_handler (PartialAppSettings.mk None (Some "sessionWindow") None)
             hotTick). reflexivity.
  - destruct (save_settings_handler
                (PartialAppSettings.mk None (Some "sessionWindow") None) hotTick
                (mk "both" "12% · $1.00" CCUsageService.boot NotificationService.start
                    (SettingsService.mkDisk None false false))) as [_ Hok].
    destruct (Hok eq_refl eq_refl) as (tr & disk' & Hrun & _).
    eexists _, _. split; [exact Hrun|]. split; reflexivity.
Defined.



End MainProcess.
